(** * salt/modules/dracr.py: a shallow embedding and its checked properties

    The module wraps the [racadm] command line tool: every operation formats
    a command string, hands it to [__salt__['cmd.run_all']], and either
    reports success as a boolean or parses the captured text.  Python byte
    strings are modelled as [string], dictionaries as [gmap], the ambient
    command runner as a function on an abstract world, and Python
    exceptions as an explicit error result. *)

From Stdlib Require Import ZArith NArith Ascii String Decimal DecimalString
  Hexadecimal.
From stdpp Require Import gmap strings list sorting.

Local Open Scope Z_scope.

(** ** Python string primitives (byte strings of Python 2) *)

Module PyStr.

(** [string.whitespace]: tab, newline, vertical tab, form feed, carriage
    return and space. *)
Definition is_space (c : ascii) : bool := Ascii.is_space c.

Definition is_char (a c : ascii) : bool := bool_decide (a = c).

Definition LF : ascii := "010"%char.
Definition CR : ascii := "013"%char.
Definition DQUOTE : ascii := "034"%char.

(** The one-character string holding a line feed. *)
Definition nl : string := String LF "".

(** [len(s) == 0]. *)
Definition is_empty (s : string) : bool :=
  match s with "" => true | String _ _ => false end.

(** [s.lstrip()]. *)
Fixpoint lstrip (s : string) : string :=
  match s with
  | "" => ""
  | String c s' => if is_space c then lstrip s' else s
  end.

(** [s.rstrip()]. *)
Fixpoint rstrip (s : string) : string :=
  match s with
  | "" => ""
  | String c s' =>
      match rstrip s' with
      | "" => if is_space c then "" else String c ""
      | r => String c r
      end
  end.

(** [s.strip()]. *)
Definition strip (s : string) : string := lstrip (rstrip s).

(** [c in s] for a one-character [c]. *)
Fixpoint contains (c : ascii) (s : string) : bool :=
  match s with
  | "" => false
  | String a s' => is_char a c || contains c s'
  end.

(** [s.count(c)] for a one-character [c]. *)
Fixpoint count (c : ascii) (s : string) : nat :=
  match s with
  | "" => O
  | String a s' => ((if is_char a c then 1 else 0) + count c s')%nat
  end.

(** [s.startswith(p)]. *)
Fixpoint startswith (p s : string) : bool :=
  match p, s with
  | "", _ => true
  | String _ _, "" => false
  | String a p', String b s' => is_char a b && startswith p' s'
  end.

(** [s[:-1]]: all but the last character; the empty string stays empty. *)
Fixpoint drop_last (s : string) : string :=
  match s with
  | "" => ""
  | String c s' => match s' with "" => "" | String _ _ => String c (drop_last s') end
  end.

(** Puts a character in front of the first piece of a split under
    construction. *)
Definition cons_first (c : ascii) (pieces : list string) : list string :=
  match pieces with
  | [] => [String c ""]
  | w :: ws => String c w :: ws
  end.

(** [s.split(sep)] for a one-character separator: never empty, and an
    empty piece for every leading, trailing or doubled separator. *)
Fixpoint split_on (sep : ascii) (s : string) : list string :=
  match s with
  | "" => [""]
  | String c s' =>
      if is_char c sep then "" :: split_on sep s'
      else cons_first c (split_on sep s')
  end.

(** [s.split()]: the maximal runs of characters that are not white space. *)
Fixpoint split_ws (s : string) : list string :=
  match s with
  | "" => []
  | String c s' =>
      if is_space c then split_ws s'
      else match s' with
           | "" => [String c ""]
           | String c' _ =>
               if is_space c' then String c "" :: split_ws s'
               else cons_first c (split_ws s')
           end
  end.

(** [s.splitlines()]: lines end at a line feed, a carriage return, or a
    carriage return followed by a line feed; the terminators are dropped
    and a final terminator opens no further line.  [after_cr] records that
    the previous character was a carriage return, so that a line feed
    right after it belongs to the same terminator. *)
Fixpoint splitlines_from (after_cr : bool) (s : string) : list string :=
  match s with
  | "" => []
  | String c s' =>
      if is_char c LF then
        if after_cr then splitlines_from false s'
        else "" :: splitlines_from false s'
      else if is_char c CR then "" :: splitlines_from true s'
      else cons_first c (splitlines_from false s')
  end.

Definition splitlines (s : string) : list string := splitlines_from false s.

(** [sep.join(pieces)]. *)
Fixpoint join (sep : string) (pieces : list string) : string :=
  match pieces with
  | [] => ""
  | [p] => p
  | p :: ps => p +:+ sep +:+ join sep ps
  end.

(** [re.split('  +', s)]: the pieces of [s] between the maximal runs of two
    or more spaces; a single space stays inside its piece.  [cur] is the
    piece being read, reversed, and [sp] the number of spaces read since
    its last character. *)
Fixpoint re_split_spaces_go (cur : string) (sp : nat) (s : string)
  : list string :=
  match s with
  | "" =>
      match sp with
      | O => [String.rev cur]
      | S O => [String.rev (String " " cur)]
      | S (S _) => [String.rev cur; ""]
      end
  | String c s' =>
      if is_char c " " then re_split_spaces_go cur (S sp) s'
      else
        match sp with
        | O => re_split_spaces_go (String c cur) O s'
        | S O => re_split_spaces_go (String c (String " " cur)) O s'
        | S (S _) => String.rev cur :: re_split_spaces_go (String c "") O s'
        end
  end.

Definition re_split_spaces (s : string) : list string :=
  re_split_spaces_go "" O s.

(** [c.lower()] on one character: only the letters A to Z change. *)
Definition lower_char (c : ascii) : ascii :=
  let n := N_of_ascii c in
  if ((65 <=? n) && (n <=? 90))%N then ascii_of_N (n + 32) else c.

(** [s.lower()]. *)
Fixpoint lower (s : string) : string :=
  match s with
  | "" => ""
  | String c s' => String (lower_char c) (lower s')
  end.

(** [s[s.index(c) + 1:len(s)]]: what follows the first [c]; [None] where
    [index] raises because [c] does not occur. *)
Fixpoint after_index (c : ascii) (s : string) : option string :=
  match s with
  | "" => None
  | String a s' => if is_char a c then Some s' else after_index c s'
  end.

(** ['{0}'.format(n)] for an integer. *)
Definition str_of_Z (n : Z) : string := NilZero.string_of_int (Z.to_int n).

(** The digits of ['{0:X}'.format(n)]. *)
Fixpoint upper_hex_digits (d : Hexadecimal.uint) : string :=
  match d with
  | Hexadecimal.Nil => ""
  | Hexadecimal.D0 d => String "0" (upper_hex_digits d)
  | Hexadecimal.D1 d => String "1" (upper_hex_digits d)
  | Hexadecimal.D2 d => String "2" (upper_hex_digits d)
  | Hexadecimal.D3 d => String "3" (upper_hex_digits d)
  | Hexadecimal.D4 d => String "4" (upper_hex_digits d)
  | Hexadecimal.D5 d => String "5" (upper_hex_digits d)
  | Hexadecimal.D6 d => String "6" (upper_hex_digits d)
  | Hexadecimal.D7 d => String "7" (upper_hex_digits d)
  | Hexadecimal.D8 d => String "8" (upper_hex_digits d)
  | Hexadecimal.D9 d => String "9" (upper_hex_digits d)
  | Hexadecimal.Da d => String "A" (upper_hex_digits d)
  | Hexadecimal.Db d => String "B" (upper_hex_digits d)
  | Hexadecimal.Dc d => String "C" (upper_hex_digits d)
  | Hexadecimal.Dd d => String "D" (upper_hex_digits d)
  | Hexadecimal.De d => String "E" (upper_hex_digits d)
  | Hexadecimal.Df d => String "F" (upper_hex_digits d)
  end.

(** [width] copies of the character [c]. *)
Fixpoint replicate_char (width : nat) (c : ascii) : string :=
  match width with
  | O => ""
  | S w => String c (replicate_char w c)
  end.

(** ['{0:08X}'.format(n)] for a natural number: upper-case hexadecimal,
    filled with zeros on the left up to eight digits, longer when the
    number needs more. *)
Definition hex08 (n : N) : string :=
  let digits := upper_hex_digits (N.to_hex_uint n) in
  replicate_char (8 - String.length digits) "0" +:+ digits.

(** The value of one hexadecimal digit, in either case. *)
Definition hex_digit_value (c : ascii) : option N :=
  let n := N_of_ascii c in
  if ((48 <=? n) && (n <=? 57))%N then Some (n - 48)%N
  else if ((65 <=? n) && (n <=? 70))%N then Some (n - 55)%N
  else if ((97 <=? n) && (n <=? 102))%N then Some (n - 87)%N
  else None.

Fixpoint hex_digits_value (acc : N) (s : string) : option N :=
  match s with
  | "" => Some acc
  | String c s' =>
      match hex_digit_value c with
      | Some d => hex_digits_value (16 * acc + d)%N s'
      | None => None
      end
  end.

(** [int(s, 16)] on an unsigned literal with or without the [0x] prefix;
    [None] where Python raises [ValueError]. *)
Definition int16 (s : string) : option N :=
  let digits :=
    match s with
    | String "0" (String "x" d) | String "0" (String "X" d) => d
    | _ => s
    end in
  if is_empty digits then None else hex_digits_value 0%N digits.

End PyStr.

Import PyStr.

(** ** Values, exceptions and results *)

(** The exceptions the modelled code can raise. *)
Inductive exn :=
  | KeyError (key : string)
  | IndexError
  | ValueError.

(** A computation either returns or raises. *)
Inductive outcome (A : Type) :=
  | Ok (a : A)
  | Raise (e : exn).
Arguments Ok {A} a.
Arguments Raise {A} e.

Global Instance outcome_ret : MRet outcome := @Ok.
Global Instance outcome_bind : MBind outcome := fun A B f m =>
  match m with
  | Ok a => f a
  | Raise e => Raise e
  end.

(** A [for] loop that threads an accumulator and stops at the first
    exception. *)
Fixpoint foldlM {M : Type -> Type} `{!MBind M, !MRet M} {A B : Type}
  (f : A -> B -> M A) (a : A) (l : list B) : M A :=
  match l with
  | [] => mret a
  | x :: l' => a' ← f a x; foldlM f a' l'
  end.

(** The values the user table holds: the integer index and the text of
    the configuration entries (and what a caller may pass as [uid]). *)
Inductive pyval :=
  | PInt (n : Z)
  | PStr (s : string).

Global Instance pyval_eq_dec : EqDecision pyval.
Proof. solve_decision. Defined.

Global Instance pyval_countable : Countable pyval :=
  inj_countable'
    (fun v => match v with PInt n => inl n | PStr s => inr s end)
    (fun x => match x with inl n => PInt n | inr s => PStr s end)
    (fun v => match v with PInt _ => eq_refl | PStr _ => eq_refl end).

(** [bool(v)]: zero and the empty string are false. *)
Definition pyval_truthy (v : pyval) : bool :=
  match v with
  | PInt n => negb (n =? 0)
  | PStr s => negb (is_empty s)
  end.

(** ['{0}'.format(v)]. *)
Definition pyval_format (v : pyval) : string :=
  match v with
  | PInt n => str_of_Z n
  | PStr s => s
  end.

(** An optional string argument ([None] by default): its truth value and
    its rendering by [format]. *)
Definition opt_truthy (o : option string) : bool :=
  match o with
  | Some s => negb (is_empty s)
  | None => false
  end.

Definition opt_format (o : option string) : string := default "None" o.

(** What [cmd.run_all] hands back. *)
Record ExecutionResult := mkExecutionResult {
  retcode : Z;
  stdout : string;
  stderr : string
}.

Definition set_stdout (cmd : ExecutionResult) (out : string) : ExecutionResult :=
  {| retcode := retcode cmd; stdout := out; stderr := stderr cmd |}.

(** ** Section parser: [__parse_drac] *)

(** [dict(items)] on a list of lists: the items are read in order, each
    must have exactly two elements, and a later key replaces an earlier
    one. *)
Fixpoint dict_of_lists_from (d : gmap string string)
  (items : list (list string)) : outcome (gmap string string) :=
  match items with
  | [] => Ok d
  | [k; v] :: items' => dict_of_lists_from (<[k := v]> d) items'
  | _ :: _ => Raise ValueError
  end.

Definition dict_of_lists (items : list (list string))
  : outcome (gmap string string) :=
  dict_of_lists_from ∅ items.

(** The test [len(i.rstrip()) > 0 and '=' in i] of [__parse_drac]. *)
Definition is_key_value_line (i : string) : bool :=
  negb (is_empty (rstrip i)) && contains "=" i.

(** The loop body of [__parse_drac]: the state is the dictionary built so
    far and the name of the current section. *)
Definition parse_drac_line (st : gmap string (gmap string string) * string)
  (i : string) : outcome (gmap string (gmap string string) * string) :=
  let '(drac, section) := st in
  if is_key_value_line i then
    match drac !! section with
    | Some props =>
        d ← dict_of_lists [strip <$> split_on "=" i];
        Ok (<[section := d ∪ props]> drac, section)
    | None => Ok (drac, section)
    end
  else
    let section := drop_last (strip i) in
    if bool_decide (drac !! section = None) && negb (is_empty section)
    then Ok (<[section := ∅]> drac, section)
    else Ok (drac, section).

Definition __parse_drac (output : string)
  : outcome (gmap string (gmap string string)) :=
  st ← foldlM parse_drac_line (∅, "") (splitlines output);
  Ok st.1.

(** [system_info], [get_chassis_name] and the other getters index the
    parsed dictionary; a missing key raises [KeyError]. *)
Definition getitem {V : Type} (d : gmap string V) (key : string) : outcome V :=
  match d !! key with
  | Some v => Ok v
  | None => Raise (KeyError key)
  end.

(** [dict(pairs)] on (key, value) pairs read in order. *)
Definition dict_of_pairs (pairs : list (string * string)) : gmap string string :=
  fold_left (fun d kv => <[kv.1 := kv.2]> d) pairs ∅.

(** ** Tagged-block parser: the loop of [inventory] *)

Inductive block := Server | Switch | Cmc | Chassis.

Global Instance block_eq_dec : EqDecision block.
Proof. solve_decision. Defined.

(** The [fields] table. *)
Definition fields (b : block) : list string :=
  match b with
  | Server => ["name"; "idrac_version"; "blade_type"; "gen"; "updateable"]
  | Switch => ["name"; "model_name"; "hw_version"; "fw_version"]
  | Cmc => ["name"; "cmc_version"; "updateable"]
  | Chassis => ["name"; "fw_version"; "fqdd"]
  end.

(** The flags [in_server], [in_switch], [in_cmc] and [in_chassis]. *)
Record block_flags := mkFlags {
  in_server : bool;
  in_switch : bool;
  in_cmc : bool;
  in_chassis : bool
}.

(** The dictionary [ret], whose four keys are fixed when it is created. *)
Record Inventory := mkInventory {
  inv_server : gmap string (gmap string string);
  inv_switch : gmap string (gmap string string);
  inv_cmc : gmap string (gmap string string);
  inv_chassis : gmap string (gmap string string)
}.

Definition inv_get (b : block) (ret : Inventory)
  : gmap string (gmap string string) :=
  match b with
  | Server => inv_server ret
  | Switch => inv_switch ret
  | Cmc => inv_cmc ret
  | Chassis => inv_chassis ret
  end.

(** [ret[b][key] = record]. *)
Definition inv_set (b : block) (key : string) (record : gmap string string)
  (ret : Inventory) : Inventory :=
  match b with
  | Server => mkInventory (<[key := record]> (inv_server ret)) (inv_switch ret)
                (inv_cmc ret) (inv_chassis ret)
  | Switch => mkInventory (inv_server ret) (<[key := record]> (inv_switch ret))
                (inv_cmc ret) (inv_chassis ret)
  | Cmc => mkInventory (inv_server ret) (inv_switch ret)
             (<[key := record]> (inv_cmc ret)) (inv_chassis ret)
  | Chassis => mkInventory (inv_server ret) (inv_switch ret) (inv_cmc ret)
                 (<[key := record]> (inv_chassis ret))
  end.

Definition flag_of (b : block) (fl : block_flags) : bool :=
  match b with
  | Server => in_server fl
  | Switch => in_switch fl
  | Cmc => in_cmc fl
  | Chassis => in_chassis fl
  end.

(** [dict((k, v) for d in map(mapit, fields[b], line) for (k, v) in
    d.items())]: [map] over two sequences stops at the shorter one. *)
Definition inventory_record (b : block) (line : list string)
  : gmap string string :=
  dict_of_pairs (zip (fields b) line).

(** One of the four [if in_...:] statements. *)
Definition inventory_store (b : block) (fl : block_flags) (key : string)
  (line : list string) (ret : Inventory) : Inventory :=
  if flag_of b fl then inv_set b key (inventory_record b line) ret else ret.

(** The loop body of [inventory]. *)
Definition inventory_line (st : block_flags * Inventory) (l : string)
  : outcome (block_flags * Inventory) :=
  let '(fl, ret) := st in
  if startswith "<Server>" l then Ok (mkFlags true false false false, ret)
  else if startswith "<Switch>" l then Ok (mkFlags false true false false, ret)
  else if startswith "<CMC>" l then Ok (mkFlags false false true false, ret)
  else if startswith "<Chassis Infrastructure>" l
  then Ok (mkFlags false false false true, ret)
  else if (String.length l <? 1)%nat then Ok (fl, ret)
  else
    let line := re_split_spaces (strip l) in
    match line with
    | [] => Raise IndexError
    | key :: _ =>
        Ok (fl,
            inventory_store Chassis fl key line
              (inventory_store Cmc fl key line
                 (inventory_store Switch fl key line
                    (inventory_store Server fl key line ret))))
    end.

Definition inventory_parse (out : string) : outcome Inventory :=
  st ← foldlM inventory_line
         (mkFlags false false false false, mkInventory ∅ ∅ ∅ ∅)
         (splitlines out);
  Ok st.2.

(** ** Fixed-column parser: the loop of [list_slotnames] *)

(** The record stored for one data line. *)
Definition slot_record (fields : list string) (slot : string)
  : gmap string string :=
  <["hostname" := default "" (fields !! 2%nat)]>
    (<["slotname" := default "" (fields !! 1%nat)]>
       (<["slot" := slot]> ∅)).

(** The loop body of [list_slotnames]; the state is [stripheader] and
    [slots]. *)
Definition slotnames_line (st : bool * gmap string (gmap string string))
  (l : string) : outcome (bool * gmap string (gmap string string)) :=
  let '(stripheader, slots) := st in
  if startswith "<" l then Ok (false, slots)
  else if stripheader then Ok (stripheader, slots)
  else
    let fields := split_ws l in
    match fields with
    | [] => Raise IndexError
    | slot :: _ => Ok (stripheader, <[slot := slot_record fields slot]> slots)
    end.

Definition slotnames_parse (out : string)
  : outcome (gmap string (gmap string string)) :=
  st ← foldlM slotnames_line (true, ∅) (splitlines out);
  Ok st.2.

(** ** Privilege mask of [set_permissions] *)

Definition privileges : gmap string string :=
  list_to_map
    [("login", "0x0000001");
     ("drac", "0x0000002");
     ("user_management", "0x0000004");
     ("clear_logs", "0x0000008");
     ("server_control_commands", "0x0000010");
     ("console_redirection", "0x0000020");
     ("virtual_media", "0x0000040");
     ("test_alerts", "0x0000080");
     ("debug_commands", "0x0000100")].

(** The body of the loop over [permissions.split(',')]. *)
Definition privilege_step (permission : N) (i : string) : outcome N :=
  let perm := strip i in
  match privileges !! perm with
  | Some hex =>
      match int16 hex with
      | Some bit => Ok (permission + bit)%N
      | None => Raise ValueError
      end
  | None => Ok permission
  end.

Definition privilege_mask (permissions : string) : outcome N :=
  foldlM privilege_step 0%N (split_on "," permissions).

(** The last argument of the command: ['0x{1:08X}'.format(uid, permission)]. *)
Definition privilege_argument (permissions : string) : outcome string :=
  permission ← privilege_mask permissions;
  Ok ("0x" +:+ hex08 permission).

(** ** Index allocation of [create_user] *)

(** [set(range(2, 12))]. *)
Definition uid_band : gset Z := list_to_set (seqZ 2 10).

(** [set(range(2, 12)) - _uids]: the band without the integers that equal
    a member of [_uids]. *)
Definition free_uids (_uids : gset pyval) : gset Z :=
  filter (fun i => PInt i ∉ _uids) uid_band.

(** [sorted(xs, reverse=True)]. *)
Definition sorted_reverse (xs : list Z) : list Z := merge_sort Z.ge xs.

(** [xs.pop()]: the last element, [IndexError] on an empty list. *)
Definition pop (xs : list Z) : outcome Z :=
  match last xs with
  | Some x => Ok x
  | None => Raise IndexError
  end.

(** [sorted(list(set(range(2, 12)) - _uids), reverse=True).pop()]. *)
Definition next_uid (_uids : gset pyval) : outcome Z :=
  pop (sorted_reverse (elements (free_uids _uids))).

(** The loop that collects [users[idx]['index']] into [_uids]. *)
Definition collect_uids (users : gmap string (gmap string pyval))
  : outcome (gset pyval) :=
  foldlM (fun (_uids : gset pyval) (entry : string * gmap string pyval) =>
            index ← getitem entry.2 "index";
            Ok ({[index]} ∪ _uids))
         ∅ (map_to_list users).

(** [user[username]['index']]. *)
Definition user_index (user : gmap string (gmap string pyval))
  (username : string) : outcome pyval :=
  record ← getitem user username;
  getitem record "index".

(** The inner loop of [list_users] over the lines of one answer; a [break]
    leaves the remaining lines unread. *)
Fixpoint list_users_lines (idx : Z) (users : gmap string (gmap string pyval))
  (_username : string) (lines : list string)
  : outcome (gmap string (gmap string pyval) * string) :=
  match lines with
  | [] => Ok (users, _username)
  | user :: rest =>
      if negb (startswith "cfg" user)
      then list_users_lines idx users _username rest
      else
        match split_on "=" user with
        | [key; val] =>
            if startswith "cfgUserAdminUserName" key then
              let _username := strip val in
              if negb (is_empty val)
              then list_users_lines idx
                     (<[_username := {["index" := PInt idx]}]> users)
                     _username rest
              else Ok (users, _username)
            else if negb (is_empty _username) then
              match users !! _username with
              | Some record =>
                  list_users_lines idx
                    (<[_username := <[key := PStr val]> record]> users)
                    _username rest
              | None => Raise (KeyError _username)
              end
            else list_users_lines idx users _username rest
        | _ => Raise ValueError
        end
  end.

(** ** The command runner and the execution monad *)

(** [__salt__['cmd.run_all']]: the collaborator that runs a command line
    in the outside world and hands back its result. *)
Class Runner (World : Type) :=
  cmd_run_all : string -> World -> ExecutionResult * World.

(** What an operation can observe and change: the outside world, the
    command lines handed to the runner so far, and the warnings logged. *)
Record state (World : Type) := mkState {
  world : World;
  calls : list string;
  warnings : list string
}.
Arguments mkState {World} world calls warnings.
Arguments world {World} s.
Arguments calls {World} s.
Arguments warnings {World} s.

Definition M (World A : Type) : Type := state World -> outcome A * state World.

Global Instance M_ret {World} : MRet (M World) :=
  fun A a st => (Ok a, st).
Global Instance M_bind {World} : MBind (M World) := fun A B f m st =>
  match m st with
  | (Ok a, st') => f a st'
  | (Raise e, st') => (Raise e, st')
  end.

(** A pure computation inside an operation. *)
Definition lift {World A} (o : outcome A) : M World A := fun st => (o, st).

(** [log.warning(msg)]. *)
Definition log_warning {World} (msg : string) : M World unit := fun st =>
  (Ok tt, mkState (world st) (calls st) (warnings st ++ [msg])).

(** [__salt__['cmd.run_all'](cmdline)]. *)
Definition run_all `{Runner World} (cmdline : string)
  : M World ExecutionResult := fun st =>
  let '(cmd, w) := cmd_run_all cmdline (world st) in
  (Ok cmd, mkState w (calls st ++ [cmdline]) (warnings st)).

Definition exit_code_warning (cmd : ExecutionResult) : string :=
  "racadm return an exit code '" +:+ str_of_Z (retcode cmd) +:+ "'.".

(** The command line of both dispatchers: local when [host] is unset. *)
Definition racadm_line (host admin_username admin_password : option string)
  (command modswitch : string) : string :=
  if negb (opt_truthy host)
  then "racadm " +:+ command +:+ " " +:+ modswitch
  else "racadm -r " +:+ opt_format host
       +:+ " -u " +:+ opt_format admin_username
       +:+ " -p " +:+ opt_format admin_password
       +:+ " " +:+ command +:+ " " +:+ modswitch.

(** The scope flag of [__execute_cmd]. *)
Definition cmd_modswitch (module : option string) : outcome string :=
  if opt_truthy module then
    let m := default "" module in
    if startswith "ALL_" m then
      match after_index "_" m with
      | Some rest => Ok ("-a " +:+ lower rest)
      | None => Raise ValueError
      end
    else Ok ("-m " +:+ m)
  else Ok "".

(** The scope flag of [__execute_ret]. *)
Definition ret_modswitch (module : option string) : string :=
  if opt_truthy module then
    let m := default "" module in
    if bool_decide (m = "ALL") then "-a " else "-m " +:+ m
  else "".

Definition __execute_cmd `{Runner World} (command : string)
  (host admin_username admin_password module : option string)
  : M World bool :=
  modswitch ← lift (cmd_modswitch module);
  cmd ← run_all (racadm_line host admin_username admin_password
                   command modswitch);
  if bool_decide (retcode cmd ≠ 0)
  then log_warning (exit_code_warning cmd);; mret false
  else mret true.

(** The filter of [__execute_ret]: which lines of the output it keeps. *)
Definition keep_line (l : string) : bool :=
  negb (startswith "Security Alert" l)
  && negb (startswith "Continuing execution" l)
  && negb (is_empty (strip l)).

Definition clean_stdout (out : string) : string :=
  join nl (filter (fun l => keep_line l = true) (splitlines out)).

Definition __execute_ret `{Runner World} (command : string)
  (host admin_username admin_password module : option string)
  : M World ExecutionResult :=
  cmd ← run_all (racadm_line host admin_username admin_password
                   command (ret_modswitch module));
  if bool_decide (retcode cmd ≠ 0)
  then log_warning (exit_code_warning cmd);; mret cmd
  else mret (set_stdout cmd (clean_stdout (stdout cmd))).

(** A query returns the raw result on a nonzero exit code and the parsed
    text otherwise. *)
Inductive query_result (A : Type) :=
  | RawResult (cmd : ExecutionResult)
  | Parsed (a : A).
Arguments RawResult {A} cmd.
Arguments Parsed {A} a.

Definition system_info `{Runner World}
  (host admin_username admin_password module : option string)
  : M World (query_result (gmap string (gmap string string))) :=
  cmd ← __execute_ret "getsysinfo" host admin_username admin_password module;
  if bool_decide (retcode cmd ≠ 0)
  then log_warning (exit_code_warning cmd);; mret (RawResult cmd)
  else drac ← lift (__parse_drac (stdout cmd)); mret (Parsed drac).

Definition list_users `{Runner World}
  (host admin_username admin_password module : option string)
  : M World (gmap string (gmap string pyval)) :=
  st ← foldlM
         (fun (st : gmap string (gmap string pyval) * string) (idx : Z) =>
            cmd ← __execute_ret
                    ("getconfig -g cfgUserAdmin -i " +:+ str_of_Z idx)
                    host admin_username admin_password None;
            (if bool_decide (retcode cmd ≠ 0)
             then log_warning (exit_code_warning cmd) else mret tt);;
            lift (list_users_lines idx st.1 st.2 (splitlines (stdout cmd))))
         (∅, "") (seqZ 1 16);
  mret st.1.

Definition does_not_exist_warning (username : string) : string :=
  "'" +:+ username +:+ "' does not exist".

(** The command that clears the user name at index [uid]. *)
Definition delete_command (uid : pyval) : string :=
  "config -g cfgUserAdmin -o cfgUserAdminUserName -i " +:+ pyval_format uid
  +:+ " " +:+ String DQUOTE (String DQUOTE "").

Definition delete_user `{Runner World} (username : string)
  (uid : option pyval) (host admin_username admin_password : option string)
  : M World bool :=
  uid ← match uid with
        | None =>
            user ← list_users None None None None;
            lift (user_index user username)
        | Some uid => mret uid
        end;
  if pyval_truthy uid
  then __execute_cmd (delete_command uid)
         host admin_username admin_password None
  else log_warning (does_not_exist_warning username);; mret false.

Definition password_command (uid : pyval) (password : string) : string :=
  "config -g cfgUserAdmin -o cfgUserAdminPassword -i " +:+ pyval_format uid
  +:+ " " +:+ password.

Definition change_password `{Runner World} (username password : string)
  (uid : option pyval)
  (host admin_username admin_password module : option string)
  : M World bool :=
  uid ← match uid with
        | None =>
            user ← list_users host admin_username admin_password module;
            lift (user_index user username)
        | Some uid => mret uid
        end;
  if pyval_truthy uid
  then __execute_cmd (password_command uid password)
         host admin_username admin_password module
  else log_warning (does_not_exist_warning username);; mret false.

Definition privilege_command (uid : pyval) (argument : string) : string :=
  "config -g cfgUserAdmin -o cfgUserAdminPrivilege -i " +:+ pyval_format uid
  +:+ " " +:+ argument.

Definition set_permissions `{Runner World} (username permissions : string)
  (uid : option pyval) (host admin_username admin_password : option string)
  : M World bool :=
  uid ← match uid with
        | None =>
            user ← list_users None None None None;
            lift (user_index user username)
        | Some uid => mret uid
        end;
  argument ← lift (privilege_argument permissions);
  __execute_cmd (privilege_command uid argument)
    host admin_username admin_password None.

Definition username_command (uid : pyval) (username : string) : string :=
  "config -g cfgUserAdmin -o cfgUserAdminUserName -i " +:+ pyval_format uid
  +:+ " " +:+ username.

Definition enable_command (uid : pyval) : string :=
  "config -g cfgUserAdmin -o cfgUserAdminEnable -i " +:+ pyval_format uid
  +:+ " 1".

(** The four steps of [create_user] once the index is allocated, each
    followed by its roll-back. *)
Definition create_user_steps `{Runner World} (username password permissions : string)
  (uid : pyval) (host admin_username admin_password : option string)
  : M World bool :=
  created ← __execute_cmd (username_command uid username)
              host admin_username admin_password None;
  if negb created
  then delete_user username (Some uid) None None None;; mret false
  else
    permitted ← set_permissions username permissions (Some uid) None None None;
    if negb permitted
    then log_warning "unable to set user permissions";;
         delete_user username (Some uid) None None None;; mret false
    else
      changed ← change_password username password (Some uid)
                  None None None None;
      if negb changed
      then log_warning "unable to set user password";;
           delete_user username (Some uid) None None None;; mret false
      else
        enabled ← __execute_cmd (enable_command uid) None None None None;
        if negb enabled
        then delete_user username (Some uid) None None None;; mret false
        else mret true.

Definition create_user `{Runner World} (username password permissions : string)
  (users : option (gmap string (gmap string pyval)))
  (host admin_username admin_password : option string)
  : M World bool :=
  users ← match users with
          | None => list_users None None None None
          | Some users => mret users
          end;
  if bool_decide (is_Some (users !! username))
  then log_warning ("'" +:+ username +:+ "' already exists");; mret false
  else
    _uids ← lift (collect_uids users);
    uid ← lift (next_uid _uids);
    create_user_steps username password permissions (PInt uid)
      host admin_username admin_password.

Definition set_snmp `{Runner World} (community : string)
  (host admin_username admin_password : option string) : M World bool :=
  __execute_cmd ("config -g cfgOobSnmp -o cfgOobSnmpAgentCommunity "
                 +:+ community)
    host admin_username admin_password None.

Definition server_reboot `{Runner World}
  (host admin_username admin_password module : option string)
  : M World bool :=
  __execute_cmd "serveraction powercycle"
    host admin_username admin_password module.

Definition set_chassis_name `{Runner World} (name : string)
  (host admin_username admin_password : option string) : M World bool :=
  __execute_cmd ("setsysinfo -c chassisname " +:+ name)
    host admin_username admin_password None.

(** What [server_pxe] returns: [False], or the function [server_reboot]
    itself. *)
Inductive pxe_result (World : Type) :=
  | PxeBool (b : bool)
  | PxeFunction
      (f : option string -> option string -> option string ->
           option string -> M World bool).
Arguments PxeBool {World} b.
Arguments PxeFunction {World} f.

Definition server_pxe `{Runner World}
  (host admin_username admin_password : option string)
  : M World (pxe_result World) :=
  device_set ← __execute_cmd
            "config -g cfgServerInfo -o cfgServerFirstBootDevice PXE"
            host admin_username admin_password None;
  if (device_set : bool) then
    once_set ← __execute_cmd "config -g cfgServerInfo -o cfgServerBootOnce 1"
             host admin_username admin_password None;
    if (once_set : bool) then mret (PxeFunction server_reboot)
    else log_warning "failed to set boot order";; mret (PxeBool false)
  else log_warning "failed to to configure PXE boot";; mret (PxeBool false).

Definition list_slotnames `{Runner World}
  (host admin_username admin_password : option string)
  : M World (query_result (gmap string (gmap string string))) :=
  slotraw ← __execute_ret "getslotname" host admin_username admin_password None;
  if bool_decide (retcode slotraw ≠ 0) then mret (RawResult slotraw)
  else slots ← lift (slotnames_parse (stdout slotraw)); mret (Parsed slots).

Definition inventory `{Runner World}
  (host admin_username admin_password : option string)
  : M World (query_result Inventory) :=
  rawinv ← __execute_ret "getversion" host admin_username admin_password None;
  if bool_decide (retcode rawinv ≠ 0) then mret (RawResult rawinv)
  else ret ← lift (inventory_parse (stdout rawinv)); mret (Parsed ret).

(** ** Definitions the statements below are phrased with *)

(** The flags of a permission string that the table knows, in the order
    and with the repetitions of the input. *)
Definition recognized_list (permissions : string) : list string :=
  filter (fun perm => is_Some (privileges !! perm))
    (strip <$> split_on "," permissions).

(** The same flags as a set. *)
Definition recognized_flags (permissions : string) : gset string :=
  list_to_set (recognized_list permissions).

(** The integer a recognized flag stands for, zero for any other name. *)
Definition flag_bit (perm : string) : N :=
  default 0%N (privileges !! perm ≫= int16).

Definition sum_bits (perms : list string) : N :=
  foldr (fun perm acc => (flag_bit perm + acc)%N) 0%N perms.

(** The value of the variable [section] of [__parse_drac] once the lines
    [lines] are read, starting from [section]. *)
Definition section_after (section : string) (lines : list string) : string :=
  fold_left
    (fun section i =>
       if is_key_value_line i then section else drop_last (strip i))
    lines section.

(** A line that [__parse_drac] cannot turn into a dictionary entry. *)
Definition is_malformed_entry (i : string) : bool :=
  is_key_value_line i && negb (Nat.eqb (count "=" i) 1).

(** *** Reference reconstruction of the section parser

    Written from the specification: a non-blank line with an equals sign
    is a key and a value, any other non-blank line names a section by
    its text without the trailing colon, and blank lines play no role. *)

Inductive line_kind :=
  | BlankLine
  | EntryLine (key value : string)
  | SectionLine (name : string).

(** The text before the first [c] and the text after it. *)
Fixpoint partition_on (c : ascii) (s : string) : string * string :=
  match s with
  | "" => ("", "")
  | String a s' =>
      if is_char a c then ("", s')
      else let '(before, after) := partition_on c s' in (String a before, after)
  end.

Fixpoint ends_with_char (c : ascii) (s : string) : bool :=
  match s with
  | "" => false
  | String a "" => is_char a c
  | String _ s' => ends_with_char c s'
  end.

Definition without_trailing_colon (s : string) : string :=
  if ends_with_char ":" s then drop_last s else s.

Definition classify_line (l : string) : line_kind :=
  if is_empty (strip l) then BlankLine
  else if contains "=" l then
    let '(key, value) := partition_on "=" l in EntryLine (strip key) (strip value)
  else SectionLine (without_trailing_colon (strip l)).

(** One line of the reference: the mapping so far and the section the
    line falls in, if one is declared. *)
Definition reference_step
  (st : gmap string (gmap string string) * option string) (l : string)
  : gmap string (gmap string string) * option string :=
  let '(sections, current) := st in
  match classify_line l with
  | BlankLine => st
  | SectionLine name =>
      (match sections !! name with
       | Some _ => sections
       | None => <[name := ∅]> sections
       end, Some name)
  | EntryLine key value =>
      match current with
      | Some name =>
          (<[name := <[key := value]> (default ∅ (sections !! name))]> sections,
           current)
      | None => st
      end
  end.

Definition reference_lines (lines : list string)
  : gmap string (gmap string string) * option string :=
  fold_left reference_step lines (∅, None).

Definition reference_parse (output : string)
  : gmap string (gmap string string) :=
  (reference_lines (splitlines output)).1.

(** Well-formed input of the section parser: no blank line, every line
    with an equals sign has exactly one, and every other line ends in a
    colon that follows a non-empty name. *)
Definition well_formed_line (l : string) : bool :=
  negb (is_empty (strip l))
  && (if contains "=" l then Nat.eqb (count "=" l) 1
      else ends_with_char ":" (strip l)
           && negb (is_empty (drop_last (strip l)))).

Definition well_formed (output : string) : bool :=
  forallb well_formed_line (splitlines output).

(** *** The slot listing, as the specification describes it *)

(** Skips the lines up to and including the first one that starts with
    [<]. *)
Fixpoint drop_header (lines : list string) : list string :=
  match lines with
  | [] => []
  | l :: rest => if startswith "<" l then rest else drop_header rest
  end.

(** The record a data line contributes, keyed by its first token. *)
Definition slot_entry (slots : gmap string (gmap string string)) (l : string)
  : gmap string (gmap string string) :=
  match split_ws l with
  | [] => slots
  | slot :: _ => <[slot := slot_record (split_ws l) slot]> slots
  end.

(** Every line after the header contributes a record. *)
Definition slot_table_every_line (lines : list string)
  : gmap string (gmap string string) :=
  fold_left slot_entry (drop_header lines) ∅.

(** Every line after the header contributes a record, except the lines
    that start with [<] themselves. *)
Definition slot_table (lines : list string)
  : gmap string (gmap string string) :=
  fold_left slot_entry
    (filter (fun l => startswith "<" l = false) (drop_header lines)) ∅.

(** *** The inventory listing *)

Definition is_tag_line (l : string) : bool :=
  startswith "<Server>" l || startswith "<Switch>" l
  || startswith "<CMC>" l || startswith "<Chassis Infrastructure>" l.

(** The block a tag line opens. *)
Definition tag_block (l : string) : option block :=
  if startswith "<Server>" l then Some Server
  else if startswith "<Switch>" l then Some Switch
  else if startswith "<CMC>" l then Some Cmc
  else if startswith "<Chassis Infrastructure>" l then Some Chassis
  else None.

(** The block that is active once the lines [lines] are read. *)
Definition active_block (lines : list string) : option block :=
  fold_left (fun active l => match tag_block l with
                             | Some b => Some b
                             | None => active
                             end) lines None.

(** A line that holds a record: not a tag and not empty. *)
Definition is_data_line (l : string) : bool :=
  negb (is_tag_line l) && negb (String.length l <? 1)%nat.

(** ** Further definitions used by the statements and their proofs *)

(** A string made of white space only. *)
Fixpoint all_space (s : string) : bool :=
  match s with
  | "" => true
  | String c s' => is_space c && all_space s'
  end.

(** A string without line feed and carriage return. *)
Fixpoint no_line_break (s : string) : bool :=
  match s with
  | "" => true
  | String c s' => negb (is_char c LF) && negb (is_char c CR) && no_line_break s'
  end.

(** The state after the runner has been handed [line]. *)
Definition after_run `{Runner World} (line : string) (st : state World)
  : state World :=
  mkState (cmd_run_all line (world st)).2 (calls st ++ [line]) (warnings st).

(** The result of the command line a dispatcher builds from [command]
    and the scope flag [modswitch]. *)
Definition dispatched `{Runner World} (command : string)
  (host admin_username admin_password : option string) (modswitch : string)
  (st : state World) : ExecutionResult :=
  (cmd_run_all
     (racadm_line host admin_username admin_password command modswitch)
     (world st)).1.

(** The state with the warnings [msgs] logged. *)
Definition warned {World} (msgs : list string) (st : state World)
  : state World :=
  mkState (world st) (calls st) (warnings st ++ msgs).

(** The two commands of [server_pxe]. *)
Definition pxe_device_command : string :=
  "config -g cfgServerInfo -o cfgServerFirstBootDevice PXE".

Definition pxe_once_command : string :=
  "config -g cfgServerInfo -o cfgServerBootOnce 1".

(** The user table [create_user] works with: the one it is given, or the
    listing it asks for. *)
Definition resolve_users `{Runner World}
  (users : option (gmap string (gmap string pyval)))
  : M World (gmap string (gmap string pyval)) :=
  match users with
  | None => list_users None None None None
  | Some users => mret users
  end.

(** The state after [delete_user(username, uid)] at a known index. *)
Definition rolled_back `{Runner World} (uid : pyval) (st : state World)
  : state World :=
  (__execute_cmd (delete_command uid) None None None None st).2.

(** The command lines of the four steps and of the roll-back. *)
Definition create_line (username : string) (uid : pyval)
  (host admin_username admin_password : option string) : string :=
  racadm_line host admin_username admin_password
    (username_command uid username) "".
Definition permit_line (permissions : string) (uid : pyval) : string :=
  racadm_line None None None
    (privilege_command uid
       ("0x" +:+ hex08 (sum_bits (recognized_list permissions)))) "".
Definition password_line (password : string) (uid : pyval) : string :=
  racadm_line None None None (password_command uid password) "".
Definition enable_line (uid : pyval) : string :=
  racadm_line None None None (enable_command uid) "".
Definition undo_line (uid : pyval) : string :=
  racadm_line None None None (delete_command uid) "".

(** The exit codes of command lines run one after the other from the
    state [st]. *)
Fixpoint exit_codes `{Runner World} (lines : list string) (st : state World)
  : list Z :=
  match lines with
  | [] => []
  | line :: lines' =>
      retcode (cmd_run_all line (world st)).1
      :: exit_codes lines' (after_run line st)
  end.

(** The four command lines of [create_user], in order. *)
Definition step_lines (username password permissions : string) (uid : pyval)
  (host admin_username admin_password : option string) : list string :=
  [create_line username uid host admin_username admin_password;
   permit_line permissions uid;
   password_line password uid;
   enable_line uid].

(** The number of steps that ran: all of them, or those up to and
    including the first one whose exit code is not zero. *)
Fixpoint steps_run (codes : list Z) : nat :=
  match codes with
  | [] => O
  | code :: codes' => if bool_decide (code = 0) then S (steps_run codes') else 1%nat
  end.

(** Whether every exit code is zero. *)
Definition all_zero (codes : list Z) : bool :=
  forallb (fun code => bool_decide (code = 0)) codes.

(** What the loop of [__parse_drac] maintains: the empty name is never a
    section, and a non-empty current section is declared. *)
Definition parse_drac_inv (st : gmap string (gmap string string) * string)
  : Prop :=
  st.1 !! "" = None /\ (st.2 <> "" -> is_Some (st.1 !! st.2)).

(** Whether the loop of [__parse_drac], started with the current section
    [section], meets an entry it cannot read inside a declared section. *)
Fixpoint has_malformed_entry (section : string) (lines : list string) : bool :=
  match lines with
  | [] => false
  | i :: rest =>
      if is_key_value_line i then
        (negb (is_empty section) && negb (Nat.eqb (count "=" i) 1))
        || has_malformed_entry section rest
      else has_malformed_entry (drop_last (strip i)) rest
  end.

(** How the state of the loop and the state of the reference correspond. *)
Definition parse_drac_agrees (st : gmap string (gmap string string) * string)
  (ref : gmap string (gmap string string) * option string) : Prop :=
  st.1 = ref.1
  /\ st.1 !! "" = None
  /\ match ref.2 with
     | None => st.2 = ""
     | Some name => st.2 = name /\ name <> "" /\ is_Some (st.1 !! name)
     end.

(** The loop of [inventory] without its flags: the active block, if any,
    and the records stored so far. *)
Definition inventory_step (st : option block * Inventory) (l : string)
  : option block * Inventory :=
  match tag_block l with
  | Some b => (Some b, st.2)
  | None =>
      if is_data_line l then
        match st.1 with
        | Some b =>
            let line := re_split_spaces (strip l) in
            (st.1, inv_set b (default "" (head line))
                     (inventory_record b line) st.2)
        | None => st
        end
      else st
  end.

(** The flags that stand for an active block. *)
Definition flags_of (active : option block) : block_flags :=
  mkFlags (bool_decide (active = Some Server))
          (bool_decide (active = Some Switch))
          (bool_decide (active = Some Cmc))
          (bool_decide (active = Some Chassis)).

(** The loop of [list_slotnames] on lines that all have a token. *)
Definition slotnames_step (st : bool * gmap string (gmap string string))
  (l : string) : bool * gmap string (gmap string string) :=
  if startswith "<" l then (false, st.2)
  else if st.1 then st
  else (st.1, slot_entry st.2 l).

(** The command line of [list_slotnames]. *)
Definition slotnames_line_of (host admin_username admin_password : option string)
  : string :=
  racadm_line host admin_username admin_password "getslotname" "".

(** A runner that answers every command with exit code zero and the
    output [out]. *)
Definition answering (out : string) : Runner unit :=
  fun _ w => (mkExecutionResult 0 out "", w).

(** A runner whose command number [k] (counting from zero) exits with
    code one while every other command exits with zero; the world is the
    number of commands run so far. *)
Definition failing_at (k : nat) : Runner nat :=
  fun _ w => (mkExecutionResult (if bool_decide (w = k) then 1 else 0) "" "",
              S w).

(** A runner that lists the user [root] at every index. *)
Definition listing_root : Runner unit :=
  answering (join nl ["# cfgUserAdminIndex=1"; "cfgUserAdminUserName=root";
                      "cfgUserAdminPrivilege=0x000001ff"]).


(** ** The other operations of the module *)

(** [s[0:n]]: the first [n] characters, fewer when the string is shorter. *)
Fixpoint slice_to (n : nat) (s : string) : string :=
  match n, s with
  | O, _ => ""
  | S _, "" => ""
  | S n', String c s' => String c (slice_to n' s')
  end.

Definition set_nicvlan `{Runner World} (vlan : option string)
  (host admin_username admin_password module : option string)
  : M World bool :=
  __execute_cmd
    ("setniccfg -v " +:+ (if opt_truthy vlan then default "" vlan else ""))
    host admin_username admin_password module.

(** The command [nameservers] runs for the name server number [i]. *)
Definition nameserver_command (i : Z) (server : string) : string :=
  "config -g cfgLanNetworking -o cfgDNSServer" +:+ str_of_Z i
  +:+ " " +:+ server.

(** The loop of [nameservers] from the index [i] on, over the entries
    [ns[i - 1:]]; a failing command ends it with [False]. *)
Fixpoint nameservers_from `{Runner World} (i : Z) (ns : list string)
  (host admin_username admin_password module : option string)
  : M World bool :=
  match ns with
  | [] => mret true
  | server :: rest =>
      done ← __execute_cmd (nameserver_command i server)
               host admin_username admin_password module;
      if negb done then mret false
      else nameservers_from (i + 1) rest
             host admin_username admin_password module
  end.

Definition nameservers `{Runner World} (ns : list string)
  (host admin_username admin_password module : option string)
  : M World bool :=
  if bool_decide (2 < length ns)%nat
  then log_warning "racadm only supports two nameservers";; mret false
  else nameservers_from 1 ns host admin_username admin_password module.

Definition syslog `{Runner World} (server : string) (enable : bool)
  (host admin_username admin_password module : option string)
  : M World bool :=
  enabled ← (if enable
             then __execute_cmd
                    "config -g cfgRemoteHosts -o cfgRhostsSyslogEnable 1"
                    host admin_username admin_password None
             else mret false);
  if (enabled : bool)
  then __execute_cmd
         ("config -g cfgRemoteHosts -o cfgRhostsSyslogServer1 " +:+ server)
         host admin_username admin_password module
  else __execute_cmd "config -g cfgRemoteHosts -o cfgRhostsSyslogEnable 0"
         host admin_username admin_password module.

Definition email_alerts `{Runner World} (action : bool)
  (host admin_username admin_password : option string) : M World bool :=
  if action
  then __execute_cmd "config -g cfgEmailAlert -o cfgEmailAlertEnable -i 1 1"
         host admin_username admin_password None
  else __execute_cmd "config -g cfgEmailAlert -o cfgEmailAlertEnable -i 1 0"
         None None None None.

Definition deploy_password `{Runner World} (username password : string)
  (host admin_username admin_password module : option string)
  : M World bool :=
  __execute_cmd ("deploy -u " +:+ username +:+ " -p " +:+ password)
    host admin_username admin_password module.

Definition deploy_snmp `{Runner World} (snmp : string)
  (host admin_username admin_password module : option string)
  : M World bool :=
  __execute_cmd ("deploy -v SNMPv2 " +:+ snmp +:+ " ro")
    host admin_username admin_password module.

(** [set_network] hands [host] and the credentials to [format], which
    ignores them, and none to [__execute_cmd]. *)
Definition set_network `{Runner World} (ip netmask gateway : string)
  (host admin_username admin_password : option string) : M World bool :=
  __execute_cmd ("setniccfg -s " +:+ ip +:+ " " +:+ netmask +:+ " " +:+ gateway)
    None None None None.

Definition server_poweroff `{Runner World}
  (host admin_username admin_password module : option string)
  : M World bool :=
  __execute_cmd "serveraction powerdown"
    host admin_username admin_password module.

Definition server_poweron `{Runner World}
  (host admin_username admin_password module : option string)
  : M World bool :=
  __execute_cmd "serveraction powerup"
    host admin_username admin_password module.

Definition server_hardreset `{Runner World}
  (host admin_username admin_password module : option string)
  : M World bool :=
  __execute_cmd "serveraction hardreset"
    host admin_username admin_password module.

(** The dictionary [server_powerstatus] returns: [retcode] is always
    there, [status] and [comment] only once they are assigned. *)
Record power_status := mkPowerStatus {
  ps_retcode : Z;
  ps_status : option bool;
  ps_comment : option string
}.

(** The dictionary [server_powerstatus] builds from the output [out]:
    three [if] statements one after the other, each of which may assign
    [status] and [comment]. *)
Definition power_status_of (out : string) : power_status :=
  let result := mkPowerStatus 0 None None in
  let result :=
    if bool_decide (out = "ON")
    then mkPowerStatus (ps_retcode result) (Some true) (Some "Power is on")
    else result in
  let result :=
    if bool_decide (out = "OFF")
    then mkPowerStatus (ps_retcode result) (Some false) (Some "Power is on")
    else result in
  let result :=
    if startswith "ERROR" out
    then mkPowerStatus (ps_retcode result) (Some false) (Some out)
    else result in
  result.

Definition server_powerstatus `{Runner World}
  (host admin_username admin_password module : option string)
  : M World power_status :=
  ret ← __execute_ret "serveraction powerstatus"
          host admin_username admin_password module;
  mret (power_status_of (stdout ret)).

(** [set_slotname] cuts the name with [name[0:14]] and, like
    [set_network], passes the host to [format] only. *)
Definition set_slotname `{Runner World} (slot : pyval) (name : string)
  (host admin_username admin_password : option string) : M World bool :=
  __execute_cmd ("setslotname -i " +:+ pyval_format slot
                 +:+ " " +:+ slice_to 14 name)
    None None None None.

(** Indexing what [system_info] returned: the parsed dictionary, or the
    result of the runner, whose keys are none of the section names. *)
Definition system_info_item `{Runner World} (section key : string)
  (host admin_username admin_password : option string) : M World string :=
  info ← system_info host admin_username admin_password None;
  match info with
  | RawResult _ => lift (Raise (KeyError section))
  | Parsed drac =>
      props ← lift (getitem drac section);
      lift (getitem props key)
  end.

Definition get_chassis_name `{Runner World}
  (host admin_username admin_password : option string) : M World string :=
  system_info_item "Chassis Information" "Chassis Name"
    host admin_username admin_password.

Definition set_chassis_location `{Runner World} (location : string)
  (host admin_username admin_password : option string) : M World bool :=
  __execute_cmd ("setsysinfo -c chassislocation " +:+ location)
    host admin_username admin_password None.

Definition get_chassis_location `{Runner World}
  (host admin_username admin_password : option string) : M World string :=
  system_info_item "Chassis Information" "Chassis Location"
    host admin_username admin_password.

Definition set_general `{Runner World} (cfg_sec cfg_var val : string)
  (host admin_username admin_password : option string) : M World bool :=
  __execute_cmd ("config -g " +:+ cfg_sec +:+ " -o " +:+ cfg_var
                 +:+ " " +:+ val)
    host admin_username admin_password None.

Definition get_general `{Runner World} (cfg_sec cfg_var : string)
  (host admin_username admin_password : option string)
  : M World (query_result string) :=
  ret ← __execute_ret ("getconfig -g " +:+ cfg_sec +:+ " -o " +:+ cfg_var)
          host admin_username admin_password None;
  if bool_decide (retcode ret = 0) then mret (Parsed (stdout ret))
  else mret (RawResult ret).

Definition set_chassis_datacenter `{Runner World} (location : string)
  (host admin_username admin_password : option string) : M World bool :=
  set_general "cfgLocation" "cfgLocationDatacenter" location
    host admin_username admin_password.

Definition get_chassis_datacenter `{Runner World}
  (host admin_username admin_password : option string)
  : M World (query_result string) :=
  get_general "cfgLocation" "cfgLocationDatacenter"
    host admin_username admin_password.


(** What [list_users] keeps true of its table and of [_username]: every
    entry has an integer index between 1 and 16, and a non-empty
    [_username] is a key of the table. *)
Definition list_users_inv (st : gmap string (gmap string pyval) * string)
  : Prop :=
  (forall name record,
     st.1 !! name = Some record ->
     exists idx : Z, record !! "index" = Some (PInt idx) /\ 1 <= idx <= 16)
  /\ (st.2 <> "" -> is_Some (st.1 !! st.2)).

(** The command line of the query [list_users] makes for the index
    [idx]. *)
Definition user_query_line (host admin_username admin_password : option string)
  (idx : Z) : string :=
  racadm_line host admin_username admin_password
    ("getconfig -g cfgUserAdmin -i " +:+ str_of_Z idx) "".

(** The body of the outer loop of [list_users]. *)
Definition list_users_query `{Runner World}
  (host admin_username admin_password : option string)
  (st : gmap string (gmap string pyval) * string) (idx : Z)
  : M World (gmap string (gmap string pyval) * string) :=
  cmd ← __execute_ret ("getconfig -g cfgUserAdmin -i " +:+ str_of_Z idx)
          host admin_username admin_password None;
  (if bool_decide (retcode cmd ≠ 0)
   then log_warning (exit_code_warning cmd) else mret tt);;
  lift (list_users_lines idx st.1 st.2 (splitlines (stdout cmd))).


(** The command lines of [nameservers], numbered from [i]. *)
Fixpoint nameserver_lines (i : Z) (ns : list string)
  (host admin_username admin_password : option string) (modswitch : string)
  : list string :=
  match ns with
  | [] => []
  | server :: rest =>
      racadm_line host admin_username admin_password
        (nameserver_command i server) modswitch
      :: nameserver_lines (i + 1) rest
           host admin_username admin_password modswitch
  end.

(** The three commands of [syslog]. *)
Definition syslog_enable_command : string :=
  "config -g cfgRemoteHosts -o cfgRhostsSyslogEnable 1".
Definition syslog_disable_command : string :=
  "config -g cfgRemoteHosts -o cfgRhostsSyslogEnable 0".
Definition syslog_server_command (server : string) : string :=
  "config -g cfgRemoteHosts -o cfgRhostsSyslogServer1 " +:+ server.


(** A dictionary of sections whose keys and values are all stripped. *)
Definition parse_drac_stripped (drac : gmap string (gmap string string))
  : Prop :=
  forall (section : string) (props : gmap string string) (key value : string),
    drac !! section = Some props ->
    props !! key = Some value ->
    strip key = key /\ strip value = value.

(** * Properties *)

(** Unfolds the sequencing of the two monads. *)
Ltac unfold_monad :=
  unfold mbind, M_bind, outcome_bind, mret, M_ret, outcome_ret, lift in *;
  cbn beta iota.

(** ** Facts about the string primitives *)

Lemma is_empty_true (s : string) : is_empty s = true <-> s = "".
Proof. destruct s; simpl; split; congruence. Qed.

Lemma is_empty_false (s : string) : is_empty s = false <-> s <> "".
Proof. destruct s; simpl; split; congruence. Qed.

Lemma rstrip_all_space (s : string) :
  is_empty (rstrip s) = all_space s.
Proof.
  induction s as [|c s IH]; simpl; [done|].
  destruct (rstrip s) as [|a r]; simpl in *.
  - rewrite <- IH. destruct (is_space c); done.
  - rewrite <- IH. by rewrite andb_false_r.
Qed.

Lemma lstrip_all_space (s : string) :
  is_empty (lstrip s) = all_space s.
Proof.
  induction s as [|c s IH]; simpl; [done|].
  destruct (is_space c); simpl; done.
Qed.

Lemma all_space_rstrip (s : string) :
  all_space (rstrip s) = all_space s.
Proof.
  induction s as [|c s IH]; simpl; [done|].
  pose proof (rstrip_all_space s) as Hs.
  destruct (rstrip s) as [|a r]; simpl in *.
  - rewrite <- Hs. destruct (is_space c) eqn:E; simpl; by rewrite ?E.
  - by rewrite IH.
Qed.

(** The two blank-line tests of the module agree. *)
Lemma strip_all_space (s : string) :
  is_empty (strip s) = all_space s.
Proof. unfold strip. by rewrite lstrip_all_space, all_space_rstrip. Qed.

Lemma is_empty_rstrip_strip (s : string) :
  is_empty (rstrip s) = is_empty (strip s).
Proof. by rewrite rstrip_all_space, strip_all_space. Qed.

Lemma cons_first_not_nil (c : ascii) (pieces : list string) :
  cons_first c pieces <> [].
Proof. by destruct pieces. Qed.

(** A line with a character that is not white space has a first token. *)
Lemma split_ws_nil (s : string) :
  split_ws s = [] -> all_space s = true.
Proof.
  induction s as [|c s IH]; simpl; [done|].
  destruct (is_space c); simpl; [done|].
  destruct s as [|c' s']; [done|].
  destruct (is_space c'); [done|].
  intros H. by apply cons_first_not_nil in H.
Qed.

Lemma length_cons_first (c : ascii) (pieces : list string) :
  pieces <> [] -> length (cons_first c pieces) = length pieces.
Proof. by destruct pieces. Qed.

Lemma split_on_not_nil (sep : ascii) (s : string) : split_on sep s <> [].
Proof.
  destruct s as [|c s]; simpl; [done|].
  destruct (is_char c sep); [done|apply cons_first_not_nil].
Qed.

(** [split] yields one piece more than there are separators. *)
Lemma length_split_on (sep : ascii) (s : string) :
  length (split_on sep s) = S (count sep s).
Proof.
  induction s as [|c s IH]; simpl; [done|].
  destruct (is_char c sep); simpl; [by rewrite IH|].
  rewrite length_cons_first; [done|apply split_on_not_nil].
Qed.

Lemma split_on_no_sep (sep : ascii) (s : string) :
  count sep s = O -> split_on sep s = [s].
Proof.
  induction s as [|c s IH]; simpl; [done|].
  destruct (is_char c sep); simpl; [done|].
  intros H. by rewrite IH.
Qed.

(** With exactly one separator, [split] and the partition at the first
    separator give the same two pieces. *)
Lemma split_on_partition (sep : ascii) (s : string) :
  count sep s = 1%nat ->
  split_on sep s = [(partition_on sep s).1; (partition_on sep s).2].
Proof.
  induction s as [|c s IH]; simpl; [done|].
  destruct (is_char c sep); simpl.
  - intros H. rewrite split_on_no_sep by lia. done.
  - intros H. rewrite IH by done.
    destruct (partition_on sep s); done.
Qed.

Lemma contains_count (c : ascii) (s : string) :
  contains c s = negb (Nat.eqb (count c s) 0).
Proof.
  induction s as [|a s IH]; simpl; [done|].
  destruct (is_char a c); simpl; done.
Qed.

Lemma re_split_spaces_go_not_nil (cur : string) (sp : nat) (s : string) :
  re_split_spaces_go cur sp s <> [].
Proof.
  revert cur sp. induction s as [|c s IH]; intros cur sp; simpl.
  - by destruct sp as [|[|?]].
  - destruct (is_char c " "); [apply IH|].
    destruct sp as [|[|?]]; [apply IH|apply IH|done].
Qed.

(** [re.split] always yields a first field. *)
Lemma re_split_spaces_not_nil (s : string) : re_split_spaces s <> [].
Proof. apply re_split_spaces_go_not_nil. Qed.

(** *** Lines and joining *)

Lemma no_line_break_cons_first (c : ascii) (pieces : list string) :
  is_char c LF = false -> is_char c CR = false ->
  Forall (fun l => no_line_break l = true) pieces ->
  Forall (fun l => no_line_break l = true) (cons_first c pieces).
Proof.
  intros Hlf Hcr Hp. destruct pieces as [|w ws]; simpl.
  - constructor; [|done]. simpl. by rewrite Hlf, Hcr.
  - inversion Hp; subst. constructor; [|done]. simpl. by rewrite Hlf, Hcr.
Qed.

Lemma splitlines_from_no_line_break (after_cr : bool) (s : string) :
  Forall (fun l => no_line_break l = true) (splitlines_from after_cr s).
Proof.
  revert after_cr. induction s as [|c s IH]; intros after_cr; simpl; [done|].
  destruct (is_char c LF) eqn:Hlf.
  - destruct after_cr; [apply IH|]. constructor; [done|apply IH].
  - destruct (is_char c CR) eqn:Hcr.
    + constructor; [done|apply IH].
    + by apply no_line_break_cons_first.
Qed.

(** No line of [splitlines] holds a line terminator. *)
Lemma splitlines_no_line_break (s : string) :
  Forall (fun l => no_line_break l = true) (splitlines s).
Proof. apply splitlines_from_no_line_break. Qed.

Lemma splitlines_app_nl (l rest : string) :
  no_line_break l = true ->
  splitlines (l +:+ nl +:+ rest) = l :: splitlines rest.
Proof.
  unfold splitlines. induction l as [|c l IH]; simpl; [done|].
  intros H. apply andb_prop in H as [H Hl]. apply andb_prop in H as [Hlf Hcr].
  apply negb_true_iff in Hlf, Hcr. rewrite Hlf, Hcr.
  change (String.append l (String.append nl rest)) with (l +:+ nl +:+ rest).
  rewrite IH by done. done.
Qed.

Lemma splitlines_single (l : string) :
  no_line_break l = true -> l <> "" -> splitlines l = [l].
Proof.
  unfold splitlines. induction l as [|c l IH]; simpl; [done|].
  intros H _. apply andb_prop in H as [H Hl]. apply andb_prop in H as [Hlf Hcr].
  apply negb_true_iff in Hlf, Hcr. rewrite Hlf, Hcr.
  destruct l as [|c' l']; [done|].
  rewrite IH by done. done.
Qed.

(** Joining non-empty lines with line feeds and splitting again gives the
    lines back. *)
Lemma splitlines_join (lines : list string) :
  Forall (fun l => no_line_break l = true /\ l <> "") lines ->
  splitlines (join nl lines) = lines.
Proof.
  induction 1 as [|l lines [Hl Hne] Hrest IH]; [done|].
  destruct lines as [|l' lines'].
  - simpl. by apply splitlines_single.
  - change (join nl (l :: l' :: lines')) with (l +:+ nl +:+ join nl (l' :: lines')).
    rewrite splitlines_app_nl by done. by rewrite IH.
Qed.

(** ** C1: the privilege mask of [set_permissions] *)

Lemma length_append (s1 s2 : string) :
  String.length (s1 +:+ s2) = (String.length s1 + String.length s2)%nat.
Proof. induction s1 as [|c s1 IH]; simpl; [done|]. by rewrite IH. Qed.

Lemma length_replicate_char (width : nat) (c : ascii) :
  String.length (replicate_char width c) = width.
Proof. induction width as [|w IH]; simpl; [done|]. by rewrite IH. Qed.

(** The rendering has at least eight digits. *)
Lemma length_hex08 (n : N) : (8 <= String.length (hex08 n))%nat.
Proof.
  unfold hex08. rewrite length_append, length_replicate_char. lia.
Qed.

Lemma privileges_are_hexadecimal (perm hex : string) :
  privileges !! perm = Some hex -> is_Some (int16 hex).
Proof.
  assert (map_Forall (fun _ hex => is_Some (int16 hex)) privileges) as H.
  { apply (bool_decide_unpack _). by vm_compute. }
  intros Hperm. exact (H perm hex Hperm).
Qed.

Lemma privilege_step_flag_bit (permission : N) (i : string) :
  privilege_step permission i = Ok (permission + flag_bit (strip i))%N.
Proof.
  unfold privilege_step, flag_bit.
  destruct (privileges !! strip i) as [hex|] eqn:Hperm; simpl.
  - destruct (privileges_are_hexadecimal _ _ Hperm) as [bit ->]. done.
  - by rewrite N.add_0_r.
Qed.

Lemma flag_bit_unrecognized (perm : string) :
  privileges !! perm = None -> flag_bit perm = 0%N.
Proof. unfold flag_bit. by intros ->. Qed.

Lemma foldlM_privilege_step (permission : N) (pieces : list string) :
  foldlM privilege_step permission pieces
  = Ok (permission
        + sum_bits (filter (fun perm => is_Some (privileges !! perm))
                      (strip <$> pieces)))%N.
Proof.
  revert permission. induction pieces as [|i pieces IH]; intros permission.
  - simpl. by rewrite N.add_0_r.
  - cbn [foldlM]. rewrite privilege_step_flag_bit. cbn [mbind outcome_bind].
    rewrite IH. f_equal. rewrite fmap_cons, filter_cons.
    case_decide as Hperm.
    + simpl. lia.
    + rewrite flag_bit_unrecognized; [lia|].
      by apply eq_None_not_Some.
Qed.

(** The mask is the sum over the recognized flags, one summand for every
    occurrence. *)
Lemma privilege_mask_sum (permissions : string) :
  privilege_mask permissions = Ok (sum_bits (recognized_list permissions)).
Proof. unfold privilege_mask. by rewrite foldlM_privilege_step. Qed.

Lemma sum_bits_Permutation (l1 l2 : list string) :
  l1 ≡ₚ l2 -> sum_bits l1 = sum_bits l2.
Proof. induction 1; simpl; lia. Qed.

(** C1, as stated, fails: the set of recognized flags does not determine
    the rendered mask, because every occurrence of a flag is added again.
    The inputs [login,drac] and [drac,login,login] name the same two
    flags and render as 0x00000003 and 0x00000004. *)
Lemma set_permissions_repeated_flag_counterexample :
  ~ (forall permissions1 permissions2 : string,
       recognized_flags permissions1 = recognized_flags permissions2 ->
       privilege_argument permissions1 = privilege_argument permissions2).
Proof.
  intros H. specialize (H "login,drac" "drac,login,login").
  assert (privilege_argument "login,drac" = Ok "0x00000003") as H3
    by (vm_compute; reflexivity).
  assert (privilege_argument "drac,login,login" = Ok "0x00000004") as H4
    by (vm_compute; reflexivity).
  rewrite H3, H4 in H. discriminate H. vm_compute. reflexivity.
Qed.

(** The rendered mask is a function of the recognized flags counted with
    their repetitions. *)
Lemma privilege_argument_Permutation (permissions1 permissions2 : string) :
  recognized_list permissions1 ≡ₚ recognized_list permissions2 ->
  privilege_argument permissions1 = privilege_argument permissions2.
Proof.
  intros Hperm. unfold privilege_argument.
  rewrite !privilege_mask_sum. cbn [mbind outcome_bind].
  by rewrite (sum_bits_Permutation _ _ Hperm).
Qed.

Lemma recognized_list_Permutation (permissions1 permissions2 : string) :
  split_on "," permissions1 ≡ₚ split_on "," permissions2 ->
  recognized_list permissions1 ≡ₚ recognized_list permissions2.
Proof. intros Hperm. unfold recognized_list. by rewrite Hperm. Qed.

(** Without repeated flags the set of recognized flags determines the
    mask. *)
Lemma privilege_argument_set (permissions1 permissions2 : string) :
  NoDup (recognized_list permissions1) ->
  NoDup (recognized_list permissions2) ->
  recognized_flags permissions1 = recognized_flags permissions2 ->
  privilege_argument permissions1 = privilege_argument permissions2.
Proof.
  intros Hnd1 Hnd2 Hset. apply privilege_argument_Permutation.
  apply NoDup_Permutation; [done..|].
  intros perm. unfold recognized_flags in Hset.
  rewrite <- !(elem_of_list_to_set (C := gset string)). by rewrite Hset.
Qed.

(** C1 (amended): reordering the comma-separated flags of a permission
    string does not change the argument [set_permissions] renders; when
    no recognized flag is repeated, the argument depends only on the set
    of recognized flags; the argument is always [0x] followed by at least
    eight hexadecimal digits; and [login,drac] and [drac,login] both
    render as 0x00000003. *)
Theorem set_permissions_mask_reordering (permissions1 permissions2 : string) :
  (split_on "," permissions1 ≡ₚ split_on "," permissions2 ->
   privilege_argument permissions1 = privilege_argument permissions2)
  /\ (NoDup (recognized_list permissions1) ->
      NoDup (recognized_list permissions2) ->
      recognized_flags permissions1 = recognized_flags permissions2 ->
      privilege_argument permissions1 = privilege_argument permissions2)
  /\ (exists mask : N,
        privilege_argument permissions1 = Ok ("0x" +:+ hex08 mask)
        /\ (8 <= String.length (hex08 mask))%nat)
  /\ privilege_argument "login,drac" = Ok "0x00000003"
  /\ privilege_argument "drac,login" = Ok "0x00000003".
Proof.
  split; [|split; [|split; [|split]]].
  - intros Hperm.
    by apply privilege_argument_Permutation, recognized_list_Permutation.
  - apply privilege_argument_set.
  - exists (sum_bits (recognized_list permissions1)). split.
    + unfold privilege_argument. by rewrite privilege_mask_sum.
    + apply length_hex08.
  - vm_compute. reflexivity.
  - vm_compute. reflexivity.
Qed.

Lemma set_permissions_mask_reordering_witness :
  split_on "," "login,drac,foo" ≡ₚ split_on "," "drac,foo,login"
  /\ privilege_argument "login,drac,foo" = privilege_argument "drac,foo,login"
  /\ privilege_argument "login,drac,foo" = Ok "0x00000003".
Proof.
  assert (split_on "," "login,drac,foo" ≡ₚ split_on "," "drac,foo,login")
    as Hperm.
  { vm_compute. etrans; [apply perm_swap|]. apply perm_skip, perm_swap. }
  split; [exact Hperm|].
  destruct (set_permissions_mask_reordering "login,drac,foo" "drac,foo,login")
    as [Heq _].
  split; [exact (Heq Hperm)|]. vm_compute. reflexivity.
Defined.

(** The command of [set_permissions] ends in the rendered mask. *)
Lemma set_permissions_command `{Runner World} (username permissions : string)
  (uid : pyval) (host admin_username admin_password : option string)
  (st : state World) :
  set_permissions username permissions (Some uid)
    host admin_username admin_password st
  = __execute_cmd
      (privilege_command uid
         ("0x" +:+ hex08 (sum_bits (recognized_list permissions))))
      host admin_username admin_password None st.
Proof.
  unfold set_permissions, privilege_argument.
  rewrite privilege_mask_sum. reflexivity.
Qed.

(** ** C2: index allocation of [create_user] *)

Local Instance Z_ge_transitive : Transitive Z.ge.
Proof. intros x y z. lia. Qed.

Local Instance Z_ge_total : Total Z.ge.
Proof. intros x y. lia. Qed.

(** The last element of a list sorted in decreasing order is its least. *)
Lemma last_sorted_reverse_least (xs : list Z) (x : Z) :
  StronglySorted Z.ge xs -> last xs = Some x -> forall y, y ∈ xs -> x <= y.
Proof.
  induction 1 as [|a xs Hsorted IH Hall]; intros Hlast y Hy; [done|].
  destruct xs as [|b xs'].
  - simpl in Hlast. inversion Hlast; subst.
    apply list_elem_of_singleton in Hy. lia.
  - change (last (a :: b :: xs')) with (last (b :: xs')) in Hlast.
    apply elem_of_cons in Hy as [->|Hy]; [|by apply IH].
    rewrite List.Forall_forall in Hall.
    assert (x ∈ b :: xs') as Hx.
    { apply last_Some in Hlast as [l' ->]. apply elem_of_app. right. left. }
    apply list_elem_of_In in Hx. specialize (Hall x Hx). lia.
Qed.

Lemma elem_of_uid_band (i : Z) : i ∈ uid_band <-> 2 <= i <= 11.
Proof.
  unfold uid_band. rewrite elem_of_list_to_set, elem_of_seqZ. lia.
Qed.

Lemma elem_of_sorted_free_uids (_uids : gset pyval) (i : Z) :
  i ∈ sorted_reverse (elements (free_uids _uids))
  <-> (2 <= i <= 11) /\ (PInt i ∉ _uids).
Proof.
  unfold sorted_reverse. rewrite merge_sort_Permutation, elem_of_elements.
  unfold free_uids. rewrite elem_of_filter, elem_of_uid_band. tauto.
Qed.

(** The index [next_uid] returns is the least free index of the band. *)
Lemma next_uid_least_free (_uids : gset pyval) (i : Z) :
  next_uid _uids = Ok i <->
  (2 <= i <= 11) /\ (PInt i ∉ _uids)
  /\ (forall j : Z, 2 <= j <= 11 -> PInt j ∉ _uids -> i <= j).
Proof.
  assert (StronglySorted Z.ge (sorted_reverse (elements (free_uids _uids))))
    as Hsorted by (apply StronglySorted_merge_sort; apply _).
  unfold next_uid, pop. split.
  - destruct (last _) as [x|] eqn:Hlast; [|done].
    intros [= ->].
    assert (i ∈ sorted_reverse (elements (free_uids _uids))) as Hi.
    { apply last_Some in Hlast as [l' ->]. apply elem_of_app. right. left. }
    apply elem_of_sorted_free_uids in Hi as [Hband Hfree].
    split; [done|]. split; [done|]. intros j Hj Hjfree.
    apply (last_sorted_reverse_least _ _ Hsorted Hlast).
    by apply elem_of_sorted_free_uids.
  - intros (Hband & Hfree & Hleast).
    assert (i ∈ sorted_reverse (elements (free_uids _uids))) as Hi
      by by apply elem_of_sorted_free_uids.
    destruct (last _) as [x|] eqn:Hlast.
    + f_equal.
      assert (x ∈ sorted_reverse (elements (free_uids _uids))) as Hx.
      { apply last_Some in Hlast as [l' ->]. apply elem_of_app. right. left. }
      pose proof (last_sorted_reverse_least _ _ Hsorted Hlast i Hi).
      apply elem_of_sorted_free_uids in Hx as [Hxband Hxfree].
      specialize (Hleast x Hxband Hxfree). lia.
    + apply last_None in Hlast. rewrite Hlast in Hi.
      by apply not_elem_of_nil in Hi.
Qed.

(** With every index of the band in use, [pop] raises on the empty list;
    otherwise an index is returned. *)
Lemma next_uid_raises (_uids : gset pyval) :
  next_uid _uids = Raise IndexError <->
  forall j : Z, 2 <= j <= 11 -> PInt j ∈ _uids.
Proof.
  unfold next_uid, pop. split.
  - destruct (last _) as [x|] eqn:Hlast; [done|]. intros _ j Hj.
    apply last_None in Hlast.
    destruct (decide (PInt j ∈ _uids)) as [|Hfree]; [done|].
    assert (j ∈ sorted_reverse (elements (free_uids _uids))) as Hin
      by by apply elem_of_sorted_free_uids.
    rewrite Hlast in Hin. by apply not_elem_of_nil in Hin.
  - intros Hfull. destruct (last _) as [x|] eqn:Hlast; [|done].
    assert (x ∈ sorted_reverse (elements (free_uids _uids))) as Hx.
    { apply last_Some in Hlast as [l' ->]. apply elem_of_app. right. left. }
    apply elem_of_sorted_free_uids in Hx as [Hband Hfree].
    by destruct Hfree; apply Hfull.
Qed.

(** C2: whatever indices are in use, the index [create_user] allocates is
    the lowest one of the band 2 to 11 that is not in use; the allocation
    raises [IndexError] exactly when the whole band is in use; and with
    the indices 2, 3 and 5 in use the index is 4. *)
Theorem create_user_allocates_lowest_free (_uids : gset pyval) :
  (forall i : Z,
     next_uid _uids = Ok i <->
     (2 <= i <= 11) /\ (PInt i ∉ _uids)
     /\ (forall j : Z, 2 <= j <= 11 -> PInt j ∉ _uids -> i <= j))
  /\ (next_uid _uids = Raise IndexError <->
      forall j : Z, 2 <= j <= 11 -> PInt j ∈ _uids)
  /\ next_uid {[PInt 2; PInt 3; PInt 5]} = Ok 4.
Proof.
  split; [|split].
  - intros i. apply next_uid_least_free.
  - apply next_uid_raises.
  - vm_compute. reflexivity.
Qed.

(** ** C3: the boolean dispatcher [__execute_cmd] *)

Lemma startswith_after_index (c : ascii) (p s : string) :
  startswith p s = true -> contains c p = true -> is_Some (after_index c s).
Proof.
  revert s. induction p as [|a p IH]; intros s; simpl; [done|].
  destruct s as [|b s]; [done|].
  intros Hstart Hin. apply andb_prop in Hstart as [Hab Hrest].
  unfold is_char in Hab. apply bool_decide_eq_true in Hab as <-.
  simpl. destruct (is_char a c) eqn:Hac; [by eexists|].
  simpl in Hin. by apply IH.
Qed.

(** Building the scope flag never raises: [index] is only called on a
    module name that starts with [ALL_]. *)
Lemma cmd_modswitch_total (module : option string) :
  exists modswitch : string, cmd_modswitch module = Ok modswitch.
Proof.
  unfold cmd_modswitch. destruct (opt_truthy module); [|by eexists].
  destruct (startswith "ALL_" (default "" module)) eqn:Hall; [|by eexists].
  destruct (startswith_after_index "_" _ _ Hall eq_refl) as [rest ->].
  by eexists.
Qed.

Lemma log_warning_warned {World} (msg : string) (st : state World) :
  log_warning msg st = (Ok tt, warned [msg] st).
Proof. reflexivity. Qed.

Lemma warned_warned {World} (msgs1 msgs2 : list string) (st : state World) :
  warned msgs2 (warned msgs1 st) = warned (msgs1 ++ msgs2) st.
Proof. unfold warned. simpl. by rewrite <- app_assoc. Qed.

Lemma execute_cmd_with_modswitch `{Runner World} (command modswitch : string)
  (host admin_username admin_password module : option string)
  (st : state World) :
  cmd_modswitch module = Ok modswitch ->
  let line := racadm_line host admin_username admin_password command modswitch in
  let cmd := (cmd_run_all line (world st)).1 in
  __execute_cmd command host admin_username admin_password module st
  = if bool_decide (retcode cmd ≠ 0)
    then (Ok false, warned [exit_code_warning cmd] (after_run line st))
    else (Ok true, after_run line st).
Proof.
  intros Hmod. unfold __execute_cmd, run_all, log_warning, after_run, warned.
  unfold_monad. rewrite Hmod. cbn beta iota.
  destruct (cmd_run_all _ (world st)) as [cmd w]. cbn [fst snd].
  case_bool_decide; reflexivity.
Qed.

(** The dispatcher on a call without [module]. *)
Lemma execute_cmd_unscoped `{Runner World} (command : string)
  (host admin_username admin_password : option string) (st : state World) :
  let line := racadm_line host admin_username admin_password command "" in
  let cmd := (cmd_run_all line (world st)).1 in
  __execute_cmd command host admin_username admin_password None st
  = if bool_decide (retcode cmd ≠ 0)
    then (Ok false, warned [exit_code_warning cmd] (after_run line st))
    else (Ok true, after_run line st).
Proof. by apply execute_cmd_with_modswitch. Qed.

(** C3: [__execute_cmd] never raises; it returns [True] exactly when the
    exit code of the command it ran is zero and [False] otherwise, logging
    one warning in that case; and [server_reboot], [set_snmp] and
    [set_chassis_name] return [True] or [False] by the exit code of their
    command in the same way. *)
Theorem execute_cmd_true_iff_zero_exit `{Runner World}
  (host admin_username admin_password module : option string)
  (st : state World) :
  exists modswitch : string,
    cmd_modswitch module = Ok modswitch
    /\ (forall command : string,
          let line := racadm_line host admin_username admin_password
                        command modswitch in
          let cmd := (cmd_run_all line (world st)).1 in
          let result := __execute_cmd command host admin_username
                          admin_password module st in
          result.1 = Ok (bool_decide (retcode cmd = 0))
          /\ calls result.2 = calls st ++ [line]
          /\ warnings result.2
             = warnings st
               ++ (if bool_decide (retcode cmd = 0) then []
                   else [exit_code_warning cmd]))
    /\ (server_reboot host admin_username admin_password module st).1
       = Ok (bool_decide
               (retcode (dispatched "serveraction powercycle"
                           host admin_username admin_password modswitch st)
                = 0))
    /\ (forall community : string,
          (set_snmp community host admin_username admin_password st).1
          = Ok (bool_decide
                  (retcode (dispatched
                              ("config -g cfgOobSnmp -o cfgOobSnmpAgentCommunity "
                               +:+ community)
                              host admin_username admin_password "" st)
                   = 0)))
    /\ (forall name : string,
          (set_chassis_name name host admin_username admin_password st).1
          = Ok (bool_decide
                  (retcode (dispatched ("setsysinfo -c chassisname " +:+ name)
                              host admin_username admin_password "" st)
                   = 0))).
Proof.
  destruct (cmd_modswitch_total module) as [modswitch Hmod].
  exists modswitch. split; [done|].
  assert (forall (command modswitch' : string) (module' : option string),
            cmd_modswitch module' = Ok modswitch' ->
            let line := racadm_line host admin_username admin_password
                          command modswitch' in
            let cmd := (cmd_run_all line (world st)).1 in
            let result := __execute_cmd command host admin_username
                            admin_password module' st in
            result.1 = Ok (bool_decide (retcode cmd = 0))
            /\ calls result.2 = calls st ++ [line]
            /\ warnings result.2
               = warnings st
                 ++ (if bool_decide (retcode cmd = 0) then []
                     else [exit_code_warning cmd])) as Hgeneral.
  { intros command modswitch' module' Hmod'. cbn zeta.
    rewrite (execute_cmd_with_modswitch _ _ _ _ _ _ _ Hmod'). cbn zeta.
    destruct (decide (retcode (cmd_run_all
        (racadm_line host admin_username admin_password command modswitch')
        (world st)).1 = 0)) as [Hzero|Hnonzero].
    - rewrite bool_decide_eq_false_2 by tauto.
      rewrite bool_decide_eq_true_2 by done.
      simpl. by rewrite app_nil_r.
    - rewrite bool_decide_eq_true_2 by done.
      rewrite bool_decide_eq_false_2 by done. done. }
  split; [intros command; by apply Hgeneral|].
  split; [by apply (Hgeneral "serveraction powercycle" modswitch module)|].
  split.
  - intros community. unfold set_snmp, dispatched.
    by apply (Hgeneral _ "" None).
  - intros name. unfold set_chassis_name, dispatched.
    by apply (Hgeneral _ "" None).
Qed.

(** ** C9: [server_pxe] *)

(** [server_pxe] as a case distinction on the two exit codes. *)
Lemma server_pxe_cases `{Runner World}
  (host admin_username admin_password : option string) (st : state World) :
  let line1 := racadm_line host admin_username admin_password
                 pxe_device_command "" in
  let line2 := racadm_line host admin_username admin_password
                 pxe_once_command "" in
  let cmd1 := (cmd_run_all line1 (world st)).1 in
  let st1 := after_run line1 st in
  let cmd2 := (cmd_run_all line2 (world st1)).1 in
  let st2 := after_run line2 st1 in
  server_pxe host admin_username admin_password st
  = if bool_decide (retcode cmd1 ≠ 0)
    then (Ok (PxeBool false),
          warned [exit_code_warning cmd1; "failed to to configure PXE boot"] st1)
    else if bool_decide (retcode cmd2 ≠ 0)
    then (Ok (PxeBool false),
          warned [exit_code_warning cmd2; "failed to set boot order"] st2)
    else (Ok (PxeFunction server_reboot), st2).
Proof.
  cbn zeta. unfold server_pxe.
  change "config -g cfgServerInfo -o cfgServerFirstBootDevice PXE"
    with pxe_device_command.
  change "config -g cfgServerInfo -o cfgServerBootOnce 1"
    with pxe_once_command.
  unfold mbind at 1, M_bind at 1. rewrite execute_cmd_unscoped. cbn zeta.
  case_bool_decide.
  - unfold_monad. by rewrite log_warning_warned, warned_warned.
  - unfold mbind at 1, M_bind at 1. rewrite execute_cmd_unscoped. cbn zeta.
    case_bool_decide; [|reflexivity].
    unfold_monad. by rewrite log_warning_warned, warned_warned.
Qed.

(** C9: when both configuration commands exit with zero, [server_pxe]
    returns the function [server_reboot] itself and runs no third command;
    when the first or the second command fails it logs a warning and
    returns [False]. *)
Theorem server_pxe_returns_function `{Runner World}
  (host admin_username admin_password : option string) (st : state World) :
  let line1 := racadm_line host admin_username admin_password
                 pxe_device_command "" in
  let line2 := racadm_line host admin_username admin_password
                 pxe_once_command "" in
  let cmd1 := (cmd_run_all line1 (world st)).1 in
  let st1 := after_run line1 st in
  let cmd2 := (cmd_run_all line2 (world st1)).1 in
  let st2 := after_run line2 st1 in
  (retcode cmd1 = 0 -> retcode cmd2 = 0 ->
   server_pxe host admin_username admin_password st
   = (Ok (PxeFunction server_reboot), st2)
   /\ calls st2 = calls st ++ [line1; line2])
  /\ (retcode cmd1 <> 0 ->
      server_pxe host admin_username admin_password st
      = (Ok (PxeBool false),
         warned [exit_code_warning cmd1; "failed to to configure PXE boot"] st1))
  /\ (retcode cmd1 = 0 -> retcode cmd2 <> 0 ->
      server_pxe host admin_username admin_password st
      = (Ok (PxeBool false),
         warned [exit_code_warning cmd2; "failed to set boot order"] st2)).
Proof.
  cbn zeta. rewrite server_pxe_cases. cbn zeta.
  split; [|split].
  - intros Hzero1 Hzero2. rewrite !bool_decide_eq_false_2 by tauto.
    split; [reflexivity|]. simpl. by rewrite <- app_assoc.
  - intros Hfail1. by rewrite bool_decide_eq_true_2.
  - intros Hzero1 Hfail2. rewrite bool_decide_eq_false_2 by tauto.
    by rewrite bool_decide_eq_true_2.
Qed.

(** ** C8: looking a user name up *)

(** C8: when [uid] is left unspecified and the listing of the users has
    no entry for [username], [delete_user] and [change_password] raise
    [KeyError] at [user[username]]: no command is run after the listing
    and neither function reaches its own not-found branch. *)
Theorem unlisted_username_raises_key_error `{Runner World}
  (username password : string)
  (host admin_username admin_password module : option string)
  (users : gmap string (gmap string pyval)) (st : state World) :
  users !! username = None ->
  (forall st' : state World,
     list_users None None None None st = (Ok users, st') ->
     delete_user username None host admin_username admin_password st
     = (Raise (KeyError username), st'))
  /\ (forall st' : state World,
        list_users host admin_username admin_password module st
        = (Ok users, st') ->
        change_password username password None
          host admin_username admin_password module st
        = (Raise (KeyError username), st')).
Proof.
  intros Hmissing. split; intros st' Hlist.
  - unfold delete_user. unfold_monad. rewrite Hlist.
    unfold user_index, getitem. unfold_monad. by rewrite Hmissing.
  - unfold change_password. unfold_monad. rewrite Hlist.
    unfold user_index, getitem. unfold_monad. by rewrite Hmissing.
Qed.

(** ** C7: the roll-back of [create_user] *)

Lemma delete_user_at_index `{Runner World} (username : string) (uid : pyval)
  (host admin_username admin_password : option string) (st : state World) :
  pyval_truthy uid = true ->
  delete_user username (Some uid) host admin_username admin_password st
  = __execute_cmd (delete_command uid)
      host admin_username admin_password None st.
Proof. intros Huid. unfold delete_user. unfold_monad. by rewrite Huid. Qed.

Lemma change_password_at_index `{Runner World} (username password : string)
  (uid : pyval) (host admin_username admin_password module : option string)
  (st : state World) :
  pyval_truthy uid = true ->
  change_password username password (Some uid)
    host admin_username admin_password module st
  = __execute_cmd (password_command uid password)
      host admin_username admin_password module st.
Proof. intros Huid. unfold change_password. unfold_monad. by rewrite Huid. Qed.

Lemma calls_rolled_back `{Runner World} (uid : pyval) (st : state World) :
  calls (rolled_back uid st)
  = calls st ++ [racadm_line None None None (delete_command uid) ""].
Proof.
  unfold rolled_back. rewrite execute_cmd_unscoped. cbn zeta.
  by case_bool_decide.
Qed.

(** The roll-back: run [delete_user] at the index, drop its answer, and
    return [False]. *)
Lemma roll_back_false `{Runner World} (username : string) (uid : pyval)
  (st : state World) :
  pyval_truthy uid = true ->
  (delete_user username (Some uid) None None None ≫= fun _ => mret false) st
  = (Ok false, rolled_back uid st).
Proof.
  intros Huid. unfold mbind, M_bind. rewrite delete_user_at_index by done.
  unfold rolled_back. rewrite execute_cmd_unscoped. cbn zeta.
  by case_bool_decide.
Qed.

(** The four steps as a case distinction on the four exit codes. *)
Lemma create_user_steps_cases `{Runner World}
  (username password permissions : string) (uid : pyval)
  (host admin_username admin_password : option string) (st : state World) :
  pyval_truthy uid = true ->
  let line1 := create_line username uid host admin_username admin_password in
  let line2 := permit_line permissions uid in
  let line3 := password_line password uid in
  let line4 := enable_line uid in
  let st1 := after_run line1 st in
  let st2 := after_run line2 st1 in
  let st3 := after_run line3 st2 in
  let st4 := after_run line4 st3 in
  let cmd1 := (cmd_run_all line1 (world st)).1 in
  let cmd2 := (cmd_run_all line2 (world st1)).1 in
  let cmd3 := (cmd_run_all line3 (world st2)).1 in
  let cmd4 := (cmd_run_all line4 (world st3)).1 in
  create_user_steps username password permissions uid
    host admin_username admin_password st
  = if bool_decide (retcode cmd1 = 0) then
      if bool_decide (retcode cmd2 = 0) then
        if bool_decide (retcode cmd3 = 0) then
          if bool_decide (retcode cmd4 = 0) then (Ok true, st4)
          else (Ok false,
                rolled_back uid (warned [exit_code_warning cmd4] st4))
        else (Ok false,
              rolled_back uid
                (warned [exit_code_warning cmd3;
                         "unable to set user password"] st3))
      else (Ok false,
            rolled_back uid
              (warned [exit_code_warning cmd2;
                       "unable to set user permissions"] st2))
    else (Ok false, rolled_back uid (warned [exit_code_warning cmd1] st1)).
Proof.
  intros Huid. cbn zeta. unfold create_user_steps.
  unfold mbind at 1, M_bind at 1. rewrite execute_cmd_unscoped. cbn zeta.
  fold (create_line username uid host admin_username admin_password).
  repeat case_bool_decide; try tauto; cbn [negb];
    try (by rewrite roll_back_false).
  all: unfold mbind at 1, M_bind at 1;
    rewrite set_permissions_command, execute_cmd_unscoped; cbn zeta;
    fold (permit_line permissions uid);
    repeat case_bool_decide; try tauto; cbn [negb].
  all: unfold mbind at 1, M_bind at 1.
  all: try (rewrite log_warning_warned, warned_warned;
            by rewrite roll_back_false).
  all: rewrite change_password_at_index, execute_cmd_unscoped by done;
    cbn zeta; fold (password_line password uid);
    repeat case_bool_decide; try tauto; cbn [negb].
  all: unfold mbind at 1, M_bind at 1.
  all: try (rewrite log_warning_warned, warned_warned;
            by rewrite roll_back_false).
  all: rewrite execute_cmd_unscoped; cbn zeta; fold (enable_line uid);
    repeat case_bool_decide; try tauto; cbn [negb];
    try (by rewrite roll_back_false); reflexivity.
Qed.

Lemma next_uid_truthy (_uids : gset pyval) (uid : Z) :
  next_uid _uids = Ok uid -> pyval_truthy (PInt uid) = true.
Proof.
  intros Hnext.
  apply next_uid_least_free in Hnext as [Hband _]. simpl.
  apply negb_true_iff, Z.eqb_neq. lia.
Qed.

(** [create_user] hands the allocated index to its four steps. *)
Lemma create_user_uses_next_uid `{Runner World}
  (username password permissions : string)
  (users : option (gmap string (gmap string pyval)))
  (table : gmap string (gmap string pyval)) (_uids : gset pyval) (uid : Z)
  (host admin_username admin_password : option string)
  (st0 st : state World) :
  resolve_users users st0 = (Ok table, st) ->
  table !! username = None ->
  collect_uids table = Ok _uids ->
  next_uid _uids = Ok uid ->
  create_user username password permissions users
    host admin_username admin_password st0
  = create_user_steps username password permissions (PInt uid)
      host admin_username admin_password st.
Proof.
  intros Hresolve Hfree Hcollect Hnext. unfold create_user.
  unfold mbind at 1, M_bind at 1.
  change (match users with
          | Some users0 => mret users0
          | None => list_users None None None None
          end st0) with (resolve_users users st0).
  rewrite Hresolve.
  rewrite bool_decide_eq_false_2 by (rewrite Hfree; by intros [? ?]).
  unfold_monad. rewrite Hcollect, Hnext. reflexivity.
Qed.

(** C7: once [create_user] has allocated an index, it runs its four steps
    in order and stops at the first one whose exit code is not zero; it
    returns [True] exactly when all four exit codes are zero, and
    otherwise the command that follows the failing step is the deletion
    of the user at the allocated index, after which it returns [False]. *)
Theorem create_user_rolls_back `{Runner World}
  (username password permissions : string)
  (users : option (gmap string (gmap string pyval)))
  (table : gmap string (gmap string pyval)) (_uids : gset pyval) (uid : Z)
  (host admin_username admin_password : option string)
  (st0 st : state World) :
  resolve_users users st0 = (Ok table, st) ->
  table !! username = None ->
  collect_uids table = Ok _uids ->
  next_uid _uids = Ok uid ->
  let lines := step_lines username password permissions (PInt uid)
                 host admin_username admin_password in
  let codes := exit_codes lines st in
  let result := create_user username password permissions users
                  host admin_username admin_password st0 in
  result.1 = Ok (all_zero codes)
  /\ calls result.2
     = calls st ++ take (steps_run codes) lines
       ++ (if all_zero codes then [] else [undo_line (PInt uid)]).
Proof.
  intros Hresolve Hfree Hcollect Hnext. cbn zeta.
  rewrite (create_user_uses_next_uid _ _ _ _ _ _ _ _ _ _ _ _
             Hresolve Hfree Hcollect Hnext).
  rewrite create_user_steps_cases by (by eapply next_uid_truthy).
  cbn zeta. unfold step_lines, all_zero. cbn [exit_codes forallb steps_run].
  repeat case_bool_decide; cbn [andb fst snd take];
    rewrite ?calls_rolled_back; cbn [calls warned after_run];
    rewrite <- ?app_assoc; split; reflexivity.
Qed.

(** ** The section parser [__parse_drac] *)

Lemma dict_of_lists_entry (i : string) :
  dict_of_lists [strip <$> split_on "=" i]
  = if Nat.eqb (count "=" i) 1
    then Ok {[strip (partition_on "=" i).1 := strip (partition_on "=" i).2]}
    else Raise ValueError.
Proof.
  unfold dict_of_lists. destruct (Nat.eqb (count "=" i) 1) eqn:Hcount.
  - apply Nat.eqb_eq in Hcount. rewrite split_on_partition by done.
    simpl. by rewrite insert_empty.
  - apply Nat.eqb_neq in Hcount.
    pose proof (length_split_on "=" i) as Hlen.
    destruct (split_on "=" i) as [|a [|b [|c pieces]]]; simpl in *;
      try done; lia.
Qed.

Lemma parse_drac_line_section (drac : gmap string (gmap string string))
  (section i : string) :
  is_key_value_line i = false ->
  parse_drac_inv (drac, section) ->
  exists drac', parse_drac_line (drac, section) i
                = Ok (drac', drop_last (strip i))
                /\ parse_drac_inv (drac', drop_last (strip i))
                /\ drac' = match drac !! drop_last (strip i) with
                           | Some _ => drac
                           | None =>
                               if is_empty (drop_last (strip i)) then drac
                               else <[drop_last (strip i) := ∅]> drac
                           end.
Proof.
  intros Hkv [Hempty Hcur]. unfold parse_drac_line. rewrite Hkv.
  set (name := drop_last (strip i)).
  destruct (drac !! name) as [props|] eqn:Hname.
  - rewrite bool_decide_eq_false_2 by done. simpl.
    eexists. split; [done|]. split; [|done]. split; simpl; [done|].
    intros _. by rewrite Hname.
  - rewrite bool_decide_eq_true_2 by done. simpl.
    destruct (is_empty name) eqn:Hne; simpl.
    + eexists. split; [done|]. split; [|done]. split; simpl; [done|].
      by apply is_empty_true in Hne.
    + apply is_empty_false in Hne.
      eexists. split; [done|]. split; [|done]. split; simpl.
      * by rewrite lookup_insert_ne.
      * intros _. by rewrite lookup_insert_eq.
Qed.

Lemma parse_drac_line_entry (drac : gmap string (gmap string string))
  (section i : string) :
  is_key_value_line i = true ->
  parse_drac_inv (drac, section) ->
  parse_drac_line (drac, section) i
  = match drac !! section with
    | None => Ok (drac, section)
    | Some props =>
        if Nat.eqb (count "=" i) 1
        then Ok (<[section :=
                     <[strip (partition_on "=" i).1
                       := strip (partition_on "=" i).2]> props]> drac,
                 section)
        else Raise ValueError
    end.
Proof.
  intros Hkv _. unfold parse_drac_line. rewrite Hkv.
  destruct (drac !! section) as [props|]; [|done].
  rewrite dict_of_lists_entry.
  destruct (Nat.eqb (count "=" i) 1); [|done].
  unfold_monad. by rewrite <- insert_union_singleton_l.
Qed.

Lemma parse_drac_inv_section_declared
  (drac : gmap string (gmap string string)) (section : string) :
  parse_drac_inv (drac, section) ->
  is_Some (drac !! section) <-> is_empty section = false.
Proof.
  intros [Hempty Hcur]. simpl in *. rewrite is_empty_false. split.
  - intros Hsome ->. rewrite Hempty in Hsome. by destruct Hsome.
  - done.
Qed.

(** The loop of [__parse_drac] raises exactly when it meets an unreadable
    entry inside a declared section, and otherwise ends with the section
    variable that [section_after] describes. *)
Lemma foldlM_parse_drac_line (lines : list string)
  (drac : gmap string (gmap string string)) (section : string) :
  parse_drac_inv (drac, section) ->
  if has_malformed_entry section lines
  then foldlM parse_drac_line (drac, section) lines = Raise ValueError
  else exists drac',
      foldlM parse_drac_line (drac, section) lines
      = Ok (drac', section_after section lines)
      /\ parse_drac_inv (drac', section_after section lines).
Proof.
  revert drac section. induction lines as [|i rest IH]; intros drac section Hinv.
  - simpl. by exists drac.
  - cbn [has_malformed_entry foldlM section_after fold_left].
    fold (section_after (if is_key_value_line i then section
                         else drop_last (strip i)) rest).
    destruct (is_key_value_line i) eqn:Hkv.
    + rewrite parse_drac_line_entry by done.
      pose proof (parse_drac_inv_section_declared _ _ Hinv) as Hdecl.
      destruct (drac !! section) as [props|] eqn:Hsec.
      * assert (is_empty section = false) as -> by (apply Hdecl; eauto).
        cbn [negb andb].
        destruct (Nat.eqb (count "=" i) 1) eqn:Hcount; cbn [negb orb]; [|done].
        unfold mbind at 1, outcome_bind at 1. apply IH.
        destruct Hinv as [Hempty Hcur]. simpl in *. split; simpl.
        -- rewrite lookup_insert_ne; [done|].
           intros ->. by rewrite Hempty in Hsec.
        -- intros _. by rewrite lookup_insert_eq.
      * assert (is_empty section = true) as ->.
        { apply not_false_iff_true. intros He.
          apply Hdecl in He. by destruct He. }
        cbn [negb andb orb].
        unfold mbind at 1, outcome_bind at 1. by apply IH.
    + destruct (parse_drac_line_section _ _ _ Hkv Hinv)
        as (drac' & -> & Hinv' & _).
      unfold mbind at 1, outcome_bind at 1. by apply IH.
Qed.

Lemma parse_drac_inv_initial : parse_drac_inv (∅, "").
Proof. split; simpl; [apply lookup_empty|done]. Qed.

(** [has_malformed_entry] finds a line: one with an equals sign and not
    exactly one, read while the section variable is not empty. *)
Lemma has_malformed_entry_iff (section : string) (lines : list string) :
  has_malformed_entry section lines = true <->
  exists pre i post,
    lines = pre ++ i :: post
    /\ is_malformed_entry i = true
    /\ section_after section pre <> "".
Proof.
  revert section. induction lines as [|i rest IH]; intros section.
  - simpl. split; [done|]. intros (pre & j & post & Heq & _).
    by destruct pre.
  - cbn [has_malformed_entry].
    destruct (is_key_value_line i) eqn:Hkv.
    + rewrite orb_true_iff, IH. split.
      * intros [Hhere|(pre & j & post & -> & Hbad & Hsec)].
        -- apply andb_prop in Hhere as [Hne Hcount].
           exists [], i, rest. split; [done|]. split.
           ++ unfold is_malformed_entry. by rewrite Hkv, Hcount.
           ++ simpl. by apply is_empty_false, negb_true_iff.
        -- exists (i :: pre), j, post. split; [done|]. split; [done|].
           unfold section_after in *. simpl. by rewrite Hkv.
      * intros (pre & j & post & Heq & Hbad & Hsec).
        destruct pre as [|i' pre]; simpl in Heq; inversion Heq; subst.
        -- left. unfold is_malformed_entry in Hbad. rewrite Hkv in Hbad.
           simpl in Hbad, Hsec. rewrite Hbad, andb_true_r.
           by apply negb_true_iff, is_empty_false.
        -- right. exists pre, j, post. split; [done|]. split; [done|].
           unfold section_after in *. simpl in Hsec. by rewrite Hkv in Hsec.
    + rewrite IH. split.
      * intros (pre & j & post & -> & Hbad & Hsec).
        exists (i :: pre), j, post. split; [done|]. split; [done|].
        unfold section_after in *. simpl. by rewrite Hkv.
      * intros (pre & j & post & Heq & Hbad & Hsec).
        destruct pre as [|i' pre]; simpl in Heq; inversion Heq; subst.
        -- unfold is_malformed_entry in Hbad. by rewrite Hkv in Hbad.
        -- exists pre, j, post. split; [done|]. split; [done|].
           unfold section_after in *. simpl in Hsec. by rewrite Hkv in Hsec.
Qed.

(** [__parse_drac] through [has_malformed_entry]. *)
Lemma parse_drac_cases (output : string) :
  if has_malformed_entry "" (splitlines output)
  then __parse_drac output = Raise ValueError
  else exists drac, __parse_drac output = Ok drac.
Proof.
  unfold __parse_drac.
  pose proof (foldlM_parse_drac_line (splitlines output) ∅ ""
                parse_drac_inv_initial) as Hloop.
  destruct (has_malformed_entry "" (splitlines output)).
  - by rewrite Hloop.
  - destruct Hloop as (drac & -> & _). by exists drac.
Qed.

(** ** C10: where [__parse_drac] raises *)

(** C10, as stated, fails in its last part: the parser ends normally on
    the one-line input [a=b=c], whose line has two equals signs, because
    no section is declared when the line is read. *)
Lemma parse_drac_total_counterexample :
  ~ (forall (output : string) (drac : gmap string (gmap string string)),
       __parse_drac output = Ok drac ->
       forall i : string,
         i ∈ splitlines output -> contains "=" i = true ->
         count "=" i = 1%nat).
Proof.
  intros Hclaim.
  assert (__parse_drac "a=b=c" = Ok ∅) as Hrun by (vm_compute; reflexivity).
  specialize (Hclaim "a=b=c" ∅ Hrun "a=b=c").
  assert (count "=" "a=b=c" = 2%nat) as Hcount by (vm_compute; reflexivity).
  rewrite Hcount in Hclaim. discriminate Hclaim.
  - vm_compute. apply list_elem_of_here.
  - vm_compute. reflexivity.
Qed.

(** C10 (amended): [__parse_drac] is not total.  It raises [ValueError]
    exactly when some line with an equals sign, read while a section is
    declared, does not have exactly one equals sign, as in the two-line
    input [Sec:], [a=b=c]; on every other input it returns a
    dictionary. *)
Theorem parse_drac_raises_iff (output : string) :
  (__parse_drac output = Raise ValueError <->
   exists pre i post,
     splitlines output = pre ++ i :: post
     /\ is_malformed_entry i = true
     /\ section_after "" pre <> "")
  /\ ((exists drac, __parse_drac output = Ok drac) <->
      forall pre i post,
        splitlines output = pre ++ i :: post ->
        section_after "" pre <> "" ->
        is_key_value_line i = true ->
        count "=" i = 1%nat)
  /\ __parse_drac ("Sec:" +:+ nl +:+ "a=b=c") = Raise ValueError.
Proof.
  pose proof (parse_drac_cases output) as Hcases.
  pose proof (has_malformed_entry_iff "" (splitlines output)) as Hiff.
  split; [|split].
  - destruct (has_malformed_entry "" (splitlines output)).
    + split; [intros _; by apply Hiff|done].
    + destruct Hcases as [drac Hok]. rewrite Hok. split; [done|].
      intros Hex. apply Hiff in Hex. done.
  - destruct (has_malformed_entry "" (splitlines output)).
    + rewrite Hcases. split; [by intros [drac ?]|].
      intros Hall. destruct Hiff as [Hex _].
      destruct (Hex eq_refl) as (pre & i & post & Heq & Hbad & Hsec).
      unfold is_malformed_entry in Hbad. apply andb_prop in Hbad as [Hkv Hcount].
      rewrite (Hall pre i post Heq Hsec Hkv) in Hcount. done.
    + split; [|done]. intros _ pre i post Heq Hsec Hkv.
      destruct (Nat.eqb (count "=" i) 1) eqn:Hcount;
        [by apply Nat.eqb_eq|].
      destruct Hiff as [_ Hback].
      enough (false = true) by done. apply Hback.
      exists pre, i, post. split; [done|]. split; [|done].
      unfold is_malformed_entry. by rewrite Hkv, Hcount.
  - vm_compute. reflexivity.
Qed.

(** ** C4: the section parser against its reference *)

Lemma well_formed_entry_line (l : string) :
  well_formed_line l = true -> contains "=" l = true ->
  is_key_value_line l = true
  /\ count "=" l = 1%nat
  /\ classify_line l
     = EntryLine (strip (partition_on "=" l).1) (strip (partition_on "=" l).2).
Proof.
  unfold well_formed_line, is_key_value_line, classify_line.
  intros Hwf Hin. rewrite Hin in *.
  apply andb_prop in Hwf as [Hblank Hcount].
  rewrite is_empty_rstrip_strip, Hblank.
  apply negb_true_iff in Hblank. rewrite Hblank.
  apply Nat.eqb_eq in Hcount.
  repeat split; [done|]. by destruct (partition_on "=" l).
Qed.

Lemma well_formed_section_line (l : string) :
  well_formed_line l = true -> contains "=" l = false ->
  is_key_value_line l = false
  /\ drop_last (strip l) <> ""
  /\ classify_line l = SectionLine (drop_last (strip l)).
Proof.
  unfold well_formed_line, is_key_value_line, classify_line,
    without_trailing_colon.
  intros Hwf Hin. rewrite Hin in *.
  apply andb_prop in Hwf as [Hblank Hrest].
  apply andb_prop in Hrest as [Hcolon Hname].
  apply negb_true_iff in Hblank. rewrite Hblank, Hcolon.
  rewrite andb_false_r. repeat split.
  by apply is_empty_false, negb_true_iff.
Qed.

Lemma parse_drac_line_agrees (l : string)
  (st : gmap string (gmap string string) * string)
  (ref : gmap string (gmap string string) * option string) :
  well_formed_line l = true ->
  parse_drac_agrees st ref ->
  exists st', parse_drac_line st l = Ok st'
              /\ parse_drac_agrees st' (reference_step ref l).
Proof.
  destruct st as [drac section], ref as [sections current].
  intros Hwf (Heq & Hempty & Hcur). simpl in Heq, Hempty, Hcur. subst sections.
  unfold reference_step.
  destruct (contains "=" l) eqn:Hin.
  - destruct (well_formed_entry_line l Hwf Hin) as (Hkv & Hcount & ->).
    assert (parse_drac_inv (drac, section)) as Hinv.
    { split; simpl; [done|]. destruct current as [name|].
      - destruct Hcur as (-> & _ & Hsome). done.
      - by intros ?. }
    rewrite parse_drac_line_entry by done.
    destruct current as [name|].
    + destruct Hcur as (-> & Hname & [props Hprops]).
      rewrite Hprops, Hcount. simpl. eexists. split; [done|].
      split; [done|]. simpl. split; [by rewrite lookup_insert_ne|].
      split; [done|]. split; [done|]. by rewrite lookup_insert_eq.
    + subst section. rewrite Hempty. eexists. split; [done|].
      by repeat split.
  - destruct (well_formed_section_line l Hwf Hin) as (Hkv & Hname & ->).
    assert (parse_drac_inv (drac, section)) as Hinv.
    { split; simpl; [done|]. destruct current as [name|].
      - destruct Hcur as (-> & _ & Hsome). done.
      - by intros ?. }
    destruct (parse_drac_line_section _ _ _ Hkv Hinv)
      as (drac' & -> & [Hempty' Hcur'] & ->).
    eexists. split; [done|].
    apply is_empty_false in Hname as Hne. simpl in Hempty', Hcur'.
    rewrite Hne in *.
    split; [|split; [done|simpl; by auto]].
    simpl. by destruct (drac !! drop_last (strip l)).
Qed.

Lemma foldlM_parse_drac_agrees (lines : list string)
  (st : gmap string (gmap string string) * string)
  (ref : gmap string (gmap string string) * option string) :
  forallb well_formed_line lines = true ->
  parse_drac_agrees st ref ->
  exists st', foldlM parse_drac_line st lines = Ok st'
              /\ parse_drac_agrees st' (fold_left reference_step lines ref).
Proof.
  revert st ref. induction lines as [|l rest IH]; intros st ref Hwf Hagree.
  - by exists st.
  - simpl in Hwf. apply andb_prop in Hwf as [Hl Hrest].
    destruct (parse_drac_line_agrees l st ref Hl Hagree) as (st1 & Hstep & H1).
    cbn [foldlM fold_left]. rewrite Hstep.
    unfold mbind at 1, outcome_bind at 1. by apply IH.
Qed.

(** A key and value on the last line end up in the section that line
    falls in, whatever the lines before bound the key to. *)
Lemma reference_last_line_wins (pre : list string) (l key value name : string) :
  classify_line l = EntryLine key value ->
  (reference_lines pre).2 = Some name ->
  exists props,
    (reference_lines (pre ++ [l])).1 !! name = Some props
    /\ props !! key = Some value.
Proof.
  intros Hclass Hname. unfold reference_lines in *.
  rewrite fold_left_app. cbn [fold_left].
  destruct (fold_left reference_step pre (∅, None)) as [sections current].
  simpl in Hname. subst current. unfold reference_step. rewrite Hclass.
  eexists. split; [apply lookup_insert_eq|apply lookup_insert_eq].
Qed.

(** C4: on well-formed input [__parse_drac] returns the dictionary that
    the line-by-line reference builds, and a key and value on the last
    line are in the result for the section the line falls in, whatever
    earlier lines of that section bound the key to. *)
Theorem parse_drac_matches_reference (output : string) :
  well_formed output = true ->
  __parse_drac output = Ok (reference_parse output)
  /\ forall (pre : list string) (l key value name : string),
       splitlines output = pre ++ [l] ->
       classify_line l = EntryLine key value ->
       (reference_lines pre).2 = Some name ->
       exists props,
         reference_parse output !! name = Some props
         /\ props !! key = Some value.
Proof.
  intros Hwf. split.
  - unfold __parse_drac, reference_parse, reference_lines.
    destruct (foldlM_parse_drac_agrees (splitlines output) (∅, "") (∅, None) Hwf)
      as (st' & -> & Heq & _).
    { split; [done|]. split; [apply lookup_empty|done]. }
    unfold_monad. by rewrite Heq.
  - intros pre l key value name Hlines Hclass Hname.
    unfold reference_parse. rewrite Hlines.
    by apply reference_last_line_wins.
Qed.

Lemma parse_drac_matches_reference_witness :
  let output := join nl ["Chassis Information:"; "Chassis Name=A";
                         "Chassis Name = MyChassis"] in
  well_formed output = true
  /\ __parse_drac output = Ok (reference_parse output)
  /\ reference_parse output
     = {["Chassis Information" := {["Chassis Name" := "MyChassis"]}]}.
Proof.
  cbn zeta.
  assert (well_formed (join nl ["Chassis Information:"; "Chassis Name=A";
                                "Chassis Name = MyChassis"]) = true) as Hwf
    by (vm_compute; reflexivity).
  split; [exact Hwf|].
  split; [exact (proj1 (parse_drac_matches_reference _ Hwf))|].
  vm_compute. reflexivity.
Defined.

(** Why each part of well-formedness is asked for: a blank line closes
    the current section, the last character of a section line is dropped
    whatever it is, and a line that consists of a colon declares
    nothing. *)
Example parse_drac_blank_line_closes_section :
  __parse_drac (join nl ["Sec:"; ""; "a=b"]) = Ok {["Sec" := ∅]}.
Proof. vm_compute. reflexivity. Qed.

Example parse_drac_drops_last_character :
  __parse_drac (join nl ["Sec"; "a=b"]) = Ok {["Se" := {["a" := "b"]}]}.
Proof. vm_compute. reflexivity. Qed.

Example parse_drac_empty_section_name :
  __parse_drac (join nl [":"; "a=b"]) = Ok ∅.
Proof. vm_compute. reflexivity. Qed.

(** ** C5: the inventory listing *)

Lemma inventory_line_step (active : option block) (ret : Inventory)
  (l : string) :
  inventory_line (flags_of active, ret) l
  = Ok (flags_of (inventory_step (active, ret) l).1,
        (inventory_step (active, ret) l).2).
Proof.
  unfold inventory_line, inventory_step, tag_block, is_data_line, is_tag_line.
  destruct (startswith "<Server>" l); [done|].
  destruct (startswith "<Switch>" l); [done|].
  destruct (startswith "<CMC>" l); [done|].
  destruct (startswith "<Chassis Infrastructure>" l); [done|].
  cbn [orb negb andb fst snd].
  destruct (String.length l <? 1)%nat; [done|]. cbn [negb].
  pose proof (re_split_spaces_not_nil (strip l)) as Hline.
  destruct (re_split_spaces (strip l)) as [|key rest] eqn:Heq; [done|].
  cbn [head default]. unfold inventory_store.
  destruct active as [[]|]; reflexivity.
Qed.

Lemma foldlM_inventory_line (lines : list string) (active : option block)
  (ret : Inventory) :
  foldlM inventory_line (flags_of active, ret) lines
  = Ok (flags_of (fold_left inventory_step lines (active, ret)).1,
        (fold_left inventory_step lines (active, ret)).2).
Proof.
  revert active ret. induction lines as [|l rest IH]; intros active ret.
  - reflexivity.
  - cbn [foldlM fold_left]. rewrite inventory_line_step.
    unfold mbind at 1, outcome_bind at 1.
    destruct (inventory_step (active, ret) l) as [active' ret'].
    apply IH.
Qed.

(** [inventory]'s loop never raises. *)
Lemma inventory_parse_fold (out : string) :
  inventory_parse out
  = Ok (fold_left inventory_step (splitlines out)
          (None, mkInventory ∅ ∅ ∅ ∅)).2.
Proof.
  unfold inventory_parse.
  change (mkFlags false false false false) with (flags_of None).
  by rewrite foldlM_inventory_line.
Qed.

Lemma inv_get_set (b b' : block) (key : string) (record : gmap string string)
  (ret : Inventory) :
  inv_get b' (inv_set b key record ret)
  = if decide (b = b') then <[key := record]> (inv_get b' ret)
    else inv_get b' ret.
Proof. destruct b, b'; reflexivity. Qed.

Lemma tag_block_data_line (l : string) :
  is_data_line l = true -> tag_block l = None.
Proof.
  unfold is_data_line, is_tag_line, tag_block. intros H.
  apply andb_prop in H as [H _]. apply negb_true_iff in H.
  repeat (apply orb_false_elim in H as [H ?]).
  by repeat match goal with Hs : startswith _ l = false |- _ =>
              rewrite Hs; clear Hs end.
Qed.

Lemma active_block_snoc (lines : list string) (l : string) :
  active_block (lines ++ [l])
  = match tag_block l with
    | Some b => Some b
    | None => active_block lines
    end.
Proof. unfold active_block. by rewrite fold_left_app. Qed.

(** What the loop has stored once the lines [lines] are read. *)
Lemma inventory_step_invariant (lines : list string) :
  let st := fold_left inventory_step lines (None, mkInventory ∅ ∅ ∅ ∅) in
  st.1 = active_block lines
  /\ (forall b key record,
        inv_get b st.2 !! key = Some record ->
        exists pre l post,
          lines = pre ++ l :: post
          /\ active_block pre = Some b
          /\ is_data_line l = true
          /\ head (re_split_spaces (strip l)) = Some key
          /\ record = inventory_record b (re_split_spaces (strip l)))
  /\ (forall pre l post b,
        lines = pre ++ l :: post ->
        active_block pre = Some b ->
        is_data_line l = true ->
        is_Some (inv_get b st.2
                   !! default "" (head (re_split_spaces (strip l))))).
Proof.
  induction lines as [|l lines IH] using rev_ind; cbn zeta.
  - split; [done|]. split.
    + intros [] key record; simpl; by rewrite lookup_empty.
    + intros pre l post b Heq. by destruct pre.
  - rewrite fold_left_app. cbn [fold_left].
    destruct (fold_left inventory_step lines (None, mkInventory ∅ ∅ ∅ ∅))
      as [active ret]. cbn zeta in IH. simpl in IH.
    destruct IH as (Hactive & Hsound & Hcomplete). subst active.
    rewrite active_block_snoc. unfold inventory_step. cbn [fst snd].
    assert (forall ret',
      (forall b key record,
         inv_get b ret' !! key = Some record ->
         inv_get b ret !! key = Some record
         \/ (active_block lines = Some b /\ is_data_line l = true
             /\ head (re_split_spaces (strip l)) = Some key
             /\ record = inventory_record b (re_split_spaces (strip l)))) ->
      forall b key record,
        inv_get b ret' !! key = Some record ->
        exists pre l0 post,
          lines ++ [l] = pre ++ l0 :: post
          /\ active_block pre = Some b
          /\ is_data_line l0 = true
          /\ head (re_split_spaces (strip l0)) = Some key
          /\ record = inventory_record b (re_split_spaces (strip l0)))
      as Hsound'.
    { intros ret' Hstep b key record Hlookup.
      destruct (Hstep b key record Hlookup) as [Hold|Hnew].
      - destruct (Hsound b key record Hold) as (pre & l0 & post & -> & Hrest).
        exists pre, l0, (post ++ [l]). split; [|done].
        by rewrite <- app_assoc.
      - exists lines, l, []. done. }
    assert (forall ret',
      (forall b key, is_Some (inv_get b ret !! key) ->
                     is_Some (inv_get b ret' !! key)) ->
      (forall b, active_block lines = Some b -> is_data_line l = true ->
                 is_Some (inv_get b ret'
                            !! default "" (head (re_split_spaces (strip l))))) ->
      forall pre l0 post b,
        lines ++ [l] = pre ++ l0 :: post ->
        active_block pre = Some b ->
        is_data_line l0 = true ->
        is_Some (inv_get b ret'
                   !! default "" (head (re_split_spaces (strip l0)))))
      as Hcomplete'.
    { intros ret' Hmono Hlast pre l0 post b Heq Hb Hdata.
      destruct post as [|x post _] using rev_ind.
      - apply app_inj_tail in Heq as [-> ->]. by apply Hlast.
      - rewrite app_comm_cons, app_assoc in Heq.
        apply app_inj_tail in Heq as [-> ->].
        apply Hmono. by eapply Hcomplete. }
    destruct (tag_block l) as [b0|] eqn:Htag.
    + split; [done|]. split.
      * apply Hsound'. intros b key record Hlookup. by left.
      * apply Hcomplete'; [done|].
        intros b _ Hdata. apply tag_block_data_line in Hdata. congruence.
    + destruct (is_data_line l) eqn:Hdata; [|].
      * destruct (active_block lines) as [b0|] eqn:Hb0.
        -- split; [done|]. cbn [fst snd].
           pose proof (re_split_spaces_not_nil (strip l)) as Hline.
           destruct (re_split_spaces (strip l)) as [|key0 rest] eqn:Hsplit;
             [done|]. cbn [head default].
           split.
           ++ apply Hsound'. intros b key record.
              rewrite inv_get_set. case_decide as Hb; [|by left].
              subst b0. destruct (decide (key0 = key)) as [->|Hkey].
              ** rewrite lookup_insert_eq. intros [= <-]. by right.
              ** rewrite lookup_insert_ne by done. by left.
           ++ apply Hcomplete'.
              ** intros b key. rewrite inv_get_set.
                 case_decide; [|done].
                 destruct (decide (key0 = key)) as [->|Hkey].
                 --- rewrite lookup_insert_eq. by eauto.
                 --- by rewrite lookup_insert_ne.
              ** intros b [= <-] _. rewrite inv_get_set.
                 rewrite decide_True by done. rewrite lookup_insert_eq.
                 by eauto.
        -- split; [done|]. split.
           ++ apply Hsound'. intros b key record Hlookup. by left.
           ++ by apply Hcomplete'.
      * split; [done|]. split.
        -- apply Hsound'. intros b key record Hlookup. by left.
        -- by apply Hcomplete'.
Qed.

Lemma size_fold_insert (pairs : list (string * string))
  (d : gmap string string) :
  NoDup pairs.*1 ->
  (forall k, k ∈ pairs.*1 -> d !! k = None) ->
  size (fold_left (fun d kv => <[kv.1 := kv.2]> d) pairs d)
  = (size d + length pairs)%nat.
Proof.
  revert d. induction pairs as [|[k v] pairs IH]; intros d Hnodup Hfresh.
  - simpl. lia.
  - rewrite fmap_cons in Hnodup, Hfresh. cbn [fst] in Hnodup, Hfresh.
    apply NoDup_cons in Hnodup as [Hk Hnodup].
    cbn [fold_left fst snd length]. rewrite IH; [|done|].
    + rewrite map_size_insert_None; [lia|]. apply Hfresh. left.
    + intros k' Hk'. rewrite lookup_insert_ne.
      * apply Hfresh. by right.
      * intros ->. done.
Qed.

Lemma fields_NoDup (b : block) : NoDup (fields b).
Proof. destruct b; apply (bool_decide_unpack _); by vm_compute. Qed.

(** A record has one attribute for every field name that meets a field
    of the line. *)
Lemma size_inventory_record (b : block) (line : list string) :
  size (inventory_record b line)
  = Nat.min (length (fields b)) (length line).
Proof.
  unfold inventory_record, dict_of_pairs.
  rewrite size_fold_insert.
  - rewrite map_size_empty, length_zip. lia.
  - eapply (sublist_NoDup _ (fields b)); [apply fields_NoDup|].
    generalize (fields b). intros names. revert line.
    induction names as [|n names IH]; intros [|x line]; simpl;
      try apply sublist_nil_l.
    by apply sublist_skip.
  - intros k _. apply lookup_empty.
Qed.

(** C5: the loop of [inventory] never raises, and every record it returns
    for a block comes from a line read while that block was active: its
    key is the first of the fields the line splits into at runs of two or
    more spaces, its attributes pair the block's field names with those
    fields up to the shorter of the two, so it has no more attributes
    than the block has field names; and every line read while a block is
    active has a record under its first field. *)
Theorem inventory_records_keyed_by_first_field (out : string) :
  exists ret : Inventory,
    inventory_parse out = Ok ret
    /\ (forall b key record,
          inv_get b ret !! key = Some record ->
          (size record <= length (fields b))%nat
          /\ exists pre l post,
               splitlines out = pre ++ l :: post
               /\ active_block pre = Some b
               /\ is_data_line l = true
               /\ head (re_split_spaces (strip l)) = Some key
               /\ record = dict_of_pairs
                             (zip (fields b) (re_split_spaces (strip l)))
               /\ size record
                  = Nat.min (length (fields b))
                      (length (re_split_spaces (strip l))))
    /\ (forall pre l post b,
          splitlines out = pre ++ l :: post ->
          active_block pre = Some b ->
          is_data_line l = true ->
          is_Some (inv_get b ret
                     !! default "" (head (re_split_spaces (strip l))))).
Proof.
  eexists. split; [apply inventory_parse_fold|].
  destruct (inventory_step_invariant (splitlines out))
    as (_ & Hsound & Hcomplete).
  split; [|exact Hcomplete].
  intros b key record Hlookup.
  destruct (Hsound b key record Hlookup)
    as (pre & l & post & Heq & Hb & Hdata & Hkey & ->).
  rewrite size_inventory_record. split; [lia|].
  exists pre, l, post. done.
Qed.

(** ** C6: the slot listing *)

Lemma keep_line_not_blank (l : string) :
  keep_line l = true -> all_space l = false.
Proof.
  unfold keep_line. intros H. apply andb_prop in H as [_ H].
  apply negb_true_iff in H. by rewrite <- strip_all_space.
Qed.

(** The lines of the cleaned output are the lines the filter keeps. *)
Lemma splitlines_clean_stdout (out : string) :
  splitlines (clean_stdout out)
  = filter (fun l => keep_line l = true) (splitlines out).
Proof.
  unfold clean_stdout. apply splitlines_join.
  apply Forall_forall. intros l Hl.
  apply list_elem_of_filter in Hl as [Hkeep Hin].
  split.
  - pose proof (splitlines_no_line_break out) as Hnl.
    rewrite Forall_forall in Hnl. by apply Hnl.
  - intros ->. apply keep_line_not_blank in Hkeep. done.
Qed.

Lemma slotnames_line_step (st : bool * gmap string (gmap string string))
  (l : string) :
  all_space l = false ->
  slotnames_line st l = Ok (slotnames_step st l).
Proof.
  intros Hl. destruct st as [stripheader slots].
  unfold slotnames_line, slotnames_step, slot_entry. cbn [fst snd].
  destruct (startswith "<" l); [done|].
  destruct stripheader; [done|].
  destruct (split_ws l) as [|slot rest] eqn:Hsplit; [|done].
  apply split_ws_nil in Hsplit. congruence.
Qed.

Lemma foldlM_slotnames_line (lines : list string)
  (st : bool * gmap string (gmap string string)) :
  Forall (fun l => all_space l = false) lines ->
  foldlM slotnames_line st lines = Ok (fold_left slotnames_step lines st).
Proof.
  intros Hlines. revert st.
  induction Hlines as [|l lines Hl _ IH]; intros st; [done|].
  cbn [foldlM fold_left]. rewrite slotnames_line_step by done.
  unfold mbind at 1, outcome_bind at 1. apply IH.
Qed.

Lemma fold_slotnames_step_body (lines : list string)
  (slots : gmap string (gmap string string)) :
  fold_left slotnames_step lines (false, slots)
  = (false,
     fold_left slot_entry
       (filter (fun l => startswith "<" l = false) lines) slots).
Proof.
  revert slots. induction lines as [|l lines IH]; intros slots; [done|].
  cbn [fold_left]. unfold slotnames_step at 2. cbn [fst snd].
  rewrite filter_cons. destruct (startswith "<" l) eqn:Hl.
  - rewrite decide_False by done. apply IH.
  - rewrite decide_True by done. cbn [fold_left]. apply IH.
Qed.

Lemma fold_slotnames_step_header (lines : list string) :
  (fold_left slotnames_step lines (true, ∅)).2 = slot_table lines.
Proof.
  unfold slot_table. induction lines as [|l lines IH]; [done|].
  cbn [fold_left drop_header]. unfold slotnames_step at 2. cbn [fst snd].
  destruct (startswith "<" l); [|done].
  by rewrite fold_slotnames_step_body.
Qed.

(** The slot parser on cleaned output. *)
Lemma slotnames_parse_clean (out : string) :
  slotnames_parse (clean_stdout out)
  = Ok (slot_table (filter (fun l => keep_line l = true) (splitlines out))).
Proof.
  unfold slotnames_parse. rewrite splitlines_clean_stdout.
  rewrite foldlM_slotnames_line.
  - unfold_monad. by rewrite fold_slotnames_step_header.
  - apply Forall_forall. intros l Hl.
    apply list_elem_of_filter in Hl as [Hkeep _].
    by apply keep_line_not_blank.
Qed.

Lemma execute_ret_unscoped `{Runner World} (command : string)
  (host admin_username admin_password : option string) (st : state World) :
  let line := racadm_line host admin_username admin_password command "" in
  let cmd := (cmd_run_all line (world st)).1 in
  __execute_ret command host admin_username admin_password None st
  = if bool_decide (retcode cmd ≠ 0)
    then (Ok cmd, warned [exit_code_warning cmd] (after_run line st))
    else (Ok (set_stdout cmd (clean_stdout (stdout cmd))), after_run line st).
Proof.
  cbn zeta. unfold __execute_ret, run_all, ret_modswitch. cbn [opt_truthy].
  unfold_monad. unfold after_run, warned, log_warning.
  destruct (cmd_run_all _ (world st)) as [cmd w]. cbn [fst snd].
  case_bool_decide; reflexivity.
Qed.

(** [list_slotnames] as a whole. *)
Lemma list_slotnames_cases `{Runner World}
  (host admin_username admin_password : option string) (st : state World) :
  let line := slotnames_line_of host admin_username admin_password in
  let cmd := (cmd_run_all line (world st)).1 in
  list_slotnames host admin_username admin_password st
  = if bool_decide (retcode cmd ≠ 0)
    then (Ok (RawResult cmd),
          warned [exit_code_warning cmd] (after_run line st))
    else (Ok (Parsed (slot_table (filter (fun l => keep_line l = true)
                                    (splitlines (stdout cmd))))),
          after_run line st).
Proof.
  cbn zeta. unfold list_slotnames, slotnames_line_of.
  unfold mbind at 1, M_bind at 1. rewrite execute_ret_unscoped. cbn zeta.
  case_bool_decide as Hcode.
  - rewrite bool_decide_eq_true_2 by done. reflexivity.
  - cbn [set_stdout retcode stdout].
    rewrite bool_decide_eq_false_2 by auto.
    unfold_monad. by rewrite slotnames_parse_clean.
Qed.

(** C6, as stated, fails: a line that starts with [<] and comes after the
    first such line is skipped as well and gets no record. *)
Lemma list_slotnames_later_header_counterexample :
  ~ (forall (World : Type) (R : Runner World)
            (host admin_username admin_password : option string)
            (st : state World),
       let cmd := (cmd_run_all
                     (slotnames_line_of host admin_username admin_password)
                     (world st)).1 in
       retcode cmd = 0 ->
       (list_slotnames host admin_username admin_password st).1
       = Ok (Parsed (slot_table_every_line
                       (filter (fun l => keep_line l = true)
                          (splitlines (stdout cmd)))))).
Proof.
  intros Hclaim.
  specialize (Hclaim unit (answering (join nl ["<Slot>"; "<1> spare"]))
                None None None (mkState tt [] []) eq_refl).
  vm_compute in Hclaim. discriminate Hclaim.
Qed.

Lemma slot_entry_lookup (slots : gmap string (gmap string string))
  (l slot : string) (rest : list string) :
  split_ws l = slot :: rest ->
  slot_entry slots l !! slot
  = Some (<["hostname" := default "" (rest !! 1%nat)]>
            (<["slotname" := default "" (rest !! 0%nat)]>
               (<["slot" := slot]> ∅))).
Proof.
  intros Hsplit. unfold slot_entry, slot_record. rewrite Hsplit.
  by rewrite lookup_insert_eq.
Qed.

Lemma drop_header_only (pre : list string) (header : string) :
  Forall (fun l => startswith "<" l = false) pre ->
  startswith "<" header = true ->
  drop_header (pre ++ [header]) = [].
Proof.
  intros Hpre Hheader. induction Hpre as [|l pre Hl _ IH].
  - cbn [app drop_header]. by rewrite Hheader.
  - cbn [app drop_header]. by rewrite Hl.
Qed.

(** C6 (amended): when the command exits with zero, [list_slotnames]
    returns the table built from the kept lines of its output: the lines
    up to and including the first one that starts with [<] are skipped,
    and so is every later line that starts with [<]; every other line
    is split at white space and stored under its first token, with the
    second token as slot name and the third as host name, each the empty
    string when absent; a header with no line after it gives the empty
    mapping. *)
Theorem list_slotnames_table `{Runner World}
  (host admin_username admin_password : option string) (st : state World) :
  let cmd := (cmd_run_all
                (slotnames_line_of host admin_username admin_password)
                (world st)).1 in
  retcode cmd = 0 ->
  (list_slotnames host admin_username admin_password st).1
  = Ok (Parsed (slot_table (filter (fun l => keep_line l = true)
                              (splitlines (stdout cmd)))))
  /\ (forall (slots : gmap string (gmap string string)) (l slot : string)
             (rest : list string),
        split_ws l = slot :: rest ->
        slot_entry slots l
        = <[slot := <["hostname" := default "" (rest !! 1%nat)]>
                      (<["slotname" := default "" (rest !! 0%nat)]>
                         (<["slot" := slot]> ∅))]> slots)
  /\ (forall (pre : list string) (header : string),
        Forall (fun l => startswith "<" l = false) pre ->
        startswith "<" header = true ->
        slot_table (pre ++ [header]) = ∅).
Proof.
  cbn zeta. intros Hzero. split; [|split].
  - rewrite list_slotnames_cases. cbn zeta.
    by rewrite bool_decide_eq_false_2 by (by intros ?).
  - intros slots l slot rest Hsplit.
    unfold slot_entry, slot_record. by rewrite Hsplit.
  - intros pre header Hpre Hheader. unfold slot_table.
    by rewrite drop_header_only.
Qed.

Lemma list_slotnames_table_witness :
  let out := join nl ["racadm getslotname"; "<Slot #>  <Slot Name>  <Host name>";
                      "1  SLOT-01  web01"; "2  SLOT-02"; "3"] in
  let st := mkState tt [] [] in
  retcode (@cmd_run_all unit (answering out)
             (slotnames_line_of None None None) (world st)).1 = 0
  /\ (list_slotnames (H := answering out) None None None st).1
     = Ok (Parsed
             {["1" := {["slot" := "1"; "slotname" := "SLOT-01";
                        "hostname" := "web01"]};
               "2" := {["slot" := "2"; "slotname" := "SLOT-02";
                        "hostname" := ""]};
               "3" := {["slot" := "3"; "slotname" := "";
                        "hostname" := ""]}]}).
Proof.
  cbn zeta. split; [reflexivity|].
  etrans.
  - apply (list_slotnames_table (H := answering _) None None None
             (mkState tt [] [])). reflexivity.
  - vm_compute. reflexivity.
Defined.

(** ** Runs on concrete runners *)

Lemma create_user_rolls_back_witness :
  let st := mkState 0%nat [] [] in
  let result := create_user (H := failing_at 2) "diana" "secret" "login,drac"
                  (Some ∅) None None None st in
  resolve_users (H := failing_at 2) (Some ∅) st = (Ok ∅, st)
  /\ (∅ : gmap string (gmap string pyval)) !! "diana" = None
  /\ collect_uids ∅ = Ok ∅
  /\ next_uid ∅ = Ok 2
  /\ result.1 = Ok false
  /\ calls result.2
     = ["racadm config -g cfgUserAdmin -o cfgUserAdminUserName -i 2 diana ";
        "racadm config -g cfgUserAdmin -o cfgUserAdminPrivilege -i 2 0x00000003 ";
        "racadm config -g cfgUserAdmin -o cfgUserAdminPassword -i 2 secret ";
        undo_line (PInt 2)].
Proof.
  cbn zeta.
  assert (next_uid ∅ = Ok 2) as Hnext by (vm_compute; reflexivity).
  assert (collect_uids ∅ = Ok ∅) as Hcollect by (vm_compute; reflexivity).
  destruct (create_user_rolls_back (H := failing_at 2)
              "diana" "secret" "login,drac" (Some ∅) ∅ ∅ 2 None None None
              (mkState 0%nat [] []) (mkState 0%nat [] [])
              eq_refl (lookup_empty _) Hcollect Hnext) as [Hresult Hcalls].
  split; [reflexivity|]. split; [apply lookup_empty|].
  split; [exact Hcollect|]. split; [exact Hnext|]. split.
  - etrans; [exact Hresult|]. vm_compute. reflexivity.
  - etrans; [exact Hcalls|]. vm_compute. reflexivity.
Defined.

Lemma unlisted_username_raises_key_error_witness :
  let st := mkState tt [] [] in
  let users : gmap string (gmap string pyval) :=
    {["root" := {["index" := PInt 16;
                  "cfgUserAdminPrivilege" := PStr "0x000001ff"]}]} in
  let st' := (list_users (H := listing_root) None None None None st).2 in
  users !! "bob" = None
  /\ list_users (H := listing_root) None None None None st = (Ok users, st')
  /\ delete_user (H := listing_root) "bob" None None None None st
     = (Raise (KeyError "bob"), st')
  /\ change_password (H := listing_root) "bob" "secret" None
       None None None None st
     = (Raise (KeyError "bob"), st').
Proof.
  cbn zeta.
  set (users := ({["root" := {["index" := PInt 16;
                     "cfgUserAdminPrivilege" := PStr "0x000001ff"]}]}
                 : gmap string (gmap string pyval))).
  assert (users !! "bob" = None) as Hmissing by (vm_compute; reflexivity).
  assert (list_users (H := listing_root) None None None None (mkState tt [] [])
          = (Ok users,
             (list_users (H := listing_root) None None None None
                (mkState tt [] [])).2)) as Hlist
    by (vm_compute; reflexivity).
  destruct (unlisted_username_raises_key_error (H := listing_root)
              "bob" "secret" None None None None users (mkState tt [] [])
              Hmissing) as [Hdelete Hchange].
  split; [exact Hmissing|]. split; [exact Hlist|]. split.
  - exact (Hdelete _ Hlist).
  - exact (Hchange _ Hlist).
Defined.

Lemma server_pxe_returns_function_witness :
  let st := mkState tt [] [] in
  let result := server_pxe (H := answering "") None None None st in
  retcode (dispatched (H := answering "") pxe_device_command
             None None None "" st) = 0
  /\ result.1 = Ok (PxeFunction (server_reboot (H := answering "")))
  /\ calls result.2
     = ["racadm config -g cfgServerInfo -o cfgServerFirstBootDevice PXE ";
        "racadm config -g cfgServerInfo -o cfgServerBootOnce 1 "].
Proof.
  cbn zeta. split; [reflexivity|].
  destruct (server_pxe_returns_function (H := answering "") None None None
              (mkState tt [] [])) as [Hboth _].
  destruct (Hboth eq_refl eq_refl) as [Hresult Hcalls].
  split.
  - by rewrite Hresult.
  - rewrite Hresult. exact Hcalls.
Defined.

(** The behaviour of the dispatcher on a nonzero exit code, on a concrete
    runner. *)
Example server_reboot_fails :
  (server_reboot (H := failing_at 0) None None None (Some "ALL_SERVER")
     (mkState 0%nat [] [])).1 = Ok false.
Proof. reflexivity. Qed.


(** * Further properties of the module *)

(** ** The output cleaner of [__execute_ret] *)

Lemma execute_ret_cases `{Runner World} (command : string)
  (host admin_username admin_password module : option string)
  (st : state World) :
  let line := racadm_line host admin_username admin_password
                command (ret_modswitch module) in
  let cmd := (cmd_run_all line (world st)).1 in
  __execute_ret command host admin_username admin_password module st
  = if bool_decide (retcode cmd ≠ 0)
    then (Ok cmd, warned [exit_code_warning cmd] (after_run line st))
    else (Ok (set_stdout cmd (clean_stdout (stdout cmd))), after_run line st).
Proof.
  cbn zeta. unfold __execute_ret, run_all.
  unfold_monad. unfold after_run, warned, log_warning.
  destruct (cmd_run_all _ (world st)) as [cmd w]. cbn [fst snd].
  case_bool_decide; reflexivity.
Qed.

(** X1: [__execute_ret] never raises and never changes the exit code or
    the error text; on a nonzero exit code it returns the runner's result
    as it is and logs one warning; on exit code zero it logs nothing and
    the lines of the output it returns are the lines of the raw output
    that are neither blank nor one of the two notices, in their order. *)
Theorem execute_ret_keeps_lines `{Runner World} (command : string)
  (host admin_username admin_password module : option string)
  (st : state World) :
  let line := racadm_line host admin_username admin_password
                command (ret_modswitch module) in
  let cmd := (cmd_run_all line (world st)).1 in
  let result := __execute_ret command host admin_username admin_password
                  module st in
  exists ret : ExecutionResult,
    result.1 = Ok ret
    /\ retcode ret = retcode cmd
    /\ stderr ret = stderr cmd
    /\ calls result.2 = calls st ++ [line]
    /\ (retcode cmd <> 0 ->
        ret = cmd
        /\ warnings result.2 = warnings st ++ [exit_code_warning cmd])
    /\ (retcode cmd = 0 ->
        splitlines (stdout ret)
        = filter (fun l => keep_line l = true) (splitlines (stdout cmd))
        /\ warnings result.2 = warnings st).
Proof.
  cbn zeta. rewrite execute_ret_cases. cbn zeta.
  case_bool_decide as Hcode.
  - eexists. split; [reflexivity|].
    split; [done|]. split; [done|]. split; [done|]. split; [done|].
    intros Hzero. done.
  - eexists. split; [reflexivity|]. cbn [fst snd set_stdout retcode stderr stdout].
    split; [done|]. split; [done|]. split; [done|]. split; [done|].
    intros _. split; [apply splitlines_clean_stdout|done].
Qed.

Lemma filter_keep_line_idemp (lines : list string) :
  filter (fun l => keep_line l = true)
    (filter (fun l => keep_line l = true) lines)
  = filter (fun l => keep_line l = true) lines.
Proof.
  induction lines as [|l lines IH]; [done|].
  rewrite filter_cons. case_decide as Hkeep; [|done].
  rewrite filter_cons, decide_True by done. by rewrite IH.
Qed.

(** X2: cleaning an output that is already clean changes nothing, and a
    cleaned output has no blank line and no line that starts with one of
    the two notices. *)
Theorem clean_stdout_idempotent (out : string) :
  clean_stdout (clean_stdout out) = clean_stdout out
  /\ Forall (fun l => keep_line l = true) (splitlines (clean_stdout out)).
Proof.
  split.
  - unfold clean_stdout at 1. rewrite splitlines_clean_stdout.
    by rewrite filter_keep_line_idemp.
  - rewrite splitlines_clean_stdout. apply Forall_forall.
    intros l Hl. by apply list_elem_of_filter in Hl as [Hkeep _].
Qed.


(** ** The user table of [list_users] *)

Lemma cfg_key_not_index (user key : string) (rest : list string) :
  startswith "cfg" user = true ->
  split_on "=" user = key :: rest ->
  key <> "index".
Proof.
  destruct user as [|c user]; [done|].
  cbn [startswith]. intros Hstart Hsplit.
  apply andb_prop in Hstart as [Hc _].
  unfold is_char in Hc. apply bool_decide_eq_true in Hc as <-.
  cbn [split_on] in Hsplit.
  replace (is_char "c" "=") with false in Hsplit by done.
  destruct (split_on "=" user) as [|w ws]; simpl in Hsplit;
    inversion Hsplit; done.
Qed.

Lemma list_users_lines_inv (idx : Z) (lines : list string)
  (users : gmap string (gmap string pyval)) (_username : string) :
  1 <= idx <= 16 ->
  list_users_inv (users, _username) ->
  list_users_lines idx users _username lines = Raise ValueError
  \/ exists st',
       list_users_lines idx users _username lines = Ok st'
       /\ list_users_inv st'.
Proof.
  intros Hidx. revert users _username.
  induction lines as [|user rest IH]; intros users _username Hinv.
  - right. by exists (users, _username).
  - cbn [list_users_lines].
    destruct (startswith "cfg" user) eqn:Hcfg; cbn [negb]; [|by apply IH].
    destruct (split_on "=" user) as [|key [|val [|x pieces]]] eqn:Hsplit;
      try by left.
    destruct Hinv as [Hall Hcur]. simpl in Hall, Hcur.
    destruct (startswith "cfgUserAdminUserName" key).
    + destruct (is_empty val) eqn:Hval; cbn [negb].
      * right. eexists. split; [done|]. split; simpl; [done|].
        destruct val; [done|discriminate Hval].
      * apply IH. split; simpl.
        -- intros name record Hlookup.
           destruct (decide (strip val = name)) as [<-|Hne].
           ++ rewrite lookup_insert_eq in Hlookup. inversion Hlookup; subst.
              exists idx. by rewrite lookup_singleton_eq.
           ++ rewrite lookup_insert_ne in Hlookup by done. by eapply Hall.
        -- intros _. by rewrite lookup_insert_eq.
    + destruct (is_empty _username) eqn:Hname; cbn [negb]; [by apply IH|].
      apply is_empty_false in Hname.
      destruct (Hcur Hname) as [record Hrecord]. rewrite Hrecord.
      apply IH. split; simpl.
      * intros name record' Hlookup.
        destruct (decide (_username = name)) as [<-|Hne].
        -- rewrite lookup_insert_eq in Hlookup. inversion Hlookup; subst.
           destruct (Hall _ _ Hrecord) as (idx' & Hidx' & Hrange).
           exists idx'. split; [|done].
           rewrite lookup_insert_ne; [done|].
           by eapply cfg_key_not_index.
        -- rewrite lookup_insert_ne in Hlookup by done. by eapply Hall.
      * intros _. by rewrite lookup_insert_eq.
Qed.

(** One query of [list_users] as a case distinction on its exit code. *)
Lemma list_users_query_cases `{Runner World}
  (host admin_username admin_password : option string)
  (st0 : gmap string (gmap string pyval) * string) (idx : Z)
  (st : state World) :
  let line := user_query_line host admin_username admin_password idx in
  let cmd := (cmd_run_all line (world st)).1 in
  list_users_query host admin_username admin_password st0 idx st
  = if bool_decide (retcode cmd ≠ 0)
    then (list_users_lines idx st0.1 st0.2 (splitlines (stdout cmd)),
          warned [exit_code_warning cmd; exit_code_warning cmd]
            (after_run line st))
    else (list_users_lines idx st0.1 st0.2
            (splitlines (clean_stdout (stdout cmd))),
          after_run line st).
Proof.
  cbn zeta. unfold list_users_query.
  unfold mbind at 1, M_bind at 1. rewrite execute_ret_unscoped. cbn zeta.
  fold (user_query_line host admin_username admin_password idx).
  case_bool_decide as Hcode.
  - rewrite bool_decide_eq_true_2 by done.
    unfold_monad. by rewrite log_warning_warned, warned_warned.
  - cbn [set_stdout retcode stdout].
    rewrite bool_decide_eq_false_2 by auto. reflexivity.
Qed.

Lemma list_users_query_inv `{Runner World}
  (host admin_username admin_password : option string)
  (st0 : gmap string (gmap string pyval) * string) (idx : Z)
  (st : state World) :
  1 <= idx <= 16 ->
  list_users_inv st0 ->
  let result := list_users_query host admin_username admin_password
                  st0 idx st in
  calls result.2
  = calls st ++ [user_query_line host admin_username admin_password idx]
  /\ (result.1 = Raise ValueError
      \/ exists st0', result.1 = Ok st0' /\ list_users_inv st0').
Proof.
  intros Hidx Hinv. cbn zeta. rewrite list_users_query_cases. cbn zeta.
  destruct st0 as [users _username]. cbn [fst snd].
  case_bool_decide as Hcode; cbn [fst snd]; (split; [done|]);
    by apply list_users_lines_inv.
Qed.

Lemma foldlM_cons_M {World A B : Type} (f : A -> B -> M World A)
  (a : A) (x : B) (l : list B) (st : state World) :
  foldlM f a (x :: l) st
  = match f a x st with
    | (Ok a', st') => foldlM f a' l st'
    | (Raise e, st') => (Raise e, st')
    end.
Proof. reflexivity. Qed.

Lemma foldlM_list_users_query `{Runner World}
  (host admin_username admin_password : option string) (idxs : list Z)
  (st0 : gmap string (gmap string pyval) * string) (st : state World) :
  Forall (fun idx => 1 <= idx <= 16) idxs ->
  list_users_inv st0 ->
  let result := foldlM (list_users_query host admin_username admin_password)
                  st0 idxs st in
  result.1 = Raise ValueError
  \/ exists st0',
       result.1 = Ok st0'
       /\ list_users_inv st0'
       /\ calls result.2
          = calls st
            ++ (user_query_line host admin_username admin_password <$> idxs).
Proof.
  intros Hidxs. revert st0 st.
  induction Hidxs as [|idx idxs Hidx _ IH]; intros st0 st Hinv; cbn zeta.
  - right. exists st0. cbn. by rewrite app_nil_r.
  - rewrite foldlM_cons_M.
    destruct (list_users_query_inv host admin_username admin_password
                st0 idx st Hidx Hinv) as [Hcalls Hstep].
    destruct (list_users_query host admin_username admin_password st0 idx st)
      as [[st1|e] st'] eqn:Hquery; cbn [fst snd] in *.
    + destruct Hstep as [Hraise|(st0' & [= <-] & Hinv')]; [done|].
      destruct (IH st1 st' Hinv') as [Hraise|(st2 & Hok & Hinv2 & Hcalls2)].
      * by left.
      * right. exists st2. split; [done|]. split; [done|].
        rewrite Hcalls2, Hcalls, fmap_cons. by rewrite <- app_assoc.
    + destruct Hstep as [Hraise|(st0' & Hok & _)]; [by left|done].
Qed.

Lemma list_users_fold `{Runner World}
  (host admin_username admin_password module : option string)
  (st : state World) :
  list_users host admin_username admin_password module st
  = (foldlM (list_users_query host admin_username admin_password)
       (∅, "") (seqZ 1 16)
     ≫= fun st0 => mret st0.1) st.
Proof. reflexivity. Qed.

Lemma list_users_inv_initial : list_users_inv (∅, "").
Proof. split; simpl; [intros name record; by rewrite lookup_empty|done]. Qed.

(** What a listing that came back holds. *)
Lemma list_users_ok `{Runner World}
  (host admin_username admin_password module : option string)
  (users : gmap string (gmap string pyval)) (st st' : state World) :
  list_users host admin_username admin_password module st = (Ok users, st') ->
  (forall name record,
     users !! name = Some record ->
     exists idx : Z, record !! "index" = Some (PInt idx) /\ 1 <= idx <= 16)
  /\ calls st'
     = calls st
       ++ (user_query_line host admin_username admin_password <$> seqZ 1 16).
Proof.
  rewrite list_users_fold. unfold mbind, M_bind.
  assert (Forall (fun idx => 1 <= idx <= 16) (seqZ 1 16)) as Hidxs.
  { apply Forall_forall. intros idx Hin. apply elem_of_seqZ in Hin. lia. }
  destruct (foldlM_list_users_query host admin_username admin_password
              (seqZ 1 16) (∅, "") st Hidxs list_users_inv_initial) as [Hraise|Hok].
  - destruct (foldlM (list_users_query host admin_username admin_password)
                  (∅, "") (seqZ 1 16) st) as [[st0|e] st1]; cbn [fst] in Hraise; done.
  - destruct Hok as (st0' & Hok & [Hall _] & Hcalls).
    destruct (foldlM (list_users_query host admin_username admin_password)
                  (∅, "") (seqZ 1 16) st) as [[st0|e] st1]; cbn [fst snd] in *; [|done].
    inversion Hok; subst st0'. unfold mret, M_ret. intros [= <- <-].
    done.
Qed.

(** X3: [list_users] raises nothing but [ValueError]; when it returns, it
    has run its sixteen queries in the order of the indices, and every
    user of the table has an integer index between 1 and 16. *)
Theorem list_users_indexed `{Runner World}
  (host admin_username admin_password module : option string)
  (st : state World) :
  let result := list_users host admin_username admin_password module st in
  match result.1 with
  | Raise e => e = ValueError
  | Ok users =>
      calls result.2
      = calls st
        ++ (user_query_line host admin_username admin_password <$> seqZ 1 16)
      /\ forall name record,
           users !! name = Some record ->
           exists idx : Z,
             record !! "index" = Some (PInt idx) /\ 1 <= idx <= 16
  end.
Proof.
  cbn zeta.
  destruct (list_users host admin_username admin_password module st)
    as [[users|e] st'] eqn:Hlist; cbn [fst snd].
  - destruct (list_users_ok _ _ _ _ _ _ _ Hlist) as [Hall Hcalls]. done.
  - rewrite list_users_fold in Hlist. unfold mbind, M_bind in Hlist.
    assert (Forall (fun idx => 1 <= idx <= 16) (seqZ 1 16)) as Hidxs.
    { apply Forall_forall. intros idx Hin. apply elem_of_seqZ in Hin. lia. }
    destruct (foldlM_list_users_query host admin_username admin_password
                (seqZ 1 16) (∅, "") st Hidxs list_users_inv_initial)
      as [Hraise|(st0' & Hok & _)].
    + destruct (foldlM (list_users_query host admin_username admin_password)
                  (∅, "") (seqZ 1 16) st) as [[st0|e0] st1]; cbn [fst] in Hraise;
        [done|]. inversion Hraise; subst. by inversion Hlist.
    + destruct (foldlM (list_users_query host admin_username admin_password)
                  (∅, "") (seqZ 1 16) st) as [[st0|e0] st1]; cbn [fst] in Hok;
        [|done]. unfold mret, M_ret in Hlist. done.
Qed.


(** ** Operations that look a user name up *)

(** X4: when [uid] is left unspecified and the listing has an entry for
    [username], [delete_user], [change_password] and [set_permissions]
    run their command at the index the listing gives, which lies between
    1 and 16; the branch that warns that the user does not exist is not
    taken. *)
Theorem listed_username_uses_listed_index `{Runner World}
  (username password permissions : string)
  (host admin_username admin_password module : option string)
  (users : gmap string (gmap string pyval)) (st st' : state World) :
  is_Some (users !! username) ->
  (list_users None None None None st = (Ok users, st') ->
   exists idx : Z,
     user_index users username = Ok (PInt idx)
     /\ 1 <= idx <= 16
     /\ delete_user username None host admin_username admin_password st
        = __execute_cmd (delete_command (PInt idx))
            host admin_username admin_password None st'
     /\ set_permissions username permissions None
          host admin_username admin_password st
        = set_permissions username permissions (Some (PInt idx))
            host admin_username admin_password st')
  /\ (list_users host admin_username admin_password module st
      = (Ok users, st') ->
      exists idx : Z,
        user_index users username = Ok (PInt idx)
        /\ 1 <= idx <= 16
        /\ change_password username password None
             host admin_username admin_password module st
           = __execute_cmd (password_command (PInt idx) password)
               host admin_username admin_password module st').
Proof.
  intros [record Hrecord].
  assert (forall h u p m,
            list_users h u p m st = (Ok users, st') ->
            exists idx : Z,
              user_index users username = Ok (PInt idx) /\ 1 <= idx <= 16)
    as Hindex.
  { intros h u p m Hlist.
    destruct (list_users_ok _ _ _ _ _ _ _ Hlist) as [Hall _].
    destruct (Hall _ _ Hrecord) as (idx & Hidx & Hrange).
    exists idx. split; [|done].
    unfold user_index, getitem. rewrite Hrecord. unfold_monad.
    by rewrite Hidx. }
  split; intros Hlist; destruct (Hindex _ _ _ _ Hlist) as (idx & Hidx & Hrange);
    exists idx; (split; [done|]); (split; [done|]).
  - assert (pyval_truthy (PInt idx) = true) as Htruthy.
    { simpl. apply negb_true_iff, Z.eqb_neq. lia. }
    split.
    + unfold delete_user. unfold_monad. rewrite Hlist, Hidx. cbn beta iota.
      by rewrite Htruthy.
    + unfold set_permissions. unfold_monad. by rewrite Hlist, Hidx.
  - assert (pyval_truthy (PInt idx) = true) as Htruthy.
    { simpl. apply negb_true_iff, Z.eqb_neq. lia. }
    unfold change_password. unfold_monad. rewrite Hlist, Hidx. cbn beta iota.
    by rewrite Htruthy.
Qed.

(** ** The user table of [create_user] *)

Lemma foldlM_collect_uids (entries : list (string * gmap string pyval))
  (_uids : gset pyval) :
  Forall (fun entry => is_Some (entry.2 !! "index")) entries ->
  exists _uids',
    foldlM (fun (_uids : gset pyval) (entry : string * gmap string pyval) =>
              index ← getitem entry.2 "index";
              Ok ({[index]} ∪ _uids))
           _uids entries = Ok _uids'
    /\ forall v,
         v ∈ _uids' <->
         v ∈ _uids \/ exists entry, entry ∈ entries /\ entry.2 !! "index" = Some v.
Proof.
  intros Hentries. revert _uids.
  induction Hentries as [|entry entries [v Hv] _ IH]; intros _uids.
  - exists _uids. split; [done|]. intros v. split; [by left|].
    intros [?|(entry & Hin & _)]; [done|]. by apply not_elem_of_nil in Hin.
  - cbn [foldlM]. unfold getitem. rewrite Hv. unfold_monad.
    destruct (IH ({[v]} ∪ _uids)) as (_uids' & Hfold & Hmem).
    exists _uids'. split; [exact Hfold|]. intros w. rewrite Hmem.
    rewrite elem_of_union, elem_of_singleton. split.
    + intros [[->|Hw]|(e & Hin & He)].
      * right. exists entry. split; [left|done].
      * by left.
      * right. exists e. split; [by right|done].
    + intros [Hw|(e & Hin & He)]; [by left; right|].
      apply elem_of_cons in Hin as [->|Hin].
      * left. left. congruence.
      * right. by exists e.
Qed.

(** The set [create_user] collects holds the indices of the table. *)
Lemma collect_uids_indices (users : gmap string (gmap string pyval)) :
  (forall name record, users !! name = Some record ->
                       is_Some (record !! "index")) ->
  exists _uids,
    collect_uids users = Ok _uids
    /\ forall v,
         v ∈ _uids <->
         exists name record,
           users !! name = Some record /\ record !! "index" = Some v.
Proof.
  intros Hall. unfold collect_uids.
  destruct (foldlM_collect_uids (map_to_list users) ∅) as (_uids & Hfold & Hmem).
  { apply Forall_forall. intros [name record] Hin.
    apply elem_of_map_to_list in Hin. by eapply Hall. }
  exists _uids. split; [exact Hfold|]. intros v. rewrite Hmem. split.
  - intros [Hempty|([name record] & Hin & Hv)]; [set_solver|].
    apply elem_of_map_to_list in Hin. by exists name, record.
  - intros (name & record & Hlookup & Hv). right.
    exists (name, record). split; [by apply elem_of_map_to_list|done].
Qed.

Lemma create_user_steps_first_call `{Runner World}
  (username password permissions : string) (uid : pyval)
  (host admin_username admin_password : option string) (st : state World) :
  pyval_truthy uid = true ->
  let result := create_user_steps username password permissions uid
                  host admin_username admin_password st in
  exists rest : list string,
    calls result.2
    = calls st
      ++ create_line username uid host admin_username admin_password :: rest.
Proof.
  intros Huid. cbn zeta. rewrite create_user_steps_cases by done. cbn zeta.
  repeat case_bool_decide; cbn [fst snd];
    rewrite ?calls_rolled_back; cbn [calls warned after_run];
    rewrite <- ?app_assoc; eexists; reflexivity.
Qed.

(** X5: on a table whose entries all have an index, [create_user] does
    one of three things.  When the user name is in the table it logs a
    warning and returns [False] without running a command.  When every
    index from 2 to 11 is taken it raises [IndexError] without running a
    command.  Otherwise its first command creates the user at an index
    from 2 to 11 that no entry of the table has, the lowest such one. *)
Theorem create_user_outcomes `{Runner World}
  (username password permissions : string)
  (users : gmap string (gmap string pyval))
  (host admin_username admin_password : option string) (st : state World) :
  (forall name record, users !! name = Some record ->
                       is_Some (record !! "index")) ->
  let result := create_user username password permissions (Some users)
                  host admin_username admin_password st in
  let taken := fun i : Z =>
    exists name record,
      users !! name = Some record /\ record !! "index" = Some (PInt i) in
  match users !! username with
  | Some _ =>
      result = (Ok false, warned ["'" +:+ username +:+ "' already exists"] st)
  | None =>
      (result = (Raise IndexError, st)
       /\ forall j : Z, 2 <= j <= 11 -> taken j)
      \/ exists (uid : Z) (rest : list string),
           2 <= uid <= 11
           /\ ~ taken uid
           /\ (forall j : Z, 2 <= j < uid -> taken j)
           /\ calls result.2
              = calls st
                ++ create_line username (PInt uid)
                     host admin_username admin_password :: rest
  end.
Proof.
  intros Hall. cbn zeta.
  destruct (users !! username) as [record|] eqn:Hname.
  - unfold create_user. unfold_monad.
    rewrite bool_decide_eq_true_2 by (rewrite Hname; eauto).
    by rewrite log_warning_warned.
  - destruct (collect_uids_indices users Hall) as (_uids & Hcollect & Hmem).
    destruct (next_uid _uids) as [uid|e] eqn:Hnext.
    + right.
      rewrite (create_user_uses_next_uid _ _ _ (Some users) users _uids uid
                 _ _ _ st st eq_refl Hname Hcollect Hnext).
      pose proof (next_uid_truthy _ _ Hnext) as Htruthy.
      destruct (create_user_steps_first_call username password permissions
                  (PInt uid) host admin_username admin_password st Htruthy)
        as [rest Hcalls].
      apply next_uid_least_free in Hnext as (Hband & Hfree & Hleast).
      exists uid, rest. split; [done|]. split.
      * intros Htaken. apply Hfree. by apply Hmem.
      * split; [|exact Hcalls]. intros j Hj.
        destruct (decide (PInt j ∈ _uids)) as [Hin|Hout]; [by apply Hmem|].
        assert (uid <= j) by (apply Hleast; [lia|done]). lia.
    + left.
      assert (e = IndexError) as ->.
      { unfold next_uid, pop in Hnext. destruct (last _); [done|].
        by inversion Hnext. }
      split.
      * unfold create_user. unfold_monad.
        rewrite bool_decide_eq_false_2 by (rewrite Hname; by intros [? ?]).
        by rewrite Hcollect, Hnext.
      * intros j Hj. apply Hmem. by apply next_uid_raises.
Qed.

Lemma create_user_outcomes_witness :
  let users : gmap string (gmap string pyval) :=
    {["root" := {["index" := PInt 2]}; "ops" := {["index" := PInt 3]}]} in
  let st := mkState 0%nat [] [] in
  let result := create_user (H := failing_at 9) "diana" "secret" "login"
                  (Some users) None None None st in
  let taken := fun i : Z =>
    exists name record,
      users !! name = Some record /\ record !! "index" = Some (PInt i) in
  (forall name record, users !! name = Some record ->
                       is_Some (record !! "index"))
  /\ users !! "diana" = None
  /\ ((result = (Raise IndexError, st)
       /\ forall j : Z, 2 <= j <= 11 -> taken j)
      \/ exists (uid : Z) (rest : list string),
           2 <= uid <= 11
           /\ ~ taken uid
           /\ (forall j : Z, 2 <= j < uid -> taken j)
           /\ calls result.2
              = calls st
                ++ create_line "diana" (PInt uid) None None None :: rest).
Proof.
  cbn zeta.
  set (users := ({["root" := {["index" := PInt 2]};
                   "ops" := {["index" := PInt 3]}]}
                 : gmap string (gmap string pyval))).
  assert (forall name record, users !! name = Some record ->
                              is_Some (record !! "index")) as Hall.
  { intros name record Hlookup. unfold users in Hlookup.
    apply lookup_insert_Some in Hlookup as [[_ <-]|[_ Hlookup]]; [by eexists|].
    apply lookup_singleton_Some in Hlookup as [_ <-]. by eexists. }
  assert (users !! "diana" = None) as Hnone by (vm_compute; reflexivity).
  split; [exact Hall|]. split; [exact Hnone|].
  pose proof (create_user_outcomes (H := failing_at 9) "diana" "secret" "login"
                users None None None (mkState 0%nat [] []) Hall) as Hout.
  cbn zeta in Hout. rewrite Hnone in Hout. exact Hout.
Defined.

Lemma listed_username_uses_listed_index_witness :
  let st := mkState tt [] [] in
  let users : gmap string (gmap string pyval) :=
    {["root" := {["index" := PInt 16;
                  "cfgUserAdminPrivilege" := PStr "0x000001ff"]}]} in
  let st' := (list_users (H := listing_root) None None None None st).2 in
  is_Some (users !! "root")
  /\ list_users (H := listing_root) None None None None st = (Ok users, st')
  /\ exists idx : Z,
       user_index users "root" = Ok (PInt idx)
       /\ 1 <= idx <= 16
       /\ delete_user (H := listing_root) "root" None None None None st
          = __execute_cmd (H := listing_root) (delete_command (PInt idx))
              None None None None st'
       /\ set_permissions (H := listing_root) "root" "login" None
            None None None st
          = set_permissions (H := listing_root) "root" "login"
              (Some (PInt idx)) None None None st'.
Proof.
  cbn zeta.
  set (users := ({["root" := {["index" := PInt 16;
                     "cfgUserAdminPrivilege" := PStr "0x000001ff"]}]}
                 : gmap string (gmap string pyval))).
  assert (is_Some (users !! "root")) as Hsome by (vm_compute; eauto).
  assert (list_users (H := listing_root) None None None None (mkState tt [] [])
          = (Ok users,
             (list_users (H := listing_root) None None None None
                (mkState tt [] [])).2)) as Hlist
    by (vm_compute; reflexivity).
  split; [exact Hsome|]. split; [exact Hlist|].
  destruct (listed_username_uses_listed_index (H := listing_root)
              "root" "secret" "login" None None None None users
              (mkState tt [] [])
              (list_users (H := listing_root) None None None None
                 (mkState tt [] [])).2 Hsome) as [Hlocal _].
  exact (Hlocal Hlist).
Defined.


(** ** [nameservers] and [syslog] *)

Lemma nameservers_from_run `{Runner World} (ns : list string) (i : Z)
  (host admin_username admin_password module : option string)
  (modswitch : string) (st : state World) :
  cmd_modswitch module = Ok modswitch ->
  let lines := nameserver_lines i ns host admin_username admin_password
                 modswitch in
  let codes := exit_codes lines st in
  forall result st',
    nameservers_from i ns host admin_username admin_password module st
    = (result, st') ->
    result = Ok (all_zero codes)
    /\ calls st' = calls st ++ take (steps_run codes) lines.
Proof.
  intros Hmod. cbn zeta. revert i st.
  induction ns as [|server rest IH]; intros i st result st'.
  - cbn. intros [= <- <-]. by rewrite app_nil_r.
  - cbn [nameservers_from nameserver_lines exit_codes steps_run].
    unfold all_zero. cbn [forallb]. fold (all_zero
      (exit_codes (nameserver_lines (i + 1) rest host admin_username
                     admin_password modswitch)
         (after_run (racadm_line host admin_username admin_password
                       (nameserver_command i server) modswitch) st))).
    unfold mbind at 1, M_bind at 1.
    rewrite (execute_cmd_with_modswitch _ _ _ _ _ _ _ Hmod). cbn zeta.
    case_bool_decide as Hcode.
    + rewrite bool_decide_eq_false_2 by done. cbn [negb andb take].
      unfold mret, M_ret. intros [= <- <-]. done.
    + rewrite bool_decide_eq_true_2 by (first [done|by apply dec_stable]).
      cbn [negb andb]. intros Hrest.
      destruct (IH _ _ _ _ Hrest) as [-> Hcalls].
      split; [done|]. rewrite Hcalls. cbn [calls after_run take].
      by rewrite <- app_assoc.
Qed.

(** X6: [nameservers] runs no command and returns [False] when it is
    given more than two servers.  Otherwise it configures the servers in
    order, numbered from 1, stops at the first command whose exit code is
    not zero, and returns [True] exactly when every exit code is zero. *)
Theorem nameservers_stops_at_first_failure `{Runner World} (ns : list string)
  (host admin_username admin_password module : option string)
  (st : state World) :
  let result := nameservers ns host admin_username admin_password module st in
  ((2 < length ns)%nat ->
   result = (Ok false, warned ["racadm only supports two nameservers"] st))
  /\ ((length ns <= 2)%nat ->
      exists modswitch : string,
        cmd_modswitch module = Ok modswitch
        /\ let lines := nameserver_lines 1 ns host admin_username
                          admin_password modswitch in
           let codes := exit_codes lines st in
           result.1 = Ok (all_zero codes)
           /\ calls result.2 = calls st ++ take (steps_run codes) lines).
Proof.
  cbn zeta. unfold nameservers. split.
  - intros Hlong. rewrite bool_decide_eq_true_2 by done.
    unfold_monad. by rewrite log_warning_warned.
  - intros Hshort. rewrite bool_decide_eq_false_2 by lia.
    destruct (cmd_modswitch_total module) as [modswitch Hmod].
    exists modswitch. split; [done|].
    destruct (nameservers_from 1 ns host admin_username admin_password
                module st) as [result st'] eqn:Hrun.
    by apply (nameservers_from_run ns 1 _ _ _ _ _ st Hmod) in Hrun.
Qed.

(** [syslog] as a case distinction on [enable] and on the exit code of
    the enabling command. *)
Lemma syslog_cases `{Runner World} (server : string) (enable : bool)
  (host admin_username admin_password module : option string)
  (st : state World) :
  let line := racadm_line host admin_username admin_password
                syslog_enable_command "" in
  let cmd := (cmd_run_all line (world st)).1 in
  syslog server enable host admin_username admin_password module st
  = if enable then
      if bool_decide (retcode cmd = 0)
      then __execute_cmd (syslog_server_command server)
             host admin_username admin_password module (after_run line st)
      else __execute_cmd syslog_disable_command
             host admin_username admin_password module
             (warned [exit_code_warning cmd] (after_run line st))
    else __execute_cmd syslog_disable_command
           host admin_username admin_password module st.
Proof.
  cbn zeta. unfold syslog. destruct enable.
  - unfold mbind at 1, M_bind at 1.
    change "config -g cfgRemoteHosts -o cfgRhostsSyslogEnable 1"
      with syslog_enable_command.
    rewrite execute_cmd_unscoped. cbn zeta.
    case_bool_decide as Hcode.
    + rewrite bool_decide_eq_false_2 by done. reflexivity.
    + rewrite bool_decide_eq_true_2 by (first [done|by apply dec_stable]). reflexivity.
  - reflexivity.
Qed.

(** X7: [syslog] with [enable] set first runs the enabling command,
    without the module scope.  When that command exits with zero, the
    server is configured and the result tells whether that succeeded.
    When it fails, [syslog] goes on to run the disabling command and
    returns the result of that command.  With [enable] unset only the
    disabling command is run. *)
Theorem syslog_disables_after_failed_enable `{Runner World} (server : string)
  (enable : bool) (host admin_username admin_password module : option string)
  (st : state World) :
  exists modswitch : string,
    cmd_modswitch module = Ok modswitch
    /\ let enable_line := racadm_line host admin_username admin_password
                            syslog_enable_command "" in
       let server_line := racadm_line host admin_username admin_password
                            (syslog_server_command server) modswitch in
       let disable_line := racadm_line host admin_username admin_password
                             syslog_disable_command modswitch in
       let enabled := (cmd_run_all enable_line (world st)).1 in
       let st1 := after_run enable_line st in
       let result := syslog server enable host admin_username admin_password
                       module st in
       (enable = false ->
        result.1 = Ok (bool_decide
                         (retcode (cmd_run_all disable_line (world st)).1 = 0))
        /\ calls result.2 = calls st ++ [disable_line])
       /\ (enable = true -> retcode enabled = 0 ->
           result.1 = Ok (bool_decide
                            (retcode (cmd_run_all server_line (world st1)).1
                             = 0))
           /\ calls result.2 = calls st ++ [enable_line; server_line])
       /\ (enable = true -> retcode enabled <> 0 ->
           result.1 = Ok (bool_decide
                            (retcode (cmd_run_all disable_line (world st1)).1
                             = 0))
           /\ calls result.2 = calls st ++ [enable_line; disable_line]).
Proof.
  destruct (cmd_modswitch_total module) as [modswitch Hmod].
  exists modswitch. split; [done|]. cbn zeta. rewrite syslog_cases. cbn zeta.
  assert (forall (command : string) (st0 : state World),
            let line := racadm_line host admin_username admin_password
                          command modswitch in
            let result := __execute_cmd command host admin_username
                            admin_password module st0 in
            result.1 = Ok (bool_decide
                             (retcode (cmd_run_all line (world st0)).1 = 0))
            /\ calls result.2 = calls st0 ++ [line]) as Hrun.
  { intros command st0. cbn zeta.
    rewrite (execute_cmd_with_modswitch _ _ _ _ _ _ _ Hmod). cbn zeta.
    case_bool_decide as Hcode.
    - by rewrite bool_decide_eq_false_2.
    - by rewrite bool_decide_eq_true_2 by (first [done|by apply dec_stable]). }
  split; [|split].
  - intros ->. apply Hrun.
  - intros -> Hzero. rewrite bool_decide_eq_true_2 by done.
    destruct (Hrun (syslog_server_command server)
                (after_run (racadm_line host admin_username admin_password
                              syslog_enable_command "") st)) as [-> ->].
    split; [done|]. cbn [calls after_run]. by rewrite <- app_assoc.
  - intros -> Hfail. rewrite bool_decide_eq_false_2 by done.
    destruct (Hrun syslog_disable_command
                (warned [exit_code_warning
                           (cmd_run_all
                              (racadm_line host admin_username admin_password
                                 syslog_enable_command "") (world st)).1]
                   (after_run (racadm_line host admin_username admin_password
                                 syslog_enable_command "") st))) as [-> ->].
    split; [done|]. cbn [calls warned after_run]. by rewrite <- app_assoc.
Qed.


(** ** Operations that never reach the remote host *)

Lemma length_slice_to (n : nat) (s : string) :
  String.length (slice_to n s) = Nat.min n (String.length s).
Proof.
  revert s. induction n as [|n IH]; intros [|c s]; simpl; try done.
  by rewrite IH.
Qed.

Lemma slice_to_prefix (n : nat) (s : string) :
  exists rest : string, s = slice_to n s +:+ rest.
Proof.
  revert s. induction n as [|n IH]; intros s.
  - by exists s.
  - destruct s as [|c s]; [by exists ""|].
    destruct (IH s) as [rest Hrest]. exists rest.
    rewrite Hrest at 1. reflexivity.
Qed.

(** One command without scope: its result and the command line. *)
Lemma execute_cmd_unscoped_result `{Runner World} (command : string)
  (host admin_username admin_password : option string) (st : state World) :
  let line := racadm_line host admin_username admin_password command "" in
  let result := __execute_cmd command host admin_username admin_password
                  None st in
  result.1 = Ok (bool_decide (retcode (cmd_run_all line (world st)).1 = 0))
  /\ calls result.2 = calls st ++ [line].
Proof.
  cbn zeta. rewrite execute_cmd_unscoped. cbn zeta.
  case_bool_decide as Hcode.
  - by rewrite bool_decide_eq_false_2.
  - by rewrite bool_decide_eq_true_2 by (first [done|by apply dec_stable]).
Qed.

(** X8: whatever host and credentials they are given, [set_slotname],
    [set_network] and [email_alerts] with a false [action] run the local
    form of their command, in which no host and no credentials occur;
    [email_alerts] with a true [action] does use them.  [set_slotname]
    sends at most the first 14 characters of the name. *)
Theorem setters_that_ignore_the_host `{Runner World}
  (host admin_username admin_password : option string) (st : state World) :
  (forall (slot : pyval) (name : string),
     let line := racadm_line None None None
                   ("setslotname -i " +:+ pyval_format slot
                    +:+ " " +:+ slice_to 14 name) "" in
     let result := set_slotname slot name host admin_username
                     admin_password st in
     calls result.2 = calls st ++ [line]
     /\ result.1 = Ok (bool_decide
                         (retcode (cmd_run_all line (world st)).1 = 0))
     /\ String.length (slice_to 14 name) = Nat.min 14 (String.length name)
     /\ exists rest : string, name = slice_to 14 name +:+ rest)
  /\ (forall ip netmask gateway : string,
        let line := racadm_line None None None
                      ("setniccfg -s " +:+ ip +:+ " " +:+ netmask
                       +:+ " " +:+ gateway) "" in
        let result := set_network ip netmask gateway host admin_username
                        admin_password st in
        calls result.2 = calls st ++ [line]
        /\ result.1 = Ok (bool_decide
                            (retcode (cmd_run_all line (world st)).1 = 0)))
  /\ calls (email_alerts false host admin_username admin_password st).2
     = calls st
       ++ ["racadm config -g cfgEmailAlert -o cfgEmailAlertEnable -i 1 0 "]
  /\ calls (email_alerts true host admin_username admin_password st).2
     = calls st
       ++ [racadm_line host admin_username admin_password
             "config -g cfgEmailAlert -o cfgEmailAlertEnable -i 1 1" ""].
Proof.
  split; [|split; [|split]].
  - intros slot name. cbn zeta. unfold set_slotname.
    destruct (execute_cmd_unscoped_result
                ("setslotname -i " +:+ pyval_format slot
                 +:+ " " +:+ slice_to 14 name) None None None st)
      as [Hresult Hcalls].
    split; [exact Hcalls|]. split; [exact Hresult|].
    split; [apply length_slice_to|apply slice_to_prefix].
  - intros ip netmask gateway. cbn zeta. unfold set_network.
    destruct (execute_cmd_unscoped_result
                ("setniccfg -s " +:+ ip +:+ " " +:+ netmask
                 +:+ " " +:+ gateway) None None None st)
      as [Hresult Hcalls].
    split; [exact Hcalls|exact Hresult].
  - unfold email_alerts.
    by destruct (execute_cmd_unscoped_result
                   "config -g cfgEmailAlert -o cfgEmailAlertEnable -i 1 0"
                   None None None st) as [_ ->].
  - unfold email_alerts.
    by destruct (execute_cmd_unscoped_result
                   "config -g cfgEmailAlert -o cfgEmailAlertEnable -i 1 1"
                   host admin_username admin_password st) as [_ ->].
Qed.

(** ** [server_powerstatus] *)

Lemma power_status_shape (out : string) :
  ps_retcode (power_status_of out) = 0
  /\ (ps_status (power_status_of out) = Some true <-> out = "ON")
  /\ (ps_status (power_status_of out) = Some false <->
      out = "OFF" \/ startswith "ERROR" out = true)
  /\ (ps_status (power_status_of out) = None <->
      ps_comment (power_status_of out) = None).
Proof.
  unfold power_status_of.
  destruct (startswith "ERROR" out) eqn:Herror.
  - cbn. split; [by repeat case_bool_decide|].
    split; [|split; [|done]].
    + split; [done|]. intros ->. done.
    + split; [by right|done].
  - repeat case_bool_decide; subst; cbn; try done;
      (split; [done|]); (split; [|split]); split; try done;
      try (intros [?|?]; done); try (by left).
Qed.

(** X9: the dictionary [server_powerstatus] returns always has the
    return code 0, also when the command exited with another code.  Its
    status is true exactly when the output it got is [ON], false exactly
    when that output is [OFF] or starts with [ERROR], and absent
    otherwise, and the comment is there exactly when the status is.  On
    exit code zero an output whose only line that is kept is [ON] gives
    the status true. *)
Theorem server_powerstatus_reports_zero `{Runner World}
  (host admin_username admin_password module : option string)
  (st : state World) :
  let line := racadm_line host admin_username admin_password
                "serveraction powerstatus" (ret_modswitch module) in
  let cmd := (cmd_run_all line (world st)).1 in
  let out := if bool_decide (retcode cmd = 0)
             then clean_stdout (stdout cmd) else stdout cmd in
  exists result : power_status,
    (server_powerstatus host admin_username admin_password module st).1
    = Ok result
    /\ ps_retcode result = 0
    /\ (ps_status result = Some true <-> out = "ON")
    /\ (ps_status result = Some false <->
        out = "OFF" \/ startswith "ERROR" out = true)
    /\ (ps_status result = None <-> ps_comment result = None)
    /\ (retcode cmd = 0 ->
        filter (fun l => keep_line l = true) (splitlines (stdout cmd))
        = ["ON"] ->
        ps_status result = Some true).
Proof.
  cbn zeta. unfold server_powerstatus.
  unfold mbind at 1, M_bind at 1. rewrite execute_ret_cases. cbn zeta.
  set (cmd := (cmd_run_all
                 (racadm_line host admin_username admin_password
                    "serveraction powerstatus" (ret_modswitch module))
                 (world st)).1).
  destruct (decide (retcode cmd = 0)) as [Hzero|Hfail].
  - rewrite (bool_decide_eq_false_2 (retcode cmd ≠ 0)) by auto.
    rewrite (bool_decide_eq_true_2 (retcode cmd = 0)) by done.
    exists (power_status_of (clean_stdout (stdout cmd))).
    split; [reflexivity|].
    destruct (power_status_shape (clean_stdout (stdout cmd)))
      as (H1 & H2 & H3 & H4).
    split; [exact H1|]. split; [exact H2|]. split; [exact H3|].
    split; [exact H4|]. intros _ Hkept. apply H2.
    unfold clean_stdout. by rewrite Hkept.
  - rewrite (bool_decide_eq_true_2 (retcode cmd ≠ 0)) by done.
    rewrite (bool_decide_eq_false_2 (retcode cmd = 0)) by done.
    exists (power_status_of (stdout cmd)). split; [reflexivity|].
    destruct (power_status_shape (stdout cmd)) as (H1 & H2 & H3 & H4).
    split; [exact H1|]. split; [exact H2|]. split; [exact H3|].
    split; [exact H4|]. intros Hzero. done.
Qed.


(** ** [system_info] and the chassis getters *)

(** [system_info] as a case distinction on the exit code. *)
Lemma system_info_cases `{Runner World}
  (host admin_username admin_password module : option string)
  (st : state World) :
  let line := racadm_line host admin_username admin_password
                "getsysinfo" (ret_modswitch module) in
  let cmd := (cmd_run_all line (world st)).1 in
  system_info host admin_username admin_password module st
  = if bool_decide (retcode cmd ≠ 0)
    then (Ok (RawResult cmd),
          warned [exit_code_warning cmd; exit_code_warning cmd]
            (after_run line st))
    else match __parse_drac (clean_stdout (stdout cmd)) with
         | Ok drac => (Ok (Parsed drac), after_run line st)
         | Raise e => (Raise e, after_run line st)
         end.
Proof.
  cbn zeta. unfold system_info.
  unfold mbind at 1, M_bind at 1. rewrite execute_ret_cases. cbn zeta.
  case_bool_decide as Hcode.
  - rewrite bool_decide_eq_true_2 by done.
    unfold_monad. by rewrite log_warning_warned, warned_warned.
  - cbn [set_stdout retcode stdout].
    rewrite bool_decide_eq_false_2 by auto.
    unfold_monad. by destruct (__parse_drac _).
Qed.

(** The parser on cleaned output whose kept lines are well-formed. *)
Lemma parse_drac_clean_reference (out : string) :
  forallb well_formed_line
    (filter (fun l => keep_line l = true) (splitlines out)) = true ->
  __parse_drac (clean_stdout out)
  = Ok (reference_lines
          (filter (fun l => keep_line l = true) (splitlines out))).1.
Proof.
  intros Hwf. unfold __parse_drac, reference_lines.
  rewrite splitlines_clean_stdout.
  destruct (foldlM_parse_drac_agrees _ (∅, "") (∅, None) Hwf)
    as (st' & -> & Heq & _).
  { split; [done|]. split; [apply lookup_empty|done]. }
  unfold_monad. by rewrite Heq.
Qed.

(** Indexing the result of [system_info], by cases. *)
Lemma system_info_item_cases `{Runner World} (section key : string)
  (host admin_username admin_password : option string) (st : state World) :
  let line := racadm_line host admin_username admin_password "getsysinfo" "" in
  let cmd := (cmd_run_all line (world st)).1 in
  system_info_item section key host admin_username admin_password st
  = if bool_decide (retcode cmd ≠ 0)
    then (Raise (KeyError section),
          warned [exit_code_warning cmd; exit_code_warning cmd]
            (after_run line st))
    else (drac ← __parse_drac (clean_stdout (stdout cmd));
          props ← getitem drac section;
          getitem props key,
          after_run line st).
Proof.
  cbn zeta. unfold system_info_item.
  unfold mbind at 1, M_bind at 1. rewrite system_info_cases. cbn zeta.
  cbn [ret_modswitch opt_truthy].
  case_bool_decide as Hcode; [reflexivity|].
  destruct (__parse_drac _) as [drac|e]; [|reflexivity].
  unfold_monad. destruct (getitem drac section); reflexivity.
Qed.

(** X10: when [getsysinfo] exits with a code that is not zero,
    [get_chassis_name] and [get_chassis_location] raise [KeyError] for
    the section name, after two warnings about the exit code: they index
    the result of the runner, which has no such key. *)
Theorem chassis_getters_raise_on_failure `{Runner World}
  (host admin_username admin_password : option string) (st : state World) :
  let line := racadm_line host admin_username admin_password "getsysinfo" "" in
  let cmd := (cmd_run_all line (world st)).1 in
  retcode cmd <> 0 ->
  let failed := (Raise (KeyError "Chassis Information"),
                 warned [exit_code_warning cmd; exit_code_warning cmd]
                   (after_run line st)) in
  get_chassis_name host admin_username admin_password st = failed
  /\ get_chassis_location host admin_username admin_password st = failed.
Proof.
  cbn zeta. intros Hfail.
  unfold get_chassis_name, get_chassis_location.
  rewrite !system_info_item_cases. cbn zeta.
  by rewrite !bool_decide_eq_true_2 by done.
Qed.

Lemma chassis_getters_raise_on_failure_witness :
  let st := mkState 0%nat [] [] in
  retcode (cmd_run_all (Runner := failing_at 0)
             (racadm_line None None None "getsysinfo" "") (world st)).1 <> 0
  /\ (get_chassis_name (H := failing_at 0) None None None st).1
     = Raise (KeyError "Chassis Information")
  /\ warnings (get_chassis_name (H := failing_at 0) None None None st).2
     = ["racadm return an exit code '1'."; "racadm return an exit code '1'."].
Proof.
  cbn zeta.
  assert (retcode (cmd_run_all (Runner := failing_at 0)
                     (racadm_line None None None "getsysinfo" "")
                     (world (mkState 0%nat [] []))).1 <> 0) as Hfail by done.
  split; [exact Hfail|].
  destruct (chassis_getters_raise_on_failure (H := failing_at 0)
              None None None (mkState 0%nat [] []) Hfail) as [-> _].
  split; reflexivity.
Defined.

(** X11: when [getsysinfo] exits with zero and the lines of its output
    that are kept are well-formed, [get_chassis_name] and
    [get_chassis_location] return what the reference reconstruction of
    those lines holds in the section [Chassis Information] under
    [Chassis Name] and [Chassis Location], and raise [KeyError] for the
    key when the section has no such entry. *)
Theorem chassis_getters_read_section `{Runner World}
  (host admin_username admin_password : option string) (st : state World)
  (props : gmap string string) :
  let line := racadm_line host admin_username admin_password "getsysinfo" "" in
  let cmd := (cmd_run_all line (world st)).1 in
  let kept := filter (fun l => keep_line l = true)
                (splitlines (stdout cmd)) in
  retcode cmd = 0 ->
  forallb well_formed_line kept = true ->
  (reference_lines kept).1 !! "Chassis Information" = Some props ->
  get_chassis_name host admin_username admin_password st
  = (match props !! "Chassis Name" with
     | Some name => Ok name
     | None => Raise (KeyError "Chassis Name")
     end, after_run line st)
  /\ get_chassis_location host admin_username admin_password st
     = (match props !! "Chassis Location" with
        | Some location => Ok location
        | None => Raise (KeyError "Chassis Location")
        end, after_run line st).
Proof.
  cbn zeta. intros Hzero Hwf Hsection.
  unfold get_chassis_name, get_chassis_location.
  rewrite !system_info_item_cases. cbn zeta.
  rewrite !bool_decide_eq_false_2 by auto.
  rewrite !parse_drac_clean_reference by done.
  unfold_monad. unfold getitem. rewrite Hsection.
  split.
  - by destruct (props !! "Chassis Name").
  - by destruct (props !! "Chassis Location").
Qed.

Lemma chassis_getters_read_section_witness :
  let out := join nl ["Security Alert: Certificate is invalid";
                      "Continuing execution."; "";
                      "Chassis Information:";
                      "Chassis Name               = MyChassis";
                      "Chassis Location           = Rack 12"; ""] in
  let st := mkState tt [] [] in
  let kept := filter (fun l => keep_line l = true) (splitlines out) in
  forallb well_formed_line kept = true
  /\ (reference_lines kept).1 !! "Chassis Information"
     = Some {["Chassis Name" := "MyChassis"; "Chassis Location" := "Rack 12"]}
  /\ (get_chassis_name (H := answering out) None None None st).1
     = Ok "MyChassis"
  /\ (get_chassis_location (H := answering out) None None None st).1
     = Ok "Rack 12".
Proof.
  cbn zeta.
  set (out := join nl ["Security Alert: Certificate is invalid";
                       "Continuing execution."; "";
                       "Chassis Information:";
                       "Chassis Name               = MyChassis";
                       "Chassis Location           = Rack 12"; ""]).
  assert (forallb well_formed_line
            (filter (fun l => keep_line l = true) (splitlines out)) = true)
    as Hwf by (vm_compute; reflexivity).
  assert ((reference_lines
             (filter (fun l => keep_line l = true) (splitlines out))).1
          !! "Chassis Information"
          = Some {["Chassis Name" := "MyChassis";
                   "Chassis Location" := "Rack 12"]}) as Hsection
    by (vm_compute; reflexivity).
  split; [exact Hwf|]. split; [exact Hsection|].
  destruct (chassis_getters_read_section (H := answering out)
              None None None (mkState tt [] []) _ eq_refl Hwf Hsection)
    as [-> ->].
  split; vm_compute; reflexivity.
Defined.


(** ** More on the section parser *)

Lemma lstrip_idemp (s : string) : lstrip (lstrip s) = lstrip s.
Proof.
  induction s as [|c s IH]; [done|]. simpl.
  destruct (is_space c) eqn:Hc; [done|]. simpl. by rewrite Hc.
Qed.

Lemma rstrip_idemp (s : string) : rstrip (rstrip s) = rstrip s.
Proof.
  induction s as [|c s IH]; [done|].
  change (rstrip (String c s))
    with (match rstrip s with
          | "" => if is_space c then "" else String c ""
          | String _ _ as r => String c r
          end).
  destruct (rstrip s) as [|a r] eqn:Hs.
  - destruct (is_space c) eqn:Hc; [done|]. simpl. by rewrite Hc.
  - change (rstrip (String c (String a r)))
      with (match rstrip (String a r) with
            | "" => if is_space c then "" else String c ""
            | String _ _ as r' => String c r'
            end).
    by rewrite IH.
Qed.

Lemma rstrip_lstrip_fixed (t : string) :
  rstrip t = t -> rstrip (lstrip t) = lstrip t.
Proof.
  induction t as [|c t IH]; [done|]. intros Hfixed. simpl.
  destruct (is_space c) eqn:Hc; [|done].
  apply IH. simpl in Hfixed. rewrite Hc in Hfixed.
  destruct (rstrip t) as [|a r]; [done|]. by inversion Hfixed.
Qed.

(** Stripping twice is stripping once. *)
Lemma strip_idemp (s : string) : strip (strip s) = strip s.
Proof.
  unfold strip.
  rewrite (rstrip_lstrip_fixed (rstrip s)) by apply rstrip_idemp.
  apply lstrip_idemp.
Qed.

Lemma foldlM_raise_outcome {A B : Type} (f : A -> B -> outcome A)
  (a : A) (x : B) (l : list B) (e : exn) :
  f a x = Raise e -> foldlM f a (x :: l) = Raise e.
Proof. intros Hstep. cbn [foldlM]. by rewrite Hstep. Qed.

Lemma parse_drac_stripped_empty : parse_drac_stripped ∅.
Proof. intros section props key value Hsection. by rewrite lookup_empty in Hsection. Qed.

(** What the loop of [__parse_drac] has built when it ends: the sections
    it started with and the non-empty names of the lines that are not
    entries, and only stripped keys and values. *)
Lemma foldlM_parse_drac_sections (lines : list string)
  (drac drac' : gmap string (gmap string string)) (section section' : string) :
  parse_drac_inv (drac, section) ->
  parse_drac_stripped drac ->
  foldlM parse_drac_line (drac, section) lines = Ok (drac', section') ->
  parse_drac_stripped drac'
  /\ forall name : string,
       is_Some (drac' !! name) <->
       is_Some (drac !! name)
       \/ (name <> ""
           /\ exists i, i ∈ lines /\ is_key_value_line i = false
                        /\ drop_last (strip i) = name).
Proof.
  revert drac section. induction lines as [|i rest IH];
    intros drac section Hinv Hstripped.
  - cbn. intros [= <- <-]. split; [done|]. intros name. split; [by left|].
    intros [?|(_ & i & Hin & _)]; [done|]. by apply not_elem_of_nil in Hin.
  - destruct (is_key_value_line i) eqn:Hkv.
    + pose proof (parse_drac_line_entry drac section i Hkv Hinv) as Hstep.
      destruct (drac !! section) as [props|] eqn:Hsection.
      * destruct (Nat.eqb (count "=" i) 1) eqn:Hcount.
        -- cbn [foldlM]. rewrite Hstep.
           unfold mbind at 1, outcome_bind at 1. intros Hrest.
           apply IH in Hrest as [Hstripped' Hdom].
           ++ split; [done|]. intros name. rewrite Hdom. split.
              ** intros [Hold|(Hne & j & Hin & Hj)].
                 --- left. destruct (decide (section = name)) as [<-|Hsn].
                     +++ by eexists.
                     +++ by rewrite lookup_insert_ne in Hold.
                 --- right. split; [done|]. exists j. split; [by right|done].
              ** intros [Hold|(Hne & j & Hin & Hj)].
                 --- left. destruct (decide (section = name)) as [<-|Hsn].
                     +++ rewrite lookup_insert_eq. by eexists.
                     +++ by rewrite lookup_insert_ne.
                 --- apply elem_of_cons in Hin as [->|Hin].
                     +++ destruct Hj as [Hj _]. congruence.
                     +++ right. split; [done|]. by exists j.
           ++ destruct Hinv as [Hempty Hcur]. split; simpl in *.
              ** rewrite lookup_insert_ne; [done|].
                 intros ->. by rewrite Hempty in Hsection.
              ** intros _. by rewrite lookup_insert_eq.
           ++ intros sec props' k v Hsec Hk.
              destruct (decide (section = sec)) as [<-|Hsn].
              ** rewrite lookup_insert_eq in Hsec. inversion Hsec; subst.
                 destruct (decide (strip (partition_on "=" i).1 = k))
                   as [<-|Hkn].
                 --- rewrite lookup_insert_eq in Hk. inversion Hk; subst.
                     by rewrite !strip_idemp.
                 --- rewrite lookup_insert_ne in Hk by done.
                     by eapply Hstripped.
              ** rewrite lookup_insert_ne in Hsec by done.
                 by eapply Hstripped.
        -- rewrite (foldlM_raise_outcome _ _ _ _ ValueError Hstep). done.
      * cbn [foldlM]. rewrite Hstep.
        unfold mbind at 1, outcome_bind at 1. intros Hrest.
        apply IH in Hrest as [Hstripped' Hdom]; [|done..].
        split; [done|]. intros name. rewrite Hdom. split.
        -- intros [Hold|(Hne & j & Hin & Hj)]; [by left|].
           right. split; [done|]. exists j. split; [by right|done].
        -- intros [Hold|(Hne & j & Hin & Hj)]; [by left|].
           apply elem_of_cons in Hin as [->|Hin].
           ++ destruct Hj as [Hj _]. congruence.
           ++ right. split; [done|]. by exists j.
    + destruct (parse_drac_line_section drac section i Hkv Hinv)
        as (drac1 & Hstep & Hinv1 & Hdrac1).
      cbn [foldlM]. rewrite Hstep.
      unfold mbind at 1, outcome_bind at 1. intros Hrest.
      assert (parse_drac_stripped drac1) as Hstripped1.
      { subst drac1. destruct (drac !! drop_last (strip i)); [done|].
        destruct (is_empty (drop_last (strip i))); [done|].
        intros sec props' k v Hsec Hk.
        destruct (decide (drop_last (strip i) = sec)) as [<-|Hsn].
        - rewrite lookup_insert_eq in Hsec. inversion Hsec; subst.
          by rewrite lookup_empty in Hk.
        - rewrite lookup_insert_ne in Hsec by done. by eapply Hstripped. }
      apply IH in Hrest as [Hstripped' Hdom]; [|done..].
      split; [done|]. intros name. rewrite Hdom.
      assert (is_Some (drac1 !! name) <->
              is_Some (drac !! name)
              \/ (name <> "" /\ drop_last (strip i) = name)) as Hone.
      { subst drac1.
        destruct (drac !! drop_last (strip i)) as [p|] eqn:Hd.
        - split; [by left|]. intros [?|[_ <-]]; [done|]. by eexists.
        - destruct (is_empty (drop_last (strip i))) eqn:He.
          + apply is_empty_true in He. split; [by left|].
            intros [?|[Hne <-]]; [done|]. done.
          + apply is_empty_false in He.
            destruct (decide (drop_last (strip i) = name)) as [<-|Hsn].
            * rewrite lookup_insert_eq. split; [by right|by eexists].
            * rewrite lookup_insert_ne by done. split; [by left|].
              intros [?|[_ ?]]; done. }
      rewrite Hone. split.
      * intros [[Hold|[Hne Heq]]|(Hne & j & Hin & Hj)].
        -- by left.
        -- right. split; [done|]. exists i. split; [left|done].
        -- right. split; [done|]. exists j. split; [by right|done].
      * intros [Hold|(Hne & j & Hin & Hj)]; [by left; left|].
        apply elem_of_cons in Hin as [->|Hin].
        -- left. right. by destruct Hj.
        -- right. split; [done|]. by exists j.
Qed.

(** X12: when [__parse_drac] returns, the sections of its dictionary are
    exactly the non-empty names that the lines other than entries
    declare, each the stripped line without its last character; the
    empty name is never a section. *)
Theorem parse_drac_sections (output : string)
  (drac : gmap string (gmap string string)) :
  __parse_drac output = Ok drac ->
  drac !! "" = None
  /\ forall name : string,
       is_Some (drac !! name) <->
       name <> ""
       /\ exists i, i ∈ splitlines output
                    /\ is_key_value_line i = false
                    /\ drop_last (strip i) = name.
Proof.
  unfold __parse_drac.
  destruct (foldlM parse_drac_line (∅, "") (splitlines output))
    as [[drac' section']|e] eqn:Hfold; [|done].
  unfold_monad. intros [= <-].
  destruct (foldlM_parse_drac_sections _ _ _ _ _ parse_drac_inv_initial
              parse_drac_stripped_empty Hfold) as [_ Hdom].
  assert (forall name, is_Some (drac' !! name) <->
            name <> ""
            /\ exists i, i ∈ splitlines output
                         /\ is_key_value_line i = false
                         /\ drop_last (strip i) = name) as Hdom'.
  { intros name. rewrite Hdom. split; [|by right].
    intros [Hempty|?]; [|done]. rewrite lookup_empty in Hempty.
    by destruct Hempty. }
  split; [|exact Hdom'].
  apply eq_None_not_Some. intros Hsome. by apply Hdom' in Hsome as [? _].
Qed.

(** X13: every key and every value of the dictionary [__parse_drac]
    returns is stripped of surrounding white space. *)
Theorem parse_drac_entries_stripped (output : string)
  (drac : gmap string (gmap string string)) (section : string)
  (props : gmap string string) (key value : string) :
  __parse_drac output = Ok drac ->
  drac !! section = Some props ->
  props !! key = Some value ->
  strip key = key /\ strip value = value.
Proof.
  unfold __parse_drac.
  destruct (foldlM parse_drac_line (∅, "") (splitlines output))
    as [[drac' section']|e] eqn:Hfold; [|done].
  unfold_monad. intros [= <-].
  destruct (foldlM_parse_drac_sections _ _ _ _ _ parse_drac_inv_initial
              parse_drac_stripped_empty Hfold) as [Hstripped _].
  apply Hstripped.
Qed.

Lemma parse_drac_sections_witness :
  let output := join nl ["noise = 1"; "System:"; "  Power   =  ON  "; "";
                         "x = y"; ":"] in
  __parse_drac output = Ok {["System" := {["Power" := "ON"]}]}
  /\ ({["System" := {["Power" := "ON"]}]}
      : gmap string (gmap string string)) !! "" = None.
Proof.
  cbn zeta.
  assert (__parse_drac (join nl ["noise = 1"; "System:"; "  Power   =  ON  ";
                                 ""; "x = y"; ":"])
          = Ok {["System" := {["Power" := "ON"]}]}) as Hparse
    by (vm_compute; reflexivity).
  split; [exact Hparse|].
  exact (proj1 (parse_drac_sections _ _ Hparse)).
Defined.

Lemma parse_drac_entries_stripped_witness :
  let output := join nl ["System:"; "  Power   =  ON  "] in
  __parse_drac output = Ok {["System" := {["Power" := "ON"]}]}
  /\ strip "Power" = "Power" /\ strip "ON" = "ON".
Proof.
  cbn zeta.
  assert (__parse_drac (join nl ["System:"; "  Power   =  ON  "])
          = Ok {["System" := {["Power" := "ON"]}]}) as Hparse
    by (vm_compute; reflexivity).
  split; [exact Hparse|].
  apply (parse_drac_entries_stripped _ _ "System" {["Power" := "ON"]}
           "Power" "ON" Hparse); vm_compute; reflexivity.
Defined.


(** ** More on the inventory and the slot listing *)

Lemma lookup_fold_insert_fresh (pairs : list (string * string))
  (d : gmap string string) (k : string) :
  k ∉ pairs.*1 ->
  fold_left (fun d kv => <[kv.1 := kv.2]> d) pairs d !! k = d !! k.
Proof.
  revert d. induction pairs as [|[k' v'] pairs IH]; intros d Hk; [done|].
  rewrite fmap_cons in Hk. apply not_elem_of_cons in Hk as [Hne Hk].
  cbn [fold_left fst snd]. rewrite IH by done.
  by rewrite lookup_insert_ne.
Qed.

Lemma lookup_fold_insert_Some (pairs : list (string * string))
  (d : gmap string string) (k v : string) :
  fold_left (fun d kv => <[kv.1 := kv.2]> d) pairs d !! k = Some v ->
  (k, v) ∈ pairs \/ d !! k = Some v.
Proof.
  revert d. induction pairs as [|[k' v'] pairs IH]; intros d; [by right|].
  cbn [fold_left fst snd]. intros Hlookup.
  apply IH in Hlookup as [Hin|Hd]; [left; by right|].
  destruct (decide (k' = k)) as [->|Hne].
  - rewrite lookup_insert_eq in Hd. inversion Hd; subst. left. left.
  - rewrite lookup_insert_ne in Hd by done. by right.
Qed.

Lemma elem_of_fst_zip (names line : list string) (name : string) :
  name ∈ (zip names line).*1 -> name ∈ names.
Proof.
  intros Hin. apply list_elem_of_fmap in Hin as ([n v] & -> & Hin).
  by apply elem_of_zip_l in Hin.
Qed.

(** The attribute [name] of a record is the first field of its line. *)
Lemma inventory_record_name (b : block) (key : string) (rest : list string) :
  inventory_record b (key :: rest) !! "name" = Some key.
Proof.
  unfold inventory_record, dict_of_pairs.
  assert (exists names, fields b = "name" :: names /\ "name" ∉ names)
    as (names & Hfields & Hfresh).
  { destruct b; eexists; (split; [reflexivity|]);
      apply (bool_decide_unpack _); by vm_compute. }
  rewrite Hfields. cbn [zip zip_with fold_left fst snd].
  rewrite lookup_fold_insert_fresh; [apply lookup_insert_eq|].
  intros Hin. by apply elem_of_fst_zip in Hin.
Qed.

(** X14: in the inventory, every record's attribute [name] is the key
    the record is stored under, every attribute is one of the field
    names of its block, and every value is a field of the line the
    record comes from. *)
Theorem inventory_records_name_their_key (out : string) (ret : Inventory)
  (b : block) (key : string) (record : gmap string string) :
  inventory_parse out = Ok ret ->
  inv_get b ret !! key = Some record ->
  record !! "name" = Some key
  /\ forall attr value : string,
       record !! attr = Some value ->
       attr ∈ fields b
       /\ exists l, l ∈ splitlines out
                    /\ value ∈ re_split_spaces (strip l).
Proof.
  rewrite inventory_parse_fold. intros [= <-] Hlookup.
  destruct (inventory_step_invariant (splitlines out)) as (_ & Hsound & _).
  destruct (Hsound b key record Hlookup)
    as (pre & l & post & Heq & _ & _ & Hkey & ->).
  apply head_Some in Hkey as [rest Hline]. rewrite Hline. split.
  - apply inventory_record_name.
  - intros attr value Hattr. unfold inventory_record, dict_of_pairs in Hattr.
    apply lookup_fold_insert_Some in Hattr as [Hin|Hempty];
      [|by rewrite lookup_empty in Hempty].
    split; [by apply elem_of_zip_l in Hin|].
    exists l. split.
    + rewrite Heq. apply elem_of_app. right. left.
    + rewrite Hline. by apply elem_of_zip_r in Hin.
Qed.

Lemma inventory_records_name_their_key_witness :
  let out := join nl ["<Server>"; "server-1  1.30  PowerEdge M620  12G  Y"] in
  let record : gmap string string :=
    {["name" := "server-1"; "idrac_version" := "1.30";
      "blade_type" := "PowerEdge M620"; "gen" := "12G";
      "updateable" := "Y"]} in
  (exists ret, inventory_parse out = Ok ret
               /\ inv_get Server ret !! "server-1" = Some record)
  /\ record !! "name" = Some "server-1".
Proof.
  cbn zeta.
  set (out := join nl ["<Server>"; "server-1  1.30  PowerEdge M620  12G  Y"]).
  set (record := ({["name" := "server-1"; "idrac_version" := "1.30";
                    "blade_type" := "PowerEdge M620"; "gen" := "12G";
                    "updateable" := "Y"]} : gmap string string)).
  destruct (inventory_parse out) as [ret|e] eqn:Hparse;
    [|vm_compute in Hparse; discriminate Hparse].
  assert (inv_get Server ret !! "server-1" = Some record) as Hlookup.
  { vm_compute in Hparse. inversion Hparse; subst ret.
    vm_compute. reflexivity. }
  split; [by exists ret|].
  exact (proj1 (inventory_records_name_their_key _ _ _ _ _ Hparse Hlookup)).
Defined.

Lemma slot_record_shape (fields : list string) (slot : string) :
  slot_record fields slot !! "slot" = Some slot
  /\ dom (slot_record fields slot)
     = ({["slot"; "slotname"; "hostname"]} : gset string).
Proof.
  unfold slot_record. split.
  - rewrite !lookup_insert_ne by done. apply lookup_insert_eq.
  - rewrite !dom_insert_L, dom_empty_L. set_solver.
Qed.

Lemma fold_slot_entry_shape (lines : list string)
  (slots : gmap string (gmap string string)) :
  (forall key record, slots !! key = Some record ->
                      exists fields, record = slot_record fields key) ->
  forall key record,
    fold_left slot_entry lines slots !! key = Some record ->
    exists fields, record = slot_record fields key.
Proof.
  revert slots. induction lines as [|l lines IH]; intros slots Hslots; [done|].
  cbn [fold_left]. apply IH. intros key record. unfold slot_entry.
  destruct (split_ws l) as [|slot rest]; [apply Hslots|].
  destruct (decide (slot = key)) as [->|Hne].
  - rewrite lookup_insert_eq. intros [= <-]. by eexists.
  - rewrite lookup_insert_ne by done. apply Hslots.
Qed.

(** X15: [list_slotnames] returns the runner's result when the exit code
    is not zero, and otherwise a table in which every record has exactly
    the keys [slot], [slotname] and [hostname], with the key it is stored
    under as its [slot]. *)
Theorem list_slotnames_records `{Runner World}
  (host admin_username admin_password : option string) (st : state World) :
  let cmd := (cmd_run_all
                (slotnames_line_of host admin_username admin_password)
                (world st)).1 in
  match (list_slotnames host admin_username admin_password st).1 with
  | Ok (RawResult raw) => retcode cmd <> 0 /\ raw = cmd
  | Ok (Parsed slots) =>
      retcode cmd = 0
      /\ forall key record,
           slots !! key = Some record ->
           record !! "slot" = Some key
           /\ dom record = ({["slot"; "slotname"; "hostname"]} : gset string)
  | Raise _ => False
  end.
Proof.
  cbn zeta. rewrite list_slotnames_cases. cbn zeta.
  case_bool_decide as Hcode; cbn [fst]; [done|].
  split; [first [done|by apply dec_stable]|]. intros key record Hlookup.
  unfold slot_table in Hlookup.
  apply fold_slot_entry_shape in Hlookup as [fields ->].
  - apply slot_record_shape.
  - intros k r. by rewrite lookup_empty.
Qed.


(** ** More on the privilege mask *)

Lemma cons_first_app (c : ascii) (pieces more : list string) :
  pieces <> [] -> cons_first c (pieces ++ more) = cons_first c pieces ++ more.
Proof. by destruct pieces. Qed.

Lemma split_on_snoc (sep : ascii) (s extra : string) :
  contains sep extra = false ->
  split_on sep (s +:+ String sep extra) = split_on sep s ++ [extra].
Proof.
  intros Hextra. induction s as [|c s IH].
  - change ("" +:+ String sep extra) with (String sep extra).
    cbn [split_on]. unfold is_char. rewrite bool_decide_eq_true_2 by done.
    rewrite split_on_no_sep; [done|].
    rewrite contains_count in Hextra.
    apply negb_false_iff, Nat.eqb_eq in Hextra. done.
  - change (String c s +:+ String sep extra)
      with (String c (s +:+ String sep extra)).
    cbn [split_on]. rewrite IH. destruct (is_char c sep); [done|].
    apply cons_first_app, split_on_not_nil.
Qed.

(** X16: a name that the privilege table does not know adds nothing to
    the mask: appending it to a permission string leaves the rendered
    argument of [set_permissions] as it was. *)
Theorem set_permissions_ignores_unknown_flag (permissions extra : string) :
  contains "," extra = false ->
  privileges !! strip extra = None ->
  privilege_argument (permissions +:+ "," +:+ extra)
  = privilege_argument permissions.
Proof.
  intros Hcomma Hunknown. apply privilege_argument_Permutation.
  unfold recognized_list.
  change ("," +:+ extra) with (String "," extra).
  rewrite split_on_snoc by done.
  rewrite fmap_app, filter_app. cbn [fmap list_fmap].
  rewrite filter_cons, decide_False, filter_nil, app_nil_r; [done|].
  rewrite Hunknown. by intros [? ?].
Qed.

Lemma set_permissions_ignores_unknown_flag_witness :
  contains "," " administrator" = false
  /\ privileges !! strip " administrator" = None
  /\ privilege_argument ("login,test_alerts" +:+ "," +:+ " administrator")
     = privilege_argument "login,test_alerts"
  /\ privilege_argument "login,test_alerts" = Ok "0x00000081".
Proof.
  assert (contains "," " administrator" = false) as Hcomma by reflexivity.
  assert (privileges !! strip " administrator" = None) as Hunknown
    by (vm_compute; reflexivity).
  split; [exact Hcomma|]. split; [exact Hunknown|]. split.
  - exact (set_permissions_ignores_unknown_flag _ _ Hcomma Hunknown).
  - vm_compute. reflexivity.
Defined.

Lemma sum_bits_submseteq (l1 l2 : list string) :
  l1 ⊆+ l2 -> (sum_bits l1 <= sum_bits l2)%N.
Proof. induction 1; simpl in *; lia. Qed.

(** X17: when no recognized flag is repeated, the mask is at most
    0x1FF: only bits of the nine privileges are set. *)
Theorem privilege_mask_bounded (permissions : string) :
  NoDup (recognized_list permissions) ->
  exists mask : N,
    privilege_mask permissions = Ok mask /\ (mask <= 511)%N.
Proof.
  intros Hnodup. exists (sum_bits (recognized_list permissions)).
  split; [apply privilege_mask_sum|].
  assert (sum_bits (map_to_list privileges).*1 = 511%N) as <-
    by (vm_compute; reflexivity).
  apply sum_bits_submseteq, NoDup_submseteq; [done|].
  intros perm Hperm. unfold recognized_list in Hperm.
  apply list_elem_of_filter in Hperm as [[hex Hhex] _].
  apply list_elem_of_fmap. exists (perm, hex). split; [done|].
  by apply elem_of_map_to_list.
Qed.

Lemma privilege_mask_bounded_witness :
  NoDup (recognized_list
           "login,drac,user_management,clear_logs,server_control_commands,console_redirection,virtual_media,test_alerts,debug_commands")
  /\ exists mask : N,
       privilege_mask
         "login,drac,user_management,clear_logs,server_control_commands,console_redirection,virtual_media,test_alerts,debug_commands"
       = Ok mask /\ (mask <= 511)%N.
Proof.
  assert (NoDup (recognized_list
            "login,drac,user_management,clear_logs,server_control_commands,console_redirection,virtual_media,test_alerts,debug_commands"))
    as Hnodup by (apply (bool_decide_unpack _); vm_compute; reflexivity).
  split; [exact Hnodup|].
  exact (privilege_mask_bounded _ Hnodup).
Defined.

(** ** The remaining setters *)

(** One command with a scope: its result and the command line. *)
Lemma execute_cmd_result `{Runner World} (command scope : string)
  (host admin_username admin_password module : option string)
  (st : state World) :
  cmd_modswitch module = Ok scope ->
  let line := racadm_line host admin_username admin_password command scope in
  let result := __execute_cmd command host admin_username admin_password
                  module st in
  result.1 = Ok (bool_decide (retcode (cmd_run_all line (world st)).1 = 0))
  /\ calls result.2 = calls st ++ [line].
Proof.
  intros Hmod. cbn zeta.
  rewrite (execute_cmd_with_modswitch _ _ _ _ _ _ _ Hmod). cbn zeta.
  case_bool_decide as Hcode.
  - by rewrite bool_decide_eq_false_2.
  - by rewrite bool_decide_eq_true_2 by (first [done|by apply dec_stable]).
Qed.

(** X18: [server_poweroff], [server_poweron] and [server_hardreset]
    never raise: each runs its one command with the scope flag of the
    module and returns [True] exactly when the exit code is zero.  The
    scope flag is empty without a module, [-m] and the name for a module,
    and [-a] with the lower-cased kind for a module named [ALL_] and a
    kind. *)
Theorem power_actions_report_exit_code `{Runner World}
  (host admin_username admin_password module : option string)
  (st : state World) :
  (exists modswitch : string,
     cmd_modswitch module = Ok modswitch
     /\ let ran := fun (result : outcome bool * state World)
                       (command : string) =>
          let line := racadm_line host admin_username admin_password
                        command modswitch in
          result.1 = Ok (bool_decide
                           (retcode (cmd_run_all line (world st)).1 = 0))
          /\ calls result.2 = calls st ++ [line] in
        ran (server_poweroff host admin_username admin_password module st)
          "serveraction powerdown"
        /\ ran (server_poweron host admin_username admin_password module st)
             "serveraction powerup"
        /\ ran (server_hardreset host admin_username admin_password module st)
             "serveraction hardreset")
  /\ cmd_modswitch None = Ok ""
  /\ (forall kind : string,
        cmd_modswitch (Some ("ALL_" +:+ kind)) = Ok ("-a " +:+ lower kind))
  /\ (forall name : string,
        name <> "" -> startswith "ALL_" name = false ->
        cmd_modswitch (Some name) = Ok ("-m " +:+ name)).
Proof.
  split; [|split; [done|split]].
  - destruct (cmd_modswitch_total module) as [modswitch Hmod].
    exists modswitch. split; [done|]. cbn zeta.
    split; [by apply execute_cmd_result|].
    split; by apply execute_cmd_result.
  - intros kind. reflexivity.
  - intros name Hname Hall. unfold cmd_modswitch.
    destruct name as [|c name]; [done|].
    change (opt_truthy (Some (String c name))) with true.
    change (default "" (Some (String c name))) with (String c name).
    by rewrite Hall.
Qed.

(** X20: [deploy_password], [deploy_snmp] and [set_nicvlan] never raise:
    each runs its one command with the scope flag of the module and
    returns [True] exactly when the exit code is zero; without a VLAN
    [set_nicvlan] runs [setniccfg -v] with nothing after it. *)
Theorem deploy_setters_report_exit_code `{Runner World}
  (host admin_username admin_password module : option string)
  (st : state World) :
  exists modswitch : string,
    cmd_modswitch module = Ok modswitch
    /\ let ran := fun (result : outcome bool * state World)
                      (command : string) =>
         let line := racadm_line host admin_username admin_password
                       command modswitch in
         result.1 = Ok (bool_decide
                          (retcode (cmd_run_all line (world st)).1 = 0))
         /\ calls result.2 = calls st ++ [line] in
       (forall username password : string,
          ran (deploy_password username password host admin_username
                 admin_password module st)
            ("deploy -u " +:+ username +:+ " -p " +:+ password))
       /\ (forall snmp : string,
             ran (deploy_snmp snmp host admin_username admin_password
                    module st)
               ("deploy -v SNMPv2 " +:+ snmp +:+ " ro"))
       /\ (forall vlan : string,
             vlan <> "" ->
             ran (set_nicvlan (Some vlan) host admin_username admin_password
                    module st)
               ("setniccfg -v " +:+ vlan))
       /\ ran (set_nicvlan None host admin_username admin_password module st)
            "setniccfg -v "
       /\ ran (set_nicvlan (Some "") host admin_username admin_password
                 module st)
            "setniccfg -v ".
Proof.
  destruct (cmd_modswitch_total module) as [modswitch Hmod].
  exists modswitch. split; [done|]. cbn zeta.
  split; [intros username password; by apply execute_cmd_result|].
  split; [intros snmp; by apply execute_cmd_result|].
  split.
  { intros vlan Hvlan. unfold set_nicvlan. cbn [opt_truthy default].
    destruct vlan as [|c vlan]; [done|]. by apply execute_cmd_result. }
  split.
  - by apply (execute_cmd_result ("setniccfg -v " +:+ "")).
  - by apply (execute_cmd_result ("setniccfg -v " +:+ "")).
Qed.

(** X21: [set_general], [set_chassis_location] and
    [set_chassis_datacenter] never raise: each runs its one command,
    without a scope flag, and returns [True] exactly when the exit code
    is zero; [set_chassis_datacenter] writes the variable
    [cfgLocationDatacenter] of the group [cfgLocation]. *)
Theorem config_setters_report_exit_code `{Runner World}
  (host admin_username admin_password : option string) (st : state World) :
  let ran := fun (result : outcome bool * state World) (command : string) =>
    let line := racadm_line host admin_username admin_password command "" in
    result.1 = Ok (bool_decide (retcode (cmd_run_all line (world st)).1 = 0))
    /\ calls result.2 = calls st ++ [line] in
  (forall cfg_sec cfg_var val : string,
     ran (set_general cfg_sec cfg_var val host admin_username
            admin_password st)
       ("config -g " +:+ cfg_sec +:+ " -o " +:+ cfg_var +:+ " " +:+ val))
  /\ (forall location : string,
        ran (set_chassis_location location host admin_username
               admin_password st)
          ("setsysinfo -c chassislocation " +:+ location)
        /\ ran (set_chassis_datacenter location host admin_username
                  admin_password st)
             ("config -g cfgLocation -o cfgLocationDatacenter "
              +:+ location)).
Proof.
  cbn zeta. split.
  - intros cfg_sec cfg_var val. by apply execute_cmd_unscoped_result.
  - intros location. split; [by apply execute_cmd_unscoped_result|].
    by apply (execute_cmd_unscoped_result
                ("config -g " +:+ "cfgLocation" +:+ " -o "
                 +:+ "cfgLocationDatacenter" +:+ " " +:+ location)).
Qed.


(** ** [get_general] *)

(** X19: [get_general] and [get_chassis_datacenter] never raise.  On a
    nonzero exit code they return the runner's whole result; on exit code
    zero they return the cleaned output as text, whose lines are the kept
    lines of the raw output, so that an output with one kept line gives
    that line without any line terminator. *)
Theorem get_general_returns_clean_text `{Runner World} (cfg_sec cfg_var : string)
  (host admin_username admin_password : option string) (st : state World) :
  let line := racadm_line host admin_username admin_password
                ("getconfig -g " +:+ cfg_sec +:+ " -o " +:+ cfg_var) "" in
  let cmd := (cmd_run_all line (world st)).1 in
  let kept := filter (fun l => keep_line l = true)
                (splitlines (stdout cmd)) in
  match (get_general cfg_sec cfg_var host admin_username admin_password st).1
  with
  | Ok (RawResult raw) => retcode cmd <> 0 /\ raw = cmd
  | Ok (Parsed text) =>
      retcode cmd = 0
      /\ splitlines text = kept
      /\ forall value : string, kept = [value] -> text = value
  | Raise _ => False
  end
  /\ get_chassis_datacenter host admin_username admin_password st
     = get_general "cfgLocation" "cfgLocationDatacenter"
         host admin_username admin_password st.
Proof.
  cbn zeta. split; [|reflexivity]. unfold get_general.
  unfold mbind at 1, M_bind at 1. rewrite execute_ret_unscoped. cbn zeta.
  set (cmd := (cmd_run_all _ (world st)).1).
  destruct (decide (retcode cmd = 0)) as [Hzero|Hfail].
  - rewrite (bool_decide_eq_false_2 (retcode cmd ≠ 0)) by auto.
    cbn [set_stdout retcode stdout].
    rewrite (bool_decide_eq_true_2 (retcode cmd = 0)) by done.
    cbn. split; [done|]. split; [apply splitlines_clean_stdout|].
    intros value Hkept. unfold clean_stdout. by rewrite Hkept.
  - rewrite (bool_decide_eq_true_2 (retcode cmd ≠ 0)) by done.
    rewrite (bool_decide_eq_false_2 (retcode cmd = 0)) by done.
    cbn. done.
Qed.
